(** * terraform-provider-smc: the account resource and data sources

    A shallow embedding of [internal/provider]: the provider's [Configure],
    the [smc_account] resource (Create / Read / Update / Delete), the
    [smc_account] and [smc_accounts] data sources, and the two projection
    functions [readAccountResourceModel] and [readAccountDataSourceModel].

    Handlers are written in state-passing style: a handler receives the
    response object the framework hands to it and returns the response as
    the Go code leaves it, together with the final value of its local
    [data] variable and the HTTP requests it issued, in order. *)

From Stdlib Require Import ZArith String Ascii.
From stdpp Require Import base list strings pretty.

Local Open Scope string_scope.
Local Open Scope Z_scope.
Local Open Scope list_scope.
Local Open Scope stdpp_scope.

(** ** Diagnostics ([terraform-plugin-framework/diag]) *)

Module diag.

Inductive Severity := SeverityError | SeverityWarning.

Record Diagnostic := NewDiagnostic {
  severity : Severity;
  attribute : option string;   (* path.Root(...) of an attribute error *)
  Summary : string;
  Detail : string
}.

Definition Diagnostics := list Diagnostic.

Definition NewErrorDiagnostic (summary detail : string) : Diagnostic :=
  NewDiagnostic SeverityError None summary detail.

Definition NewAttributeErrorDiagnostic (p summary detail : string) : Diagnostic :=
  NewDiagnostic SeverityError (Some p) summary detail.

Definition isError (d : Diagnostic) : bool :=
  match severity d with SeverityError => true | SeverityWarning => false end.

(** [diags.HasError()] *)
Definition HasError (diags : Diagnostics) : bool := existsb isError diags.

#[global] Instance Severity_eq_dec : EqDecision Severity.
Proof. solve_decision. Defined.

#[global] Instance Diagnostic_eq_dec : EqDecision Diagnostic.
Proof. solve_decision. Defined.

(** [diags.Contains(in)] *)
Definition Contains (diags : Diagnostics) (d : Diagnostic) : bool :=
  existsb (fun d' => bool_decide (d' = d)) diags.

(** [diags.Append(in...)]: each diagnostic goes to the end unless an equal
    one is there already. *)
Fixpoint Append (diags more : Diagnostics) : Diagnostics :=
  match more with
  | [] => diags
  | d :: more' => Append (if Contains diags d then diags else diags ++ [d]) more'
  end.

(** [diags.AddError(summary, detail)] *)
Definition AddError (diags : Diagnostics) (summary detail : string) : Diagnostics :=
  Append diags [NewErrorDiagnostic summary detail].

(** [diags.AddAttributeError(path, summary, detail)] *)
Definition AddAttributeError (diags : Diagnostics) (p summary detail : string) : Diagnostics :=
  Append diags [NewAttributeErrorDiagnostic p summary detail].

End diag.

(** ** Framework values ([terraform-plugin-framework/types]) *)

Module strconv.

Definition dquote : ascii := ascii_of_nat 34.
Definition backslash : ascii := ascii_of_nat 92.

Definition hexdigit (n : nat) : ascii :=
  if Nat.ltb n 10 then ascii_of_nat (48 + n) else ascii_of_nat (87 + n).

(** The escape of one byte of the ASCII range inside a double-quoted Go
    literal: the quote and the backslash get a backslash, control
    characters their letter or a [\x] escape, every other ASCII character
    stands for itself.  From 128 on Go decodes UTF-8 and writes
    unprintable code points and invalid bytes as escapes, which depends
    on the Unicode tables; this definition leaves such bytes as they are,
    so it is Go's escape on ASCII text only. *)
Definition escape (c : ascii) : string :=
  let n := nat_of_ascii c in
  if Nat.eqb n 34 then String backslash (String dquote EmptyString)
  else if Nat.eqb n 92 then String backslash (String backslash EmptyString)
  else if Nat.eqb n 7 then String backslash "a"
  else if Nat.eqb n 8 then String backslash "b"
  else if Nat.eqb n 12 then String backslash "f"
  else if Nat.eqb n 10 then String backslash "n"
  else if Nat.eqb n 13 then String backslash "r"
  else if Nat.eqb n 9 then String backslash "t"
  else if Nat.eqb n 11 then String backslash "v"
  else if Nat.ltb n 32 || Nat.eqb n 127
       then String backslash
             (String "x" (String (hexdigit (n / 16)) (String (hexdigit (n mod 16)) EmptyString)))
  else String c EmptyString.

Fixpoint escapes (s : string) : string :=
  match s with
  | EmptyString => EmptyString
  | String c s' => escape c +:+ escapes s'
  end.

(** [strconv.Quote(s)], which is what [fmt.Sprintf("%q", s)] prints, for
    a string of ASCII characters. *)
Definition Quote (s : string) : string :=
  String dquote (escapes s +:+ String dquote EmptyString).

(** Whether every byte of the string is of the ASCII range. *)
Fixpoint isASCII (s : string) : bool :=
  match s with
  | EmptyString => true
  | String c s' => Nat.ltb (nat_of_ascii c) 128 && isASCII s'
  end.

End strconv.

Module types.

(** [types.String]: a string that is null, unknown or known. *)
Inductive String := StringNull | StringUnknown | StringValue (value : string).

(** [types.Bool] *)
Inductive Bool := BoolNull | BoolUnknown | BoolValue (value : bool).

(** [attr.Type], as far as this provider uses it. *)
Inductive Type_ := StringType | BoolType.

(** [attr.Value]: the interface a list element is stored under; its zero
    value is the nil interface, which is what [make([]attr.Value, n)]
    fills a fresh slice with. *)
Inductive Value := nilValue | OfString (s : String) | OfBool (b : Bool).

(** [types.List].  [ListNull], [ListUnknown] and [ListKnown] are lists
    of [StringType], as [Get] decodes them and [types.ListValue] makes
    them.  [ListZero] is Go's zero value [types.List{}], which a list
    field of a struct holds until something is assigned to it: a null
    list that carries no element type. *)
Inductive List := ListNull | ListUnknown | ListKnown (elements : list Value) | ListZero.

(** Whether a list carries the element type [StringType]. *)
Definition hasElementType (l : List) : bool :=
  match l with ListZero => false | _ => true end.

Definition StringPointerValue (p : option string) : String :=
  match p with None => StringNull | Some s => StringValue s end.

Definition BoolPointerValue (p : option bool) : Bool :=
  match p with None => BoolNull | Some b => BoolValue b end.

Definition IsNull (s : String) : bool :=
  match s with StringNull => true | _ => false end.

Definition IsUnknown (s : String) : bool :=
  match s with StringUnknown => true | _ => false end.

(** [s.ValueString()]: the known value, the empty string otherwise. *)
Definition ValueString (s : String) : string :=
  match s with StringValue v => v | _ => "" end.

(** [s.String()]: the human-readable rendering, quoted when known; the
    quoting is Go's for a value of ASCII characters. *)
Definition String_ (s : String) : string :=
  match s with
  | StringUnknown => "<unknown>"
  | StringNull => "<null>"
  | StringValue v => strconv.Quote v
  end.

Definition hasType (t : Type_) (v : Value) : bool :=
  match t, v with
  | StringType, OfString _ => true
  | BoolType, OfBool _ => true
  | _, _ => false
  end.

(** [types.ListValue(elementType, elements)]: a known list when every
    element has the element type, otherwise an unknown list and an error
    diagnostic. *)
Definition ListValue (t : Type_) (elements : list Value) : List * diag.Diagnostics :=
  if forallb (hasType t) elements
  then (ListKnown elements, [])
  else (ListUnknown,
        [diag.NewErrorDiagnostic "Invalid List Element Type"
           "While creating a List value, an invalid element was detected."]).

End types.

(** ** The remote account ([smc.DefinitionsAccountsAccountPropertiesWithoutPassword])

    Optional wire fields are pointers; [Uuid] is a plain string, so a
    payload without a [uuid] key decodes to the empty string. *)

Module json.

(** A JSON document; an object keeps its keys in the order they were
    written. *)
#[warnings="-register-all"] Inductive Value :=
| Null
| Boolean (b : bool)
| Str (s : string)
| Array (elements : list Value)
| Object (members : list (string * Value)).

Definition keys (v : Value) : list string :=
  match v with Object members => map fst members | _ => [] end.

End json.

Module http.

Definition StatusOK : Z := 200.
Definition StatusCreated : Z := 201.

(** An HTTP call of the generated client, by operation. *)
Inductive Request :=
| PostApiAccounts (contentType : string) (body : json.Value)
| GetApiAccounts
| GetApiAccountsUuid (uuid : string)
| PutApiAccountsUuid (uuid : string) (contentType : string) (body : json.Value)
| DeleteApiAccountsUuid (uuid : string).

End http.

Module smc.

Record DefinitionsAccountsAccountPropertiesWithoutPassword := {
  Description : option string;
  Dn : option string;
  Email : option string;
  Folders : option (list string);
  Identifier : option string;
  Kind : option string;
  LocalAuth : option bool;
  Name : option string;
  Permissions : option (list string);
  Uuid : string
}.

(** The [{result, success}] envelope of the mutating and listing calls. *)
Record Envelope (R : Type) := {
  Result : option R;
  Success : option bool
}.
Arguments Result {R} _.
Arguments Success {R} _.

(** A parsed response: the status line and the body decoded for the
    documented status ([JSON201] for POST, [JSON200] otherwise), nil when
    it was not decoded. *)
Record Response (B : Type) := {
  Status : string;
  StatusCode : Z;
  JSON : option B
}.
Arguments Status {B} _.
Arguments StatusCode {B} _.
Arguments JSON {B} _.

Definition JSON200 {B} (r : Response B) : option B := JSON r.
Definition JSON201 {B} (r : Response B) : option B := JSON r.

(** A Go [error], by its message. *)
Definition error := string.

Definition Account := DefinitionsAccountsAccountPropertiesWithoutPassword.

(** [*smc.ClientWithResponses]: one function per call; a call returns a
    response or a transport error. *)
Record ClientWithResponses := {
  PostApiAccountsWithBodyWithResponse :
    string -> json.Value -> Response (Envelope Account) + error;
  GetApiAccountsWithResponse :
    Response (Envelope (list Account)) + error;
  GetApiAccountsUuidWithResponse :
    string -> Response Account + error;
  PutApiAccountsUuidWithBodyWithResponse :
    string -> string -> json.Value -> Response (Envelope Account) + error;
  DeleteApiAccountsUuidWithResponse :
    string -> Response (Envelope Account) + error
}.

End smc.

(** ** Plans, configurations and states ([terraform-plugin-framework/tfsdk]) *)

Module tfsdk.

(** A plan, a configuration or a prior state as a handler reads it:
    [Get(ctx, &data)] yields the decoded record and the diagnostics of
    the decoding. *)
Record Data (M : Type) := {
  Get : M * diag.Diagnostics
}.
Arguments Get {M} _.

(** The state a handler writes: null, or the record last stored. *)
Definition State (M : Type) := option M.

(** [state.Set(ctx, &data)] for a record whose lists carry their element
    type, which every record decoded by [Get] does, and every projection
    onto such a record: the models of this provider carry the [tfsdk]
    tags of their schemas, so the conversion reports nothing. *)
Definition Set_ {M} (st : State M) (data : M) : State M * diag.Diagnostics :=
  (Some data, []).

(** The diagnostic of a value that does not have the type of its
    attribute.  The detail names the expected and the received type. *)
Definition ConversionError (p : string) : diag.Diagnostic :=
  diag.NewAttributeErrorDiagnostic p "Value Conversion Error"
    ("An unexpected error was encountered while verifying an attribute value "
       +:+ "matched its expected type to prevent unexpected behavior or panics. "
       +:+ "This is always an error in the provider. "
       +:+ "Expected framework type from provider logic: types.ListType[basetypes.StringType]. "
       +:+ "Received framework type from provider logic: types.ListType[!!! MISSING TYPE !!!]. "
       +:+ "Path: " +:+ p).

(** [state.Set(ctx, &data)] in general.  The record is first converted to
    the type of the schema, attribute by attribute, and a list without
    element type does not convert: the conversion stops at the first
    attribute that fails, with one error for it, and the state keeps what
    it held.  [mismatch data] is the path of that attribute, if there is
    one. *)
Definition SetConverted {M} (mismatch : M -> option string) (st : State M) (data : M)
  : State M * diag.Diagnostics :=
  match mismatch data with
  | Some p => (st, [ConversionError p])
  | None => Set_ st data
  end.

End tfsdk.

(** ** Filling a slice by index

    [attrs := make([]attr.Value, len(xs)); for idx, x := range xs { attrs[idx] = f(x) }] *)

Fixpoint rangeAssign {A B} (f : A -> B) (idx : nat) (xs : list A) (attrs : list B) : list B :=
  match xs with
  | [] => attrs
  | x :: xs' => rangeAssign f (S idx) xs' (<[idx := f x]> attrs)
  end.

Definition stringAttrs (xs : list string) : list types.Value :=
  rangeAssign (fun x => types.OfString (types.StringValue x)) 0 xs
              (replicate (length xs) types.nilValue).

(** ** The resource model and its projection *)

Module AccountResourceModel.

Record t := {
  Description : types.String;
  DN : types.String;
  Email : types.String;
  Folders : types.List;
  Identifier : types.String;
  Kind : types.String;
  LastUpdated : types.String;
  LocalAuth : types.Bool;
  Name : types.String;
  Password : types.String;
  Permissions : types.List;
  UUID : types.String
}.

(** The record with every attribute null, the lists null lists of their
    element type: what [Get] decodes from a plan or a state that sets no
    attribute. *)
Definition zero : t := {|
  Description := types.StringNull;
  DN := types.StringNull;
  Email := types.StringNull;
  Folders := types.ListNull;
  Identifier := types.StringNull;
  Kind := types.StringNull;
  LastUpdated := types.StringNull;
  LocalAuth := types.BoolNull;
  Name := types.StringNull;
  Password := types.StringNull;
  Permissions := types.ListNull;
  UUID := types.StringNull
|}.

End AccountResourceModel.

(** [readAccountResourceModel(data, item)]; [now] is
    [time.Now().Format(time.RFC850)] at the moment of the call. *)
Definition readAccountResourceModel (now : string) (data : AccountResourceModel.t)
    (item : smc.DefinitionsAccountsAccountPropertiesWithoutPassword)
  : AccountResourceModel.t :=
  {| AccountResourceModel.Description := types.StringPointerValue (smc.Description item);
     AccountResourceModel.DN := types.StringPointerValue (smc.Dn item);
     AccountResourceModel.Email := types.StringPointerValue (smc.Email item);
     AccountResourceModel.Folders :=
       match smc.Folders item with
       | Some folders => fst (types.ListValue types.StringType (stringAttrs folders))
       | None => AccountResourceModel.Folders data
       end;
     AccountResourceModel.Identifier := types.StringPointerValue (smc.Identifier item);
     AccountResourceModel.Kind := types.StringPointerValue (smc.Kind item);
     AccountResourceModel.LocalAuth := types.BoolPointerValue (smc.LocalAuth item);
     AccountResourceModel.Name := types.StringPointerValue (smc.Name item);
     AccountResourceModel.Permissions :=
       match smc.Permissions item with
       | Some permissions => fst (types.ListValue types.StringType (stringAttrs permissions))
       | None => AccountResourceModel.Permissions data
       end;
     AccountResourceModel.UUID := types.StringValue (smc.Uuid item);
     AccountResourceModel.LastUpdated := types.StringValue now;
     AccountResourceModel.Password := AccountResourceModel.Password data |}.

(** ** The data-source model and its projection *)

Module AccountDataSourceModel.

Record t := {
  UUID : types.String;
  Description : types.String;
  DN : types.String;
  Email : types.String;
  Folders : types.List;
  Identifier : types.String;
  Kind : types.String;
  LocalAuth : types.Bool;
  Name : types.String;
  Permissions : types.List
}.

(** The record with every attribute null, the lists null lists of their
    element type: what [Get] decodes from a configuration that sets no
    attribute. *)
Definition zero : t := {|
  UUID := types.StringNull;
  Description := types.StringNull;
  DN := types.StringNull;
  Email := types.StringNull;
  Folders := types.ListNull;
  Identifier := types.StringNull;
  Kind := types.StringNull;
  LocalAuth := types.BoolNull;
  Name := types.StringNull;
  Permissions := types.ListNull
|}.

(** Go's zero value of the struct, as [make([]AccountDataSourceModel, n)]
    fills a slice: the strings and the boolean are null, the lists are
    the zero [types.List], without element type. *)
Definition unassigned : t := {|
  UUID := types.StringNull;
  Description := types.StringNull;
  DN := types.StringNull;
  Email := types.StringNull;
  Folders := types.ListZero;
  Identifier := types.StringNull;
  Kind := types.StringNull;
  LocalAuth := types.BoolNull;
  Name := types.StringNull;
  Permissions := types.ListZero
|}.

End AccountDataSourceModel.

(** [readAccountDataSourceModel(data, item)] *)
Definition readAccountDataSourceModel (data : AccountDataSourceModel.t)
    (item : smc.DefinitionsAccountsAccountPropertiesWithoutPassword)
  : AccountDataSourceModel.t :=
  {| AccountDataSourceModel.Description := types.StringPointerValue (smc.Description item);
     AccountDataSourceModel.DN := types.StringPointerValue (smc.Dn item);
     AccountDataSourceModel.Email := types.StringPointerValue (smc.Email item);
     AccountDataSourceModel.Folders :=
       match smc.Folders item with
       | Some folders => fst (types.ListValue types.StringType (stringAttrs folders))
       | None => AccountDataSourceModel.Folders data
       end;
     AccountDataSourceModel.Identifier := types.StringPointerValue (smc.Identifier item);
     AccountDataSourceModel.Kind := types.StringPointerValue (smc.Kind item);
     AccountDataSourceModel.LocalAuth := types.BoolPointerValue (smc.LocalAuth item);
     AccountDataSourceModel.Name := types.StringPointerValue (smc.Name item);
     AccountDataSourceModel.Permissions :=
       match smc.Permissions item with
       | Some permissions => fst (types.ListValue types.StringType (stringAttrs permissions))
       | None => AccountDataSourceModel.Permissions data
       end;
     AccountDataSourceModel.UUID := types.StringValue (smc.Uuid item) |}.

(** ** JSON encoding of the resource model ([encoding/json])

    [json.Marshal] writes one member per exported field of the struct, in
    declaration order, under the name of the field's [json] tag; no tag of
    [AccountResourceModel] carries [omitempty].  [encS], [encB] and [encL]
    encode the values of the three framework types. *)

Section Marshal.

Variable encS : types.String -> json.Value.
Variable encB : types.Bool -> json.Value.
Variable encL : types.List -> json.Value.

Definition MarshalWith (data : AccountResourceModel.t) : json.Value :=
  json.Object
    [ ("description", encS (AccountResourceModel.Description data));
      ("dn", encS (AccountResourceModel.DN data));
      ("email", encS (AccountResourceModel.Email data));
      ("folders", encL (AccountResourceModel.Folders data));
      ("identifier", encS (AccountResourceModel.Identifier data));
      ("kind", encS (AccountResourceModel.Kind data));
      ("last_updated", encS (AccountResourceModel.LastUpdated data));
      ("local_auth", encB (AccountResourceModel.LocalAuth data));
      ("name", encS (AccountResourceModel.Name data));
      ("password", encS (AccountResourceModel.Password data));
      ("permissions", encL (AccountResourceModel.Permissions data));
      ("uuid", encS (AccountResourceModel.UUID data)) ].

End Marshal.

(** The framework's value types are structs without exported fields and
    without a [MarshalJSON] method: [encoding/json] writes each of them as
    the empty object.  Encoding such a struct cannot fail, so the [err] of
    [json.Marshal(data)] is always nil. *)
Definition emptyObject {A} (_ : A) : json.Value := json.Object [].

Definition json_Marshal (data : AccountResourceModel.t) : json.Value :=
  MarshalWith emptyObject emptyObject emptyObject data.

(** ** Requests and responses of the framework ([resource], [datasource]) *)

Module fw.

(** [CreateRequest.Plan], [UpdateRequest.Plan], [ReadRequest.State],
    [DeleteRequest.State] and the data sources' [ReadRequest.Config]: each
    handler reads exactly one of them. *)
Record CreateRequest := { Plan : tfsdk.Data AccountResourceModel.t }.
Record UpdateRequest := { UpdatePlan : tfsdk.Data AccountResourceModel.t }.
Record ReadRequest := { PriorState : tfsdk.Data AccountResourceModel.t }.
Record DeleteRequest := { DeleteState : tfsdk.Data AccountResourceModel.t }.
Record ConfigRequest (M : Type) := { Config : tfsdk.Data M }.
Arguments Config {M} _.

(** [CreateResponse], [ReadResponse], [UpdateResponse], [DeleteResponse]:
    the state to persist and the diagnostics. *)
Record Response (M : Type) := {
  State : tfsdk.State M;
  Diagnostics : diag.Diagnostics
}.
Arguments State {M} _.
Arguments Diagnostics {M} _.

Definition Append {M} (resp : Response M) (diags : diag.Diagnostics) : Response M :=
  {| State := State resp; Diagnostics := diag.Append (Diagnostics resp) diags |}.

Definition AddError {M} (resp : Response M) (summary detail : string) : Response M :=
  {| State := State resp; Diagnostics := diag.AddError (Diagnostics resp) summary detail |}.

(** [resp.Diagnostics.Append(resp.State.Set(ctx, &data)...)] for a record
    decoded by [Get] and then projected. *)
Definition SetState {M} (resp : Response M) (data : M) : Response M :=
  let '(st, diags) := tfsdk.Set_ (State resp) data in
  {| State := st; Diagnostics := diag.Append (Diagnostics resp) diags |}.

(** [resp.Diagnostics.Append(resp.State.Set(ctx, &data)...)] for a record
    built from zero values. *)
Definition SetStateConverted {M} (mismatch : M -> option string)
    (resp : Response M) (data : M) : Response M :=
  let '(st, diags) := tfsdk.SetConverted mismatch (State resp) data in
  {| State := st; Diagnostics := diag.Append (Diagnostics resp) diags |}.

(** What a handler leaves behind when it returns: its local [data], the
    response, and the HTTP requests it sent. *)
Record Ran (D M : Type) := {
  data : D;
  resp : Response M;
  requests : list http.Request
}.
Arguments data {D M} _.
Arguments resp {D M} _.
Arguments requests {D M} _.

End fw.

(** ** UTF-8 ([unicode/utf8])

    A Go string is a sequence of bytes; the packages that look at
    characters decode it as UTF-8, one code point (rune) at a time. *)

Module utf8.

(** [rune]: a Unicode code point. *)
Definition rune := Z.

Definition RuneError : rune := 65533.   (* U+FFFD *)
Definition RuneSelf : Z := 128.

(** A byte of a Go string, as a number. *)
Definition byte (c : ascii) : Z := Z.of_N (N_of_ascii c).

(** [s[i]] for an index within the string. *)
Definition index (s : string) (i : nat) : Z :=
  match String.get i s with Some c => byte c | None => 0 end.

(** The table [first] with [acceptRanges]: for the first byte of a
    sequence of several bytes, the length of the sequence and the range
    its second byte has to lie in; nothing for a byte that starts no
    such sequence. *)
Definition first (s0 : Z) : option (nat * Z * Z) :=
  if s0 <? 194 then None                         (* 0x00-0xC1 *)
  else if s0 <=? 223 then Some (2%nat, 128, 191) (* 0xC2-0xDF *)
  else if s0 =? 224 then Some (3%nat, 160, 191)  (* 0xE0 *)
  else if s0 =? 237 then Some (3%nat, 128, 159)  (* 0xED *)
  else if s0 <=? 239 then Some (3%nat, 128, 191) (* 0xE1-0xEC, 0xEE, 0xEF *)
  else if s0 =? 240 then Some (4%nat, 144, 191)  (* 0xF0 *)
  else if s0 <=? 243 then Some (4%nat, 128, 191) (* 0xF1-0xF3 *)
  else if s0 =? 244 then Some (4%nat, 128, 143)  (* 0xF4 *)
  else None.                                     (* 0xF5-0xFF *)

Definition locb : Z := 128.
Definition hicb : Z := 191.
Definition maskx : Z := 63.
Definition mask2 : Z := 31.
Definition mask3 : Z := 15.
Definition mask4 : Z := 7.

(** [utf8.DecodeRuneInString(s)]: the first code point of [s] and the
    number of bytes it takes; [(RuneError, 1)] where the bytes are no
    valid encoding, [(RuneError, 0)] for the empty string. *)
Definition DecodeRuneInString (s : string) : rune * nat :=
  let n := String.length s in
  if (n <? 1)%nat then (RuneError, 0%nat)
  else
    let s0 := index s 0 in
    if s0 <? RuneSelf then (s0, 1%nat)
    else
      match first s0 with
      | None => (RuneError, 1%nat)
      | Some (sz, lo, hi) =>
          if (n <? sz)%nat then (RuneError, 1%nat)
          else
            let s1 := index s 1 in
            if (s1 <? lo) || (hi <? s1) then (RuneError, 1%nat)
            else if (sz <=? 2)%nat then
              (Z.lor (Z.shiftl (Z.land s0 mask2) 6) (Z.land s1 maskx), 2%nat)
            else
              let s2 := index s 2 in
              if (s2 <? locb) || (hicb <? s2) then (RuneError, 1%nat)
              else if (sz <=? 3)%nat then
                (Z.lor (Z.lor (Z.shiftl (Z.land s0 mask3) 12)
                               (Z.shiftl (Z.land s1 maskx) 6))
                       (Z.land s2 maskx), 3%nat)
              else
                let s3 := index s 3 in
                if (s3 <? locb) || (hicb <? s3) then (RuneError, 1%nat)
                else
                  (Z.lor (Z.lor (Z.lor (Z.shiftl (Z.land s0 mask4) 18)
                                        (Z.shiftl (Z.land s1 maskx) 12))
                                (Z.shiftl (Z.land s2 maskx) 6))
                         (Z.land s3 maskx), 4%nat)
      end.

(** The code points of a text as a matcher steps through it: the one
    decoded at the position, then on by its width; [skip] counts the
    bytes still to pass over. *)
Fixpoint runesFrom (skip : nat) (s : string) : list rune :=
  match s with
  | EmptyString => []
  | String _ s' =>
      match skip with
      | S skip' => runesFrom skip' s'
      | O => let '(r, size) := DecodeRuneInString s in r :: runesFrom (size - 1) s'
      end
  end.

Definition runes (s : string) : list rune := runesFrom 0 s.

End utf8.

(** ** Regular expressions ([regexp])

    The one expression of this provider is anchored at both ends and each
    of its atoms consumes exactly one code point, so an expression is kept
    as the sequence of its atoms: [^ a1 a2 ... an $].  The matcher steps
    through the text with [utf8.DecodeRuneInString]: an atom meets a code
    point, which may take up to four bytes of the string, and a byte that
    belongs to no valid encoding counts as the code point [RuneError]. *)

Module regexp.

Inductive Atom :=
| Char (c : ascii)            (* a literal of the ASCII range, such as [\$] *)
| Class (cs : list ascii)     (* a bracket expression, such as [[ayb]] *)
| Dot.                        (* [.]: any code point but the newline *)

Definition Regexp := list Atom.

Definition newline : ascii := ascii_of_nat 10.

Definition matchAtom (a : Atom) (r : utf8.rune) : bool :=
  match a with
  | Char c => r =? utf8.byte c
  | Class cs => existsb (fun c => r =? utf8.byte c) cs
  | Dot => negb (r =? utf8.byte newline)
  end.

(** The atoms against the code points of the text, one for one. *)
Fixpoint matchRunes (re : Regexp) (rs : list utf8.rune) : bool :=
  match re, rs with
  | [], [] => true
  | a :: re', r :: rs' => matchAtom a r && matchRunes re' rs'
  | _, _ => false
  end.

(** [re.MatchString(s)] *)
Definition MatchString (re : Regexp) (s : string) : bool :=
  matchRunes re (utf8.runes s).

End regexp.

(** ** Validators ([terraform-plugin-framework-validators]) *)

Module validator.

Inductive String :=
| OneOf (values : list string)
| RegexMatches (re : regexp.Regexp) (message : string).

Inductive List :=
| ValueStringsAre (elementValidators : list String).

Definition invalid (attribute detail : string) : diag.Diagnostics :=
  [diag.NewAttributeErrorDiagnostic attribute "Invalid Attribute Value Match" detail].

(** [ValidateString]: a null or unknown value is not looked at. *)
Definition ValidateString (v : String) (attribute : string) (value : types.String)
  : diag.Diagnostics :=
  match value with
  | types.StringValue s =>
      match v with
      | OneOf values =>
          if existsb (String.eqb s) values then []
          else invalid attribute ("value must be one of the listed values, got: " +:+ s)
      | RegexMatches re message =>
          if regexp.MatchString re s then []
          else invalid attribute (message +:+ ", got: " +:+ s)
      end
  | _ => []
  end.

(** [ValidateList]: a null or unknown list is not looked at; every element
    of a known list goes through every element validator. *)
Definition ValidateList (v : List) (attribute : string) (value : types.List)
  : diag.Diagnostics :=
  match v, value with
  | ValueStringsAre elementValidators, types.ListKnown elements =>
      flat_map
        (fun element =>
           match element with
           | types.OfString s =>
               flat_map (fun ev => ValidateString ev attribute s) elementValidators
           | _ => invalid attribute "element is not a string"
           end)
        elements
  | _, _ => []
  end.

End validator.

(** ** Schemas ([resource/schema]); descriptions are left out. *)

Module schema.

Inductive Attribute :=
| StringAttribute (Optional Computed Sensitive : bool) (Validators : list validator.String)
| BoolAttribute (Optional Computed : bool)
| ListAttribute (Optional Computed : bool) (ElementType : types.Type_)
    (Validators : list validator.List).

(** [map[string]schema.Attribute], written in the order of the source. *)
Definition Attributes := list (string * Attribute).

End schema.

(** ** The account resource *)

Module AccountResource.

Record t := { client : smc.ClientWithResponses }.

Definition passwordRegexp : regexp.Regexp :=
  [regexp.Char "$"; regexp.Char "2"; regexp.Class ["a"; "y"; "b"]%char; regexp.Char "$"]
    ++ replicate 56 regexp.Dot.

Definition Schema : schema.Attributes :=
  [ ("description", schema.StringAttribute true false false []);
    ("dn", schema.StringAttribute true false false []);
    ("email", schema.StringAttribute true false false []);
    ("folders", schema.ListAttribute true false types.StringType []);
    ("identifier", schema.StringAttribute true false false []);
    ("kind", schema.StringAttribute true false false
               [validator.OneOf ["user"; "group"]]);
    ("last_updated", schema.StringAttribute false true false []);
    ("local_auth", schema.BoolAttribute true false);
    ("name", schema.StringAttribute true false false []);
    ("password", schema.StringAttribute true false true
               [validator.RegexMatches passwordRegexp
                  "Password must be a valid bcrypt hash"]);
    ("permissions", schema.ListAttribute true false types.StringType
               [validator.ValueStringsAre
                  [validator.OneOf ["smc"; "sns"; "console"; "ssh"; "api"]]]);
    ("uuid", schema.StringAttribute false true false []) ].

Definition Done := fw.Ran AccountResourceModel.t AccountResourceModel.t.

Definition ret (data : AccountResourceModel.t) (resp : fw.Response AccountResourceModel.t)
    (requests : list http.Request) : Done :=
  {| fw.data := data; fw.resp := resp; fw.requests := requests |}.

Definition Create (r : t) (now : string) (req : fw.CreateRequest)
    (resp : fw.Response AccountResourceModel.t) : Done :=
  let '(data, diags) := tfsdk.Get (fw.Plan req) in
  let resp := fw.Append resp diags in
  if diag.HasError (fw.Diagnostics resp) then ret data resp []
  else
    let body := json_Marshal data in
    let sent := [http.PostApiAccounts "application/json" body] in
    match smc.PostApiAccountsWithBodyWithResponse (client r) "application/json" body with
    | inr err =>
        ret data
          (fw.AddError resp "Error Creating the SMC Account"
             ("Could not read the SMC account identifier "
                +:+ types.ValueString (AccountResourceModel.Identifier data)
                +:+ ": " +:+ err))
          sent
    | inl respAPI =>
        if negb (smc.StatusCode respAPI =? http.StatusCreated) then
          ret data
            (fw.AddError resp "HTTP Error Creating the SMC Account"
               ("HTTP status code " +:+ smc.Status respAPI
                  +:+ " returned while creating the SMC account"))
            sent
        else
          let noResults :=
            ret data
              (fw.AddError resp "No results Reading response after creating the SMC Account"
                 "No results returned after creating SMC the Account")
              sent in
          match smc.JSON201 respAPI with
          | None => noResults
          | Some envelope =>
              match smc.Result envelope with
              | None => noResults
              | Some item =>
                  let data := readAccountResourceModel now data item in
                  ret data (fw.SetState resp data) sent
              end
          end
    end.

Definition Read (r : t) (now : string) (req : fw.ReadRequest)
    (resp : fw.Response AccountResourceModel.t) : Done :=
  let '(data, diags) := tfsdk.Get (fw.PriorState req) in
  let resp := fw.Append resp diags in
  if diag.HasError (fw.Diagnostics resp) then ret data resp []
  else
    let uuid := types.ValueString (AccountResourceModel.UUID data) in
    let sent := [http.GetApiAccountsUuid uuid] in
    match smc.GetApiAccountsUuidWithResponse (client r) uuid with
    | inr err =>
        ret data
          (fw.AddError resp "Error Reading the SMC Account"
             ("Could not read the SMC account with UUID "
                +:+ types.String_ (AccountResourceModel.UUID data)
                +:+ ": " +:+ err))
          sent
    | inl respAPI =>
        if negb (smc.StatusCode respAPI =? http.StatusOK) then
          ret data
            (fw.AddError resp "HTTP Error Reading the SMC Account"
               ("HTTP status code " +:+ smc.Status respAPI
                  +:+ " returned while reading the SMC account"))
            sent
        else
          match smc.JSON200 respAPI with
          | None =>
              ret data
                (fw.AddError resp "No result Reading the SMC Account"
                   "No result returned after reading the SMC Account")
                sent
          | Some item =>
              let data := readAccountResourceModel now data item in
              ret data (fw.SetState resp data) sent
          end
    end.

Definition Update (r : t) (now : string) (req : fw.UpdateRequest)
    (resp : fw.Response AccountResourceModel.t) : Done :=
  let '(data, diags) := tfsdk.Get (fw.UpdatePlan req) in
  let resp := fw.Append resp diags in
  if diag.HasError (fw.Diagnostics resp) then ret data resp []
  else
    let body := json_Marshal data in
    let uuid := types.String_ (AccountResourceModel.UUID data) in
    let sent := [http.PutApiAccountsUuid uuid "application/json" body] in
    match smc.PutApiAccountsUuidWithBodyWithResponse (client r) uuid "application/json" body with
    | inr err =>
        ret data
          (fw.AddError resp "Error Updating the SMC Account"
             ("Could not update the SMC account UUID "
                +:+ types.String_ (AccountResourceModel.UUID data)
                +:+ ": " +:+ err))
          sent
    | inl respAPI =>
        if negb (smc.StatusCode respAPI =? http.StatusOK) then
          ret data
            (fw.AddError resp "HTTP Error Updating the SMC Account"
               ("HTTP status code " +:+ smc.Status respAPI
                  +:+ " returned while updating the SMC account"))
            sent
        else
          let noResults :=
            ret data
              (fw.AddError resp "No results Reading response after updating the SMC Account"
                 "No results returned after updating the SMC Account")
              sent in
          match smc.JSON200 respAPI with
          | None => noResults
          | Some envelope =>
              match smc.Result envelope with
              | None => noResults
              | Some item =>
                  let data := readAccountResourceModel now data item in
                  ret data (fw.SetState resp data) sent
              end
          end
    end.

Definition Delete (r : t) (req : fw.DeleteRequest)
    (resp : fw.Response AccountResourceModel.t) : Done :=
  let '(data, diags) := tfsdk.Get (fw.DeleteState req) in
  let resp := fw.Append resp diags in
  if diag.HasError (fw.Diagnostics resp) then ret data resp []
  else
    let uuid := types.String_ (AccountResourceModel.UUID data) in
    let sent := [http.DeleteApiAccountsUuid uuid] in
    match smc.DeleteApiAccountsUuidWithResponse (client r) uuid with
    | inr err =>
        ret data
          (fw.AddError resp "Error Deleting the SMC Account"
             ("Could not delete the SMC account UUID "
                +:+ types.String_ (AccountResourceModel.UUID data)
                +:+ ": " +:+ err))
          sent
    | inl respAPI =>
        if negb (smc.StatusCode respAPI =? http.StatusOK) then
          ret data
            (fw.AddError resp "HTTP Error Deleting the SMC Account"
               ("HTTP status code " +:+ smc.Status respAPI
                  +:+ " returned while deleting the SMC account"))
            sent
        else
          let noResults :=
            ret data
              (fw.AddError resp "No results Reading response after deleting the SMC Account"
                 "No results returned after deleting SMC the Account")
              sent in
          match smc.JSON200 respAPI with
          | None => noResults
          | Some envelope =>
              match smc.Result envelope with
              | None => noResults
              | Some _ => ret data resp sent
              end
          end
    end.

End AccountResource.

(** ** The [smc_account] data source *)

Module AccountDataSource.

Record t := { client : smc.ClientWithResponses }.

Definition Done := fw.Ran AccountDataSourceModel.t AccountDataSourceModel.t.

Definition ret (data : AccountDataSourceModel.t) (resp : fw.Response AccountDataSourceModel.t)
    (requests : list http.Request) : Done :=
  {| fw.data := data; fw.resp := resp; fw.requests := requests |}.

Definition Read (d : t) (req : fw.ConfigRequest AccountDataSourceModel.t)
    (resp : fw.Response AccountDataSourceModel.t) : Done :=
  let '(data, diags) := tfsdk.Get (fw.Config req) in
  let resp := fw.Append resp diags in
  if diag.HasError (fw.Diagnostics resp) then ret data resp []
  else
    let identifier := types.ValueString (AccountDataSourceModel.Identifier data) in
    let sent := [http.GetApiAccountsUuid identifier] in
    match smc.GetApiAccountsUuidWithResponse (client d) identifier with
    | inr err =>
        ret data
          (fw.AddError resp "Error Reading SMC Account"
             ("Could not read SMC account identifier " +:+ identifier +:+ ": " +:+ err))
          sent
    | inl respAPI =>
        if negb (smc.StatusCode respAPI =? http.StatusOK) then
          ret data
            (fw.AddError resp "HTTP Error Reading SMC Account"
               ("HTTP status code " +:+ smc.Status respAPI
                  +:+ " returned for SMC account identifier " +:+ identifier))
            sent
        else
          match smc.JSON200 respAPI with
          | None =>
              if negb (types.IsNull (AccountDataSourceModel.Identifier data)) then
                ret data
                  (fw.AddError resp "No results Reading SMC Account"
                     ("No results returned for given identifier: " +:+ identifier))
                  sent
              else ret data resp sent
          | Some item =>
              let data := readAccountDataSourceModel data item in
              ret data (fw.SetState resp data) sent
          end
    end.

End AccountDataSource.

(** ** The [smc_accounts] data source *)

Module AccountsDataSourceModel.

Record t := { Accounts : list AccountDataSourceModel.t }.

(** [path.Root("accounts").AtListIndex(idx).AtName(name)], as it prints. *)
Definition path (idx : nat) (name : string) : string :=
  "accounts[" +:+ pretty idx +:+ "]." +:+ name.

(** The first list among the accounts, from index [idx] on, that carries
    no element type, by its path.  Within one account the framework
    meets the attributes in the order of a Go map iteration, which is not
    fixed; here [folders] comes before [permissions]. *)
Fixpoint untyped (idx : nat) (accounts : list AccountDataSourceModel.t) : option string :=
  match accounts with
  | [] => None
  | account :: accounts' =>
      if negb (types.hasElementType (AccountDataSourceModel.Folders account))
      then Some (path idx "folders")
      else if negb (types.hasElementType (AccountDataSourceModel.Permissions account))
      then Some (path idx "permissions")
      else untyped (S idx) accounts'
  end.

(** The attribute of the record that does not convert to the type of the
    schema, if there is one. *)
Definition mismatch (data : t) : option string := untyped 0 (Accounts data).

End AccountsDataSourceModel.

Module AccountsDataSource.

Record t := { client : smc.ClientWithResponses }.

Definition Done := fw.Ran AccountsDataSourceModel.t AccountsDataSourceModel.t.

Definition ret (data : AccountsDataSourceModel.t) (resp : fw.Response AccountsDataSourceModel.t)
    (requests : list http.Request) : Done :=
  {| fw.data := data; fw.resp := resp; fw.requests := requests |}.

(** [for idx, item := range items { readAccountDataSourceModel(&accounts[idx], &item) }] *)
Fixpoint rangeRead (idx : nat)
    (items : list smc.DefinitionsAccountsAccountPropertiesWithoutPassword)
    (accounts : list AccountDataSourceModel.t) : list AccountDataSourceModel.t :=
  match items with
  | [] => accounts
  | item :: items' =>
      rangeRead (S idx) items'
        (alter (fun account => readAccountDataSourceModel account item) idx accounts)
  end.

Definition Read (d : t) (req : fw.ConfigRequest AccountsDataSourceModel.t)
    (resp : fw.Response AccountsDataSourceModel.t) : Done :=
  let '(data, diags) := tfsdk.Get (fw.Config req) in
  let resp := fw.Append resp diags in
  if diag.HasError (fw.Diagnostics resp) then ret data resp []
  else
    let sent := [http.GetApiAccounts] in
    match smc.GetApiAccountsWithResponse (client d) with
    | inr err =>
        ret data
          (fw.AddError resp "Error Reading SMC Accounts"
             ("Could not read SMC accounts: " +:+ err))
          sent
    | inl respAPI =>
        let httpError :=
          ret data
            (fw.AddError resp "HTTP Error Reading SMC Accounts"
               ("HTTP status code " +:+ smc.Status respAPI
                  +:+ " returned while reading SMC accounts"))
            sent in
        if negb (smc.StatusCode respAPI =? http.StatusOK) then httpError
        else
          match smc.JSON200 respAPI with
          | None => httpError
          | Some envelope =>
              let noResults :=
                ret data
                  (fw.AddError resp "No results Reading SMC Accounts"
                     "No results returned while reading SMC accounts")
                  sent in
              match smc.Result envelope with
              | None => noResults
              | Some items =>
                  if (length items =? 0)%nat then noResults
                  else
                    match smc.Success envelope with
                    | None => noResults
                    | Some success =>
                        if negb success then noResults
                        else
                          let accounts :=
                            rangeRead 0 items
                              (replicate (length items) AccountDataSourceModel.unassigned) in
                          let data := {| AccountsDataSourceModel.Accounts := accounts |} in
                          ret data
                            (fw.SetStateConverted AccountsDataSourceModel.mismatch resp data)
                            sent
                    end
              end
          end
    end.

End AccountsDataSource.

(** ** The provider *)

Module SMCProvider.

Record SMCProviderModel := {
  Hostname : types.String;
  APIKey : types.String
}.

Record ConfigureRequest := { Config : tfsdk.Data SMCProviderModel }.

(** [provider.ConfigureResponse]; [C] is the type of the client that
    [smc.NewSMCClientWithResponses] builds. *)
Record ConfigureResponse (C : Type) := {
  Diagnostics : diag.Diagnostics;
  DataSourceData : option C;
  ResourceData : option C
}.
Arguments Diagnostics {C} _.
Arguments DataSourceData {C} _.
Arguments ResourceData {C} _.

Definition withDiagnostics {C} (resp : ConfigureResponse C) (diags : diag.Diagnostics)
  : ConfigureResponse C :=
  {| Diagnostics := diags;
     DataSourceData := DataSourceData resp;
     ResourceData := ResourceData resp |}.

Section Configure.

Context {C : Type}.
(** [smc.NewSMCClientWithResponses(hostname, apiKey)] *)
Variable NewSMCClientWithResponses : string -> string -> C + smc.error.
(** [os.Getenv]: the value of the variable, empty when it is not set. *)
Variable Getenv : string -> string.

Definition Configure (req : ConfigureRequest) (resp : ConfigureResponse C)
  : ConfigureResponse C :=
  let '(data, diags) := tfsdk.Get (Config req) in
  let resp := withDiagnostics resp (diag.Append (Diagnostics resp) diags) in
  if diag.HasError (Diagnostics resp) then resp
  else
    let resp :=
      if types.IsUnknown (Hostname data) then
        withDiagnostics resp
          (diag.AddAttributeError (Diagnostics resp) "hostname" "Unknown SMC hostname"
             "The provider cannot create the SMC client as there is an unknown configuration value for the SMC hostname. Either target apply the source of the value first, set the value statically in the configuration, or use the SMC_HOSTNAME environment variable.")
      else resp in
    let resp :=
      if types.IsUnknown (APIKey data) then
        withDiagnostics resp
          (diag.AddAttributeError (Diagnostics resp) "api_key" "Unknown API Key hostname"
             "The provider cannot create the SMC client as there is an unknown configuration value for the SMC API Key. Either target apply the source of the value first, set the value statically in the configuration, or use the SMC_API_KEY environment variable.")
      else resp in
    if diag.HasError (Diagnostics resp) then resp
    else
      let hostname := Getenv "SMC_HOSTNAME" in
      let apiKey := Getenv "SMC_API_KEY" in
      let hostname :=
        if negb (types.IsNull (Hostname data)) then types.ValueString (Hostname data)
        else hostname in
      let apiKey :=
        if negb (types.IsNull (APIKey data)) then types.ValueString (APIKey data)
        else apiKey in
      let resp :=
        if String.eqb hostname "" then
          withDiagnostics resp
            (diag.AddAttributeError (Diagnostics resp) "hostname" "Missing SMC hostname"
               "The provider cannot create the SMC client as there is a missing or empty value for the SMC hostname. Set the hostname value in the configuration or use the SMC_HOSTNAME environment variable. If either is already set, ensure the value is not empty.")
        else resp in
      let resp :=
        if types.IsUnknown (APIKey data) then
          withDiagnostics resp
            (diag.AddAttributeError (Diagnostics resp) "api_key" "Missing SMC API Key"
               "The provider cannot create the SMC client as there is a missing or empty value for the SMC API Key. Set the hostname value in the configuration or use the SMC_API_KEY environment variable. If either is already set, ensure the value is not empty.")
        else resp in
      if diag.HasError (Diagnostics resp) then resp
      else
        match NewSMCClientWithResponses hostname apiKey with
        | inr err =>
            withDiagnostics resp
              (diag.AddError (Diagnostics resp) "Unable to Create SMC Client"
                 ("An unexpected error occurred when creating the SMC client. If the error is not clear, please contact the provider developers."
                    +:+ String (ascii_of_nat 10) (String (ascii_of_nat 10) "SMC Client Error: ")
                    +:+ err))
        | inl client =>
            {| Diagnostics := Diagnostics resp;
               DataSourceData := Some client;
               ResourceData := Some client |}
        end.

End Configure.

End SMCProvider.

(** ** Validation before Create ([internal/fwserver])

    Terraform asks the provider to validate a resource's configuration
    before it plans and applies it, and the framework answers from the
    validators the schema declares.  The validators are the provider's
    own; the server that runs them and then calls the handlers belongs
    to the framework. *)

Module fwserver.

Inductive AttributeValue :=
| AString (v : types.String)
| ABool (v : types.Bool)
| AList (v : types.List).

(** The fields of the configuration by their [tfsdk] tags. *)
Definition attributeValues (config : AccountResourceModel.t) : list (string * AttributeValue) :=
  [ ("description", AString (AccountResourceModel.Description config));
    ("dn", AString (AccountResourceModel.DN config));
    ("email", AString (AccountResourceModel.Email config));
    ("folders", AList (AccountResourceModel.Folders config));
    ("identifier", AString (AccountResourceModel.Identifier config));
    ("kind", AString (AccountResourceModel.Kind config));
    ("last_updated", AString (AccountResourceModel.LastUpdated config));
    ("local_auth", ABool (AccountResourceModel.LocalAuth config));
    ("name", AString (AccountResourceModel.Name config));
    ("password", AString (AccountResourceModel.Password config));
    ("permissions", AList (AccountResourceModel.Permissions config));
    ("uuid", AString (AccountResourceModel.UUID config)) ].

Definition GetAttribute (config : AccountResourceModel.t) (name : string)
  : option AttributeValue :=
  snd <$> find (fun kv => String.eqb name (fst kv)) (attributeValues config).

Definition ValidateAttribute (config : AccountResourceModel.t)
    (entry : string * schema.Attribute) : diag.Diagnostics :=
  let '(name, attribute) := entry in
  match attribute, GetAttribute config name with
  | schema.StringAttribute _ _ _ validators, Some (AString value) =>
      flat_map (fun v => validator.ValidateString v name value) validators
  | schema.ListAttribute _ _ _ validators, Some (AList value) =>
      flat_map (fun v => validator.ValidateList v name value) validators
  | _, _ => []
  end.

Definition ValidateResourceConfig (attributes : schema.Attributes)
    (config : AccountResourceModel.t) : diag.Diagnostics :=
  flat_map (ValidateAttribute config) attributes.

(** The plan of a resource that does not exist yet: its configuration,
    with the computed attributes unknown until Create fills them. *)
Definition planFor (config : AccountResourceModel.t) : AccountResourceModel.t :=
  {| AccountResourceModel.Description := AccountResourceModel.Description config;
     AccountResourceModel.DN := AccountResourceModel.DN config;
     AccountResourceModel.Email := AccountResourceModel.Email config;
     AccountResourceModel.Folders := AccountResourceModel.Folders config;
     AccountResourceModel.Identifier := AccountResourceModel.Identifier config;
     AccountResourceModel.Kind := AccountResourceModel.Kind config;
     AccountResourceModel.LastUpdated := types.StringUnknown;
     AccountResourceModel.LocalAuth := AccountResourceModel.LocalAuth config;
     AccountResourceModel.Name := AccountResourceModel.Name config;
     AccountResourceModel.Password := AccountResourceModel.Password config;
     AccountResourceModel.Permissions := AccountResourceModel.Permissions config;
     AccountResourceModel.UUID := types.StringUnknown |}.

(** Modelled from the spec: the order of validation and Create.  The
    handlers of the provider do not validate; the framework's server,
    which is not among the sources, does it before it calls them.  The
    specification has a record that breaks a constraint [rejected before
    any network call] and its validation error [caught before any network
    call]: the configuration goes through the validators of the schema
    first, a configuration with an error is answered with the diagnostics
    alone, and Create is called only for a configuration that passed. *)
Definition CreateResource (r : AccountResource.t) (now : string)
    (config : AccountResourceModel.t) (resp : fw.Response AccountResourceModel.t)
  : AccountResource.Done :=
  let diags := ValidateResourceConfig AccountResource.Schema config in
  if diag.HasError diags then
    AccountResource.ret config (fw.Append resp diags) []
  else
    AccountResource.Create r now
      {| fw.Plan := {| tfsdk.Get := (planFor config, []) |} |} resp.

End fwserver.

(** ** Mutating invocations, taken together *)

Inductive Mutation :=
| DoCreate (req : fw.CreateRequest)
| DoUpdate (req : fw.UpdateRequest)
| DoDelete (req : fw.DeleteRequest).

Definition invoke (r : AccountResource.t) (now : string) (m : Mutation)
    (resp : fw.Response AccountResourceModel.t) : AccountResource.Done :=
  match m with
  | DoCreate req => AccountResource.Create r now req resp
  | DoUpdate req => AccountResource.Update r now req resp
  | DoDelete req => AccountResource.Delete r req resp
  end.

(** The record the invocation starts from: what [Get] decoded. *)
Definition recordOf (m : Mutation) : AccountResourceModel.t :=
  match m with
  | DoCreate req => fst (tfsdk.Get (fw.Plan req))
  | DoUpdate req => fst (tfsdk.Get (fw.UpdatePlan req))
  | DoDelete req => fst (tfsdk.Get (fw.DeleteState req))
  end.

(** The exchange the client would answer the invocation's request with. *)
Definition exchangeOf (r : AccountResource.t) (m : Mutation)
  : smc.Response (smc.Envelope smc.Account) + smc.error :=
  let data := recordOf m in
  match m with
  | DoCreate _ =>
      smc.PostApiAccountsWithBodyWithResponse (AccountResource.client r)
        "application/json" (json_Marshal data)
  | DoUpdate _ =>
      smc.PutApiAccountsUuidWithBodyWithResponse (AccountResource.client r)
        (types.String_ (AccountResourceModel.UUID data)) "application/json" (json_Marshal data)
  | DoDelete _ =>
      smc.DeleteApiAccountsUuidWithResponse (AccountResource.client r)
        (types.String_ (AccountResourceModel.UUID data))
  end.

Definition successStatus (m : Mutation) : Z :=
  match m with
  | DoCreate _ => http.StatusCreated
  | _ => http.StatusOK
  end.

(** The three ways an exchange fails: a transport error, a status other
    than the operation's success status, an envelope that is missing or
    whose result is null. *)
Inductive ExchangeFailed (expected : Z)
  : smc.Response (smc.Envelope smc.Account) + smc.error -> Prop :=
| NetworkError err : ExchangeFailed expected (inr err)
| WrongStatus respAPI :
    smc.StatusCode respAPI <> expected -> ExchangeFailed expected (inl respAPI)
| MissingEnvelope respAPI :
    smc.JSON respAPI = None -> ExchangeFailed expected (inl respAPI)
| NullResult respAPI envelope :
    smc.JSON respAPI = Some envelope -> smc.Result envelope = None ->
    ExchangeFailed expected (inl respAPI).

(** ** Inputs of the acceptance tests, and test doubles *)

Module testdata.

Definition uuid : string := "75532250-c878-42f1-8871-bafa68e944d4".

(** The account the test servers answer with. *)
Definition jdoe : smc.DefinitionsAccountsAccountPropertiesWithoutPassword :=
  {| smc.Description := Some "some user description";
     smc.Dn := Some "CN=bob,DC=company,DC=world";
     smc.Email := Some "user@email.com";
     smc.Folders := Some ["folder-uuid"];
     smc.Identifier := Some "jdoe";
     smc.Kind := Some "user";
     smc.LocalAuth := Some true;
     smc.Name := Some "Some Account name";
     smc.Permissions := Some ["smc"];
     smc.Uuid := uuid |}.

(** An account as a payload that has nothing but [{}] decodes. *)
Definition bare : smc.DefinitionsAccountsAccountPropertiesWithoutPassword :=
  {| smc.Description := None; smc.Dn := None; smc.Email := None;
     smc.Folders := None; smc.Identifier := None; smc.Kind := None;
     smc.LocalAuth := None; smc.Name := None; smc.Permissions := None;
     smc.Uuid := "" |}.

Definition strings (xs : list string) : types.List :=
  types.ListKnown (map (fun x => types.OfString (types.StringValue x)) xs).

(** [testAccAccountResourceConfig("some user description")] as a record. *)
Definition config : AccountResourceModel.t :=
  {| AccountResourceModel.Description := types.StringValue "some user description";
     AccountResourceModel.DN := types.StringValue "CN=bob,DC=company,DC=world";
     AccountResourceModel.Email := types.StringValue "user@email.com";
     AccountResourceModel.Folders := strings ["folder-uuid"];
     AccountResourceModel.Identifier := types.StringValue "jdoe";
     AccountResourceModel.Kind := types.StringValue "user";
     AccountResourceModel.LastUpdated := types.StringNull;
     AccountResourceModel.LocalAuth := types.BoolValue true;
     AccountResourceModel.Name := types.StringValue "Some Account name";
     AccountResourceModel.Password :=
       types.StringValue "$2a$10$HM7zy3pUuoyKwnaFk4A4W.9gLQZ3BGWeJqwdlPiOJN6TayLbSQ1Na";
     AccountResourceModel.Permissions := strings ["smc"];
     AccountResourceModel.UUID := types.StringNull |}.

(** The same configuration with [kind = "admin"]. *)
Definition adminConfig : AccountResourceModel.t :=
  {| AccountResourceModel.Description := AccountResourceModel.Description config;
     AccountResourceModel.DN := AccountResourceModel.DN config;
     AccountResourceModel.Email := AccountResourceModel.Email config;
     AccountResourceModel.Folders := AccountResourceModel.Folders config;
     AccountResourceModel.Identifier := AccountResourceModel.Identifier config;
     AccountResourceModel.Kind := types.StringValue "admin";
     AccountResourceModel.LastUpdated := AccountResourceModel.LastUpdated config;
     AccountResourceModel.LocalAuth := AccountResourceModel.LocalAuth config;
     AccountResourceModel.Name := AccountResourceModel.Name config;
     AccountResourceModel.Password := AccountResourceModel.Password config;
     AccountResourceModel.Permissions := AccountResourceModel.Permissions config;
     AccountResourceModel.UUID := AccountResourceModel.UUID config |}.

(** The record of the resource once it exists: the plan, projected. *)
Definition stored : AccountResourceModel.t :=
  readAccountResourceModel "Tuesday, 03-Nov-26 09:00:00 UTC" (fwserver.planFor config) jdoe.

(** A record whose folders are set to the empty list. *)
Definition noFolders : AccountResourceModel.t :=
  {| AccountResourceModel.Description := types.StringNull;
     AccountResourceModel.DN := types.StringNull;
     AccountResourceModel.Email := types.StringNull;
     AccountResourceModel.Folders := types.ListKnown [];
     AccountResourceModel.Identifier := types.StringValue "jdoe";
     AccountResourceModel.Kind := types.StringValue "user";
     AccountResourceModel.LastUpdated := types.StringUnknown;
     AccountResourceModel.LocalAuth := types.BoolNull;
     AccountResourceModel.Name := types.StringNull;
     AccountResourceModel.Password := types.StringNull;
     AccountResourceModel.Permissions := types.ListNull;
     AccountResourceModel.UUID := types.StringUnknown |}.

Definition now : string := "Tuesday, 03-Nov-26 10:00:00 UTC".

(** [strings.Repeat(s, n)] *)
Fixpoint times (n : nat) (s : string) : string :=
  match n with
  | O => EmptyString
  | S n' => s +:+ times n' s
  end.

(** The letter e with an acute accent: two bytes, [0xC3 0xA9]. *)
Definition accented : string :=
  String (ascii_of_nat 195) (String (ascii_of_nat 169) EmptyString).

(** [$2a$] and fifty-six accented letters: sixty characters in 116 bytes. *)
Definition widePassword : string := "$2a$" +:+ times 56 accented.

(** [$2a$] and fifty-six spaces. *)
Definition blankPassword : string := "$2a$" +:+ times 56 " ".

(** The configuration of the test with another password. *)
Definition withPassword (password : string) : AccountResourceModel.t :=
  {| AccountResourceModel.Description := AccountResourceModel.Description config;
     AccountResourceModel.DN := AccountResourceModel.DN config;
     AccountResourceModel.Email := AccountResourceModel.Email config;
     AccountResourceModel.Folders := AccountResourceModel.Folders config;
     AccountResourceModel.Identifier := AccountResourceModel.Identifier config;
     AccountResourceModel.Kind := AccountResourceModel.Kind config;
     AccountResourceModel.LastUpdated := AccountResourceModel.LastUpdated config;
     AccountResourceModel.LocalAuth := AccountResourceModel.LocalAuth config;
     AccountResourceModel.Name := AccountResourceModel.Name config;
     AccountResourceModel.Password := types.StringValue password;
     AccountResourceModel.Permissions := AccountResourceModel.Permissions config;
     AccountResourceModel.UUID := AccountResourceModel.UUID config |}.

Definition readable {M} (data : M) : tfsdk.Data M := {| tfsdk.Get := (data, []) |}.

Definition fresh {M} : fw.Response M := {| fw.State := None; fw.Diagnostics := [] |}.

Definition holding {M} (data : M) : fw.Response M :=
  {| fw.State := Some data; fw.Diagnostics := [] |}.

Definition answer {B} (status : string) (code : Z) (body : option B)
  : smc.Response B + smc.error :=
  inl {| smc.Status := status; smc.StatusCode := code; smc.JSON := body |}.

Definition enveloped {R} (result : option R) (success : option bool)
  : option (smc.Envelope R) :=
  Some {| smc.Result := result; smc.Success := success |}.

(** A server that answers every call of one kind with the same response. *)
Definition server
    (post : smc.Response (smc.Envelope smc.Account) + smc.error)
    (list : smc.Response (smc.Envelope (list smc.Account)) + smc.error)
    (get : smc.Response smc.Account + smc.error)
    (put del : smc.Response (smc.Envelope smc.Account) + smc.error)
  : smc.ClientWithResponses :=
  {| smc.PostApiAccountsWithBodyWithResponse := fun _ _ => post;
     smc.GetApiAccountsWithResponse := list;
     smc.GetApiAccountsUuidWithResponse := fun _ => get;
     smc.PutApiAccountsUuidWithBodyWithResponse := fun _ _ _ => put;
     smc.DeleteApiAccountsUuidWithResponse := fun _ => del |}.

(** The server of [TestAccAccountResource], step by step. *)
Definition testServer : smc.ClientWithResponses :=
  server (answer "201 Created" 201 (enveloped (Some jdoe) (Some true)))
         (answer "200 OK" 200 (enveloped (Some [jdoe]) (Some true)))
         (answer "200 OK" 200 (Some jdoe))
         (answer "200 OK" 200 (enveloped (Some jdoe) (Some true)))
         (answer "200 OK" 200 (enveloped (Some jdoe) (Some true))).

(** A server that answers every call with the given status and no body. *)
Definition failing (status : string) (code : Z) : smc.ClientWithResponses :=
  server (answer status code None) (answer status code None) (answer status code None)
         (answer status code None) (answer status code None).

End testdata.

(** ** Wiring: type names, component configuration, import *)

(** [resp.TypeName = req.ProviderTypeName + "_account"], for the resource
    and for the single-account data source alike. *)
Definition AccountResource_Metadata (ProviderTypeName : string) : string :=
  ProviderTypeName +:+ "_account".

Definition AccountDataSource_Metadata (ProviderTypeName : string) : string :=
  ProviderTypeName +:+ "_account".

(** [resp.TypeName = req.ProviderTypeName + "_accounts"] *)
Definition AccountsDataSource_Metadata (ProviderTypeName : string) : string :=
  ProviderTypeName +:+ "_accounts".

(** [SMCProvider.Metadata]: the type name and the version. *)
Definition SMCProvider_Metadata (version : string) : string * string :=
  ("smc", version).

(** The constructors the provider hands to the framework. *)
Inductive DataSourceConstructor := NewAccountDataSource | NewAccountsDataSource.

Inductive ResourceConstructor := NewAccountResource.

(** [SMCProvider.Resources] *)
Definition SMCProvider_Resources : list ResourceConstructor := [].

(** [SMCProvider.DataSources] *)
Definition SMCProvider_DataSources : list DataSourceConstructor :=
  [NewAccountDataSource; NewAccountsDataSource].

(** The type name the constructed data source reports in [Metadata]. *)
Definition DataSource_TypeName (new : DataSourceConstructor) (ProviderTypeName : string)
  : string :=
  match new with
  | NewAccountDataSource => AccountDataSource_Metadata ProviderTypeName
  | NewAccountsDataSource => AccountsDataSource_Metadata ProviderTypeName
  end.

(** [req.ProviderData] when it is not nil: a client, or a value of some
    other type, kept by the name [%T] prints. *)
Inductive ProviderData :=
| ClientData (client : smc.ClientWithResponses)
| OtherData (typeName : string).

(** The body the three [Configure] methods share; they differ in the two
    strings of the error.  [client] is the receiver's [client] field. *)
Definition componentConfigure (summary expected : string)
    (client : option smc.ClientWithResponses) (providerData : option ProviderData)
    (diags : diag.Diagnostics)
  : option smc.ClientWithResponses * diag.Diagnostics :=
  match providerData with
  | None => (client, diags)
  | Some (OtherData typeName) =>
      (client,
       diag.AddError diags summary
         ("Expected " +:+ expected +:+ ", got: " +:+ typeName
            +:+ ". Please report this issue to the provider developers."))
  | Some (ClientData provided) => (Some provided, diags)
  end.

(** [AccountResource.Configure] *)
Definition AccountResource_Configure :=
  componentConfigure "Unexpected Resource Configure Type" "*smc.ClientWithResponses".

(** [AccountDataSource.Configure] *)
Definition AccountDataSource_Configure :=
  componentConfigure "Unexpected Data Source Configure Type" "*smc.ClientWithResponses".

(** [AccountsDataSource.Configure] *)
Definition AccountsDataSource_Configure :=
  componentConfigure "Unexpected Data Source Configure Type" "*smc.Client".

(** What the framework passes on as [ProviderData]: the provider's
    [ResourceData] or [DataSourceData], nil when Configure stored none. *)
Definition providerDataOf (stored : option smc.ClientWithResponses) : option ProviderData :=
  ClientData <$> stored.

(** [state.SetAttribute(ctx, path.Root("uuid"), value)]: on a null state
    every other attribute is null. *)
Definition SetUUID (st : tfsdk.State AccountResourceModel.t) (value : string)
  : tfsdk.State AccountResourceModel.t :=
  let base := default AccountResourceModel.zero st in
  Some {| AccountResourceModel.Description := AccountResourceModel.Description base;
          AccountResourceModel.DN := AccountResourceModel.DN base;
          AccountResourceModel.Email := AccountResourceModel.Email base;
          AccountResourceModel.Folders := AccountResourceModel.Folders base;
          AccountResourceModel.Identifier := AccountResourceModel.Identifier base;
          AccountResourceModel.Kind := AccountResourceModel.Kind base;
          AccountResourceModel.LastUpdated := AccountResourceModel.LastUpdated base;
          AccountResourceModel.LocalAuth := AccountResourceModel.LocalAuth base;
          AccountResourceModel.Name := AccountResourceModel.Name base;
          AccountResourceModel.Password := AccountResourceModel.Password base;
          AccountResourceModel.Permissions := AccountResourceModel.Permissions base;
          AccountResourceModel.UUID := types.StringValue value |}.

(** [AccountResource.ImportState]:
    [resource.ImportStatePassthroughID(ctx, path.Root("uuid"), req, resp)],
    with [ID] for [req.ID]. *)
Definition AccountResource_ImportState (ID : string)
    (resp : fw.Response AccountResourceModel.t) : fw.Response AccountResourceModel.t :=
  {| fw.State := SetUUID (fw.State resp) ID;
     fw.Diagnostics := fw.Diagnostics resp |}.

(** The prior state the framework hands to the Read that follows a
    handler: what that handler stored. *)
Definition priorOf (resp : fw.Response AccountResourceModel.t) : fw.ReadRequest :=
  {| fw.PriorState :=
       {| tfsdk.Get := (default AccountResourceModel.zero (fw.State resp), []) |} |}.

(** ** The single-account data source, one revision earlier

    In the revision before [readAccountDataSourceModel] was split off, the
    list attributes of the model are Go slices and Read appends to them.
    A slice is nil ([None]) or holds its elements. *)

Module AccountDataSourceEarlier.

Record Model := {
  UUID : types.String;
  Description : types.String;
  DN : types.String;
  Email : types.String;
  Folders : option (list types.String);
  Identifier : types.String;
  Kind : types.String;
  LocalAuth : types.Bool;
  Name : types.String;
  Permissions : option (list types.String)
}.

(** [append(slice, x)] *)
Definition append_ {A} (slice : option (list A)) (x : A) : option (list A) :=
  Some (default [] slice ++ [x]).

(** [for _, x := range xs { slice = append(slice, types.StringValue(x)) }] *)
Definition appendAll (slice : option (list types.String)) (xs : list string)
  : option (list types.String) :=
  fold_left (fun slice x => append_ slice (types.StringValue x)) xs slice.

Definition Done := fw.Ran Model Model.

Definition ret (data : Model) (resp : fw.Response Model)
    (requests : list http.Request) : Done :=
  {| fw.data := data; fw.resp := resp; fw.requests := requests |}.

Definition Read (d : AccountDataSource.t) (req : fw.ConfigRequest Model)
    (resp : fw.Response Model) : Done :=
  let '(data, diags) := tfsdk.Get (fw.Config req) in
  let resp := fw.Append resp diags in
  if diag.HasError (fw.Diagnostics resp) then ret data resp []
  else
    let identifier := types.ValueString (Identifier data) in
    let sent := [http.GetApiAccountsUuid identifier] in
    match smc.GetApiAccountsUuidWithResponse (AccountDataSource.client d) identifier with
    | inr err =>
        ret data
          (fw.AddError resp "Error Reading SMC Account"
             ("Could not read SMC account identifier " +:+ identifier +:+ ": " +:+ err))
          sent
    | inl account =>
        if negb (smc.StatusCode account =? http.StatusOK) then
          ret data
            (fw.AddError resp "HTTP Error Reading SMC Account"
               ("HTTP status code " +:+ smc.Status account
                  +:+ " returned for SMC account identifier " +:+ identifier))
            sent
        else
          match smc.JSON200 account with
          | None =>
              if negb (types.IsNull (Identifier data)) then
                ret data
                  (fw.AddError resp "No results Reading SMC Account"
                     ("No results returned for given identifier: " +:+ identifier))
                  sent
              else ret data resp sent
          | Some item =>
              let data :=
                {| UUID := types.StringValue (smc.Uuid item);
                   Description := types.StringPointerValue (smc.Description item);
                   DN := types.StringPointerValue (smc.Dn item);
                   Email := types.StringPointerValue (smc.Email item);
                   Folders :=
                     match smc.Folders item with
                     | Some folders => appendAll (Folders data) folders
                     | None => Folders data
                     end;
                   Identifier := types.StringPointerValue (smc.Identifier item);
                   Kind := types.StringPointerValue (smc.Kind item);
                   LocalAuth := types.BoolPointerValue (smc.LocalAuth item);
                   Name := types.StringPointerValue (smc.Name item);
                   Permissions :=
                     match smc.Permissions item with
                     | Some permissions => appendAll (Permissions data) permissions
                     | None => Permissions data
                     end |} in
              ret data (fw.SetState resp data) sent
          end
    end.

(** The list a slice is stored as: null for the nil slice. *)
Definition listOf (slice : option (list types.String)) : types.List :=
  match slice with
  | None => types.ListNull
  | Some elements => types.ListKnown (map types.OfString elements)
  end.

(** The record of this revision as a record of the current model. *)
Definition current (data : Model) : AccountDataSourceModel.t :=
  {| AccountDataSourceModel.UUID := UUID data;
     AccountDataSourceModel.Description := Description data;
     AccountDataSourceModel.DN := DN data;
     AccountDataSourceModel.Email := Email data;
     AccountDataSourceModel.Folders := listOf (Folders data);
     AccountDataSourceModel.Identifier := Identifier data;
     AccountDataSourceModel.Kind := Kind data;
     AccountDataSourceModel.LocalAuth := LocalAuth data;
     AccountDataSourceModel.Name := Name data;
     AccountDataSourceModel.Permissions := listOf (Permissions data) |}.

End AccountDataSourceEarlier.

(** A list with the known empty list taken for the unset one. *)
Definition emptyAsUnset (l : types.List) : types.List :=
  match l with
  | types.ListKnown [] => types.ListNull
  | _ => l
  end.

(** ** What the properties speak about *)

(** What a scalar field holds after projection, by the wire pointer. *)
Definition ScalarProjected (wire : option string) (field : types.String) : Prop :=
  match wire with
  | None => field = types.StringNull
  | Some s => field = types.StringValue s
  end.

(** What a list field holds after projection, by the wire pointer and the
    value the field had before. *)
Definition ListProjected (wire : option (list string)) (before after : types.List) : Prop :=
  match wire with
  | None => after = before
  | Some xs => after = types.ListKnown (map (fun x => types.OfString (types.StringValue x)) xs)
  end.

(** Reads the fields of what a handler returned. *)
Ltac ran :=
  cbn [AccountResource.ret AccountDataSource.ret AccountsDataSource.ret
       fw.resp fw.data fw.requests fw.AddError fw.Append fw.Diagnostics fw.State].

(** The diagnostics Create reports on a failed exchange. *)
Definition CreateError (d : diag.Diagnostic) : Prop :=
  diag.isError d = true
  /\ In (diag.Summary d)
        [ "Error Creating the SMC Account";
          "HTTP Error Creating the SMC Account";
          "No results Reading response after creating the SMC Account" ].

(** What the listing treats as no results: no envelope at all, a success
    flag that is absent or false, a null result, an empty result. *)
Inductive NoResults {R : Type} : option (smc.Envelope (list R)) -> Prop :=
| NoEnvelope : NoResults None
| SuccessAbsent envelope :
    smc.Success envelope = None -> NoResults (Some envelope)
| SuccessFalse envelope :
    smc.Success envelope = Some false -> NoResults (Some envelope)
| ResultNull envelope :
    smc.Result envelope = None -> NoResults (Some envelope)
| ResultEmpty envelope :
    smc.Result envelope = Some [] -> NoResults (Some envelope).

(** The diagnostics the listing reports. *)
Definition ListError (d : diag.Diagnostic) : Prop :=
  diag.isError d = true
  /\ In (diag.Summary d)
        [ "HTTP Error Reading SMC Accounts"; "No results Reading SMC Accounts" ].

(** An account whose payload carries both of its lists. *)
Definition hasBothLists (item : smc.DefinitionsAccountsAccountPropertiesWithoutPassword)
  : bool :=
  match smc.Folders item, smc.Permissions item with
  | Some _, Some _ => true
  | _, _ => false
  end.

(** The error of a record that did not convert to the type of the
    schema, on one of the two lists of an account. *)
Definition ListConversionError (d : diag.Diagnostic) : Prop :=
  diag.isError d = true
  /\ diag.Summary d = "Value Conversion Error"
  /\ exists idx name,
       In name ["folders"; "permissions"]
       /\ diag.attribute d = Some (AccountsDataSourceModel.path idx name).

(** The members [json.Marshal] writes for the resource model. *)
Definition modelKeys : list string :=
  [ "description"; "dn"; "email"; "folders"; "identifier"; "kind";
    "last_updated"; "local_auth"; "name"; "password"; "permissions"; "uuid" ].

(** The value a setting resolves to: the configured value when it is not
    null, the environment's otherwise. *)
Definition resolved (configured : types.String) (environment : string) : string :=
  if negb (types.IsNull configured) then types.ValueString configured else environment.

(** A client constructor that records what it was called with. *)
Definition recordingClient (hostname apiKey : string) : (string * string) + smc.error :=
  inl (hostname, apiKey).

(** An environment in which no variable is set. *)
Definition emptyEnvironment (name : string) : string := "".

(** Reads the fields of a configure response. *)
Ltac conf :=
  cbn [SMCProvider.withDiagnostics SMCProvider.Diagnostics
       SMCProvider.DataSourceData SMCProvider.ResourceData].

(** Puts a name in the place of each long diagnostic text of Configure. *)
Ltac brief :=
  repeat match goal with
         | |- context [diag.AddAttributeError _ _ _ (String ?c ?rest)] =>
             generalize (String c rest); intro
         | |- context [String.append (String ?c ?rest) _] =>
             generalize (String c rest); intro
         end.

(** The shape the password pattern [^\$2[ayb]\$.{56}$] describes, said
    without the matcher: [$2a$], [$2y$] or [$2b$], then fifty-six
    characters, none of them a newline.  A character is a code point of
    the text read as UTF-8. *)
Definition PatternShaped (s : string) : Prop :=
  exists variant rest,
    s = String "$" (String "2" (String variant (String "$" rest)))
    /\ In variant ["a"; "y"; "b"]%char
    /\ length (utf8.runes rest) = 56%nat
    /\ ~ In 10 (utf8.runes rest).

Definition isDigit (c : ascii) : bool :=
  let n := nat_of_ascii c in (48 <=? n)%nat && (n <=? 57)%nat.

(** The alphabet of bcrypt's base-64 writing: [./A-Za-z0-9]. *)
Definition inBcryptAlphabet (c : ascii) : bool :=
  let n := nat_of_ascii c in
  (n =? 46)%nat || (n =? 47)%nat || isDigit c
  || ((65 <=? n)%nat && (n <=? 90)%nat) || ((97 <=? n)%nat && (n <=? 122)%nat).

(** What the specification calls a bcrypt-shaped hash, read as the way
    bcrypt writes a hash: sixty bytes, which are [$2a$], [$2y$] or
    [$2b$], a cost of two decimal digits, [$], and fifty-three characters
    of the alphabet for the salt and the digest. *)
Definition BcryptHash (s : string) : bool :=
  (String.length s =? 60)%nat
  && existsb (String.eqb (substring 0 4 s)) ["$2a$"; "$2y$"; "$2b$"]
  && forallb isDigit (list_ascii_of_string (substring 4 2 s))
  && String.eqb (substring 6 1 s) "$"
  && forallb inBcryptAlphabet (list_ascii_of_string (substring 7 53 s)).

(** A record that breaks one of the three constraints of the schema: a
    kind that is set and is neither user nor group, a permission that is
    set and is none of the five access rights, a password that is set and
    does not have the shape the pattern describes. *)
Inductive Invalid (config : AccountResourceModel.t) : Prop :=
| BadKind s :
    AccountResourceModel.Kind config = types.StringValue s ->
    ~ In s ["user"; "group"] ->
    Invalid config
| BadPermission elements s :
    AccountResourceModel.Permissions config = types.ListKnown elements ->
    In (types.OfString (types.StringValue s)) elements ->
    ~ In s ["smc"; "sns"; "console"; "ssh"; "api"] ->
    Invalid config
| BadPassword s :
    AccountResourceModel.Password config = types.StringValue s ->
    ~ PatternShaped s ->
    Invalid config.

(** A string field passes when it is null, unknown, or a known string
    that [allowed] accepts. *)
Definition passes (allowed : string -> bool) (v : types.String) : bool :=
  match v with
  | types.StringValue s => allowed s
  | _ => true
  end.

Definition kindAllowed (s : string) : bool := existsb (String.eqb s) ["user"; "group"].

Definition permissionAllowed (s : string) : bool :=
  existsb (String.eqb s) ["smc"; "sns"; "console"; "ssh"; "api"].

(** The configurations the schema's validators let through. *)
Definition Valid (config : AccountResourceModel.t) : bool :=
  passes kindAllowed (AccountResourceModel.Kind config)
  && passes (regexp.MatchString AccountResource.passwordRegexp)
       (AccountResourceModel.Password config)
  && match AccountResourceModel.Permissions config with
     | types.ListKnown elements =>
         forallb (fun element =>
                    match element with
                    | types.OfString s => passes permissionAllowed s
                    | _ => false
                    end) elements
     | _ => true
     end.

(** * Properties *)

(** ** Diagnostics *)

Lemma HasError_app (xs ys : diag.Diagnostics) :
  diag.HasError (xs ++ ys) = diag.HasError xs || diag.HasError ys.
Proof. unfold diag.HasError. apply existsb_app. Qed.

Lemma Contains_error (diags : diag.Diagnostics) (d : diag.Diagnostic) :
  diag.Contains diags d = true -> diag.isError d = true -> diag.HasError diags = true.
Proof.
  unfold diag.Contains, diag.HasError. intros Hin Herror.
  apply existsb_exists in Hin as (d' & Hin & Heq).
  apply bool_decide_eq_true in Heq. subst d'.
  apply existsb_exists. by exists d.
Qed.

Lemma HasError_Append (xs ys : diag.Diagnostics) :
  diag.HasError (diag.Append xs ys) = diag.HasError xs || diag.HasError ys.
Proof.
  revert xs. induction ys as [|d ys IH]; intros xs; cbn [diag.Append].
  - cbn. by rewrite orb_false_r.
  - rewrite IH. change (diag.HasError (d :: ys)) with (diag.isError d || diag.HasError ys).
    destruct (diag.Contains xs d) eqn:Hin.
    + destruct (diag.isError d) eqn:Herror; [|done].
      by rewrite (Contains_error xs d Hin Herror).
    + rewrite HasError_app. cbn. rewrite orb_false_r. by rewrite orb_assoc.
Qed.

Lemma HasError_AddError (diags : diag.Diagnostics) (summary detail : string) :
  diag.HasError (diag.AddError diags summary detail) = true.
Proof. unfold diag.AddError. rewrite HasError_Append. apply orb_true_r. Qed.

Lemma HasError_AddAttributeError (diags : diag.Diagnostics) (p summary detail : string) :
  diag.HasError (diag.AddAttributeError diags p summary detail) = true.
Proof. unfold diag.AddAttributeError. rewrite HasError_Append. apply orb_true_r. Qed.

(** On diagnostics without an error, a new error is not a duplicate: it
    goes to the end. *)
Lemma Append_error_to_clean (diags : diag.Diagnostics) (e : diag.Diagnostic) :
  diag.HasError diags = false -> diag.isError e = true ->
  diag.Append diags [e] = diags ++ [e].
Proof.
  intros Hclean Herror. cbn [diag.Append].
  destruct (diag.Contains diags e) eqn:Hin; [|done].
  rewrite (Contains_error diags e Hin Herror) in Hclean. discriminate.
Qed.

Lemma Append_nil (diags : diag.Diagnostics) : diag.Append diags [] = diags.
Proof. reflexivity. Qed.

(** ** The slice-filling loop

    After the loop has handled a prefix of the input, the slice holds the
    images of that prefix followed by the untouched remainder. *)

Lemma rangeAssign_filled {A B} (f : A -> B) (xs : list A) :
  forall (filled rest : list B),
    (length xs <= length rest)%nat ->
    rangeAssign f (length filled) xs (filled ++ rest)
    = filled ++ map f xs ++ drop (length xs) rest.
Proof.
  induction xs as [|x xs IH]; intros filled rest Hlen; cbn [rangeAssign map length].
  - by rewrite drop_0.
  - destruct rest as [|y rest]; cbn [length] in Hlen; [lia|].
    replace (<[length filled := f x]> (filled ++ y :: rest))
      with ((filled ++ [f x]) ++ rest).
    + replace (S (length filled)) with (length (filled ++ [f x]))
        by (rewrite length_app; cbn; lia).
      rewrite IH by lia.
      by rewrite <- app_assoc.
    + rewrite <- app_assoc. cbn.
      rewrite insert_app_r_alt by lia.
      by rewrite Nat.sub_diag.
Qed.

Lemma stringAttrs_map (xs : list string) :
  stringAttrs xs = map (fun x => types.OfString (types.StringValue x)) xs.
Proof.
  unfold stringAttrs.
  pose proof (rangeAssign_filled
                (fun x => types.OfString (types.StringValue x)) xs []
                (replicate (length xs) types.nilValue)) as H.
  cbn [length app] in H. rewrite H by (rewrite length_replicate; lia).
  rewrite drop_ge by (rewrite length_replicate; lia).
  apply app_nil_r.
Qed.

Lemma ListValue_strings (xs : list string) :
  types.ListValue types.StringType (stringAttrs xs)
  = (types.ListKnown (map (fun x => types.OfString (types.StringValue x)) xs), []).
Proof.
  rewrite stringAttrs_map. unfold types.ListValue.
  replace (forallb _ _) with true; [done|].
  symmetry. apply forallb_forall. intros v Hv.
  apply in_map_iff in Hv as (x & <- & _). done.
Qed.

(** ** Projection *)

Lemma ScalarProjected_pointer (wire : option string) :
  ScalarProjected wire (types.StringPointerValue wire).
Proof. by destruct wire. Qed.

Lemma ListProjected_read (wire : option (list string)) (before : types.List) :
  ListProjected wire before
    match wire with
    | Some xs => fst (types.ListValue types.StringType (stringAttrs xs))
    | None => before
    end.
Proof. destruct wire as [xs|]; cbn; [by rewrite ListValue_strings | done]. Qed.

(** C7, as the code has it: both projections set every scalar from its
    wire pointer (null pointer: the field is null; otherwise the pointed
    value), set a list field whose wire pointer is present to the known
    list of the wire's elements in the wire's order (a present list of
    length zero gives the known empty list), and leave a list field whose
    wire pointer is absent holding what it held before the call. *)
Theorem projection_by_wire_pointer
    (now : string) (data : AccountResourceModel.t) (ddata : AccountDataSourceModel.t)
    (item : smc.DefinitionsAccountsAccountPropertiesWithoutPassword) :
  let r := readAccountResourceModel now data item in
  let d := readAccountDataSourceModel ddata item in
  (ScalarProjected (smc.Description item) (AccountResourceModel.Description r)
   /\ ScalarProjected (smc.Dn item) (AccountResourceModel.DN r)
   /\ ScalarProjected (smc.Email item) (AccountResourceModel.Email r)
   /\ ScalarProjected (smc.Identifier item) (AccountResourceModel.Identifier r)
   /\ ScalarProjected (smc.Kind item) (AccountResourceModel.Kind r)
   /\ ScalarProjected (smc.Name item) (AccountResourceModel.Name r)
   /\ AccountResourceModel.LocalAuth r
      = match smc.LocalAuth item with
        | None => types.BoolNull
        | Some b => types.BoolValue b
        end
   /\ ListProjected (smc.Folders item)
        (AccountResourceModel.Folders data) (AccountResourceModel.Folders r)
   /\ ListProjected (smc.Permissions item)
        (AccountResourceModel.Permissions data) (AccountResourceModel.Permissions r))
  /\
  (ScalarProjected (smc.Description item) (AccountDataSourceModel.Description d)
   /\ ScalarProjected (smc.Dn item) (AccountDataSourceModel.DN d)
   /\ ScalarProjected (smc.Email item) (AccountDataSourceModel.Email d)
   /\ ScalarProjected (smc.Identifier item) (AccountDataSourceModel.Identifier d)
   /\ ScalarProjected (smc.Kind item) (AccountDataSourceModel.Kind d)
   /\ ScalarProjected (smc.Name item) (AccountDataSourceModel.Name d)
   /\ AccountDataSourceModel.LocalAuth d
      = match smc.LocalAuth item with
        | None => types.BoolNull
        | Some b => types.BoolValue b
        end
   /\ ListProjected (smc.Folders item)
        (AccountDataSourceModel.Folders ddata) (AccountDataSourceModel.Folders d)
   /\ ListProjected (smc.Permissions item)
        (AccountDataSourceModel.Permissions ddata) (AccountDataSourceModel.Permissions d)).
Proof.
  cbn zeta. unfold readAccountResourceModel, readAccountDataSourceModel.
  cbn [AccountResourceModel.Description AccountResourceModel.DN AccountResourceModel.Email
       AccountResourceModel.Identifier AccountResourceModel.Kind AccountResourceModel.Name
       AccountResourceModel.LocalAuth AccountResourceModel.Folders
       AccountResourceModel.Permissions
       AccountDataSourceModel.Description AccountDataSourceModel.DN
       AccountDataSourceModel.Email AccountDataSourceModel.Identifier
       AccountDataSourceModel.Kind AccountDataSourceModel.Name
       AccountDataSourceModel.LocalAuth AccountDataSourceModel.Folders
       AccountDataSourceModel.Permissions].
  repeat split;
    first [ apply ScalarProjected_pointer
          | apply ListProjected_read
          | by destruct (smc.LocalAuth item) ].
Qed.

(** C7 does not hold as the specification words it: projecting a payload
    without a [folders] key into a record whose folders are the (set)
    empty list leaves the empty list, not an unset list. *)
Lemma absent_list_key_keeps_an_empty_list :
  smc.Folders testdata.bare = None
  /\ AccountResourceModel.Folders
       (readAccountResourceModel testdata.now testdata.noFolders testdata.bare)
     = types.ListKnown []
  /\ AccountResourceModel.Folders
       (readAccountResourceModel testdata.now testdata.noFolders testdata.bare)
     <> types.ListNull.
Proof. repeat split. discriminate. Qed.

(** The data sources project into records whose lists are unset, and there
    an absent key and a present empty list end up apart. *)
Lemma fresh_record_tells_absent_from_empty
    (item : smc.DefinitionsAccountsAccountPropertiesWithoutPassword) :
  AccountDataSourceModel.Folders (readAccountDataSourceModel AccountDataSourceModel.zero item)
  = match smc.Folders item with
    | None => types.ListNull
    | Some xs => types.ListKnown (map (fun x => types.OfString (types.StringValue x)) xs)
    end.
Proof.
  pose proof (ListProjected_read (smc.Folders item) types.ListNull) as H.
  unfold readAccountDataSourceModel, ListProjected in *. cbn.
  destruct (smc.Folders item); exact H.
Qed.

(** C8, as the code has it: projection has no failing outcome.  Whatever
    the payload, both projections set the record's uuid to the payload's
    [Uuid] string, which is the empty string for a payload without a
    [uuid] key; and a Read that gets status 200 with a body stores the
    projection of that body and reports no error, whatever its uuid. *)
Theorem projection_sets_uuid_and_never_fails
    (r : AccountResource.t) (now : string) (req : fw.ReadRequest)
    (resp : fw.Response AccountResourceModel.t)
    (respAPI : smc.Response smc.Account)
    (item : smc.DefinitionsAccountsAccountPropertiesWithoutPassword)
    (ddata : AccountDataSourceModel.t) :
  diag.HasError
    (diag.Append (fw.Diagnostics resp) (snd (tfsdk.Get (fw.PriorState req)))) = false ->
  smc.GetApiAccountsUuidWithResponse (AccountResource.client r)
    (types.ValueString (AccountResourceModel.UUID (fst (tfsdk.Get (fw.PriorState req)))))
  = inl respAPI ->
  smc.StatusCode respAPI = 200 ->
  smc.JSON200 respAPI = Some item ->
  let data := fst (tfsdk.Get (fw.PriorState req)) in
  let out := AccountResource.Read r now req resp in
  AccountResourceModel.UUID (readAccountResourceModel now data item)
  = types.StringValue (smc.Uuid item)
  /\ AccountDataSourceModel.UUID (readAccountDataSourceModel ddata item)
     = types.StringValue (smc.Uuid item)
  /\ diag.HasError (fw.Diagnostics (fw.resp out)) = false
  /\ fw.State (fw.resp out) = Some (readAccountResourceModel now data item).
Proof.
  intros Hclean Hcall Hstatus Hbody data out. subst data out.
  split; [reflexivity|]. split; [reflexivity|].
  unfold AccountResource.Read, http.StatusOK.
  destruct (tfsdk.Get (fw.PriorState req)) as [data diags]. cbn [fst snd] in *.
  ran. rewrite Hclean, Hcall, Hstatus, Hbody. cbn [Z.eqb Pos.eqb negb].
  cbn [fw.SetState tfsdk.Set_]. ran. rewrite Append_nil.
  split; [exact Hclean | reflexivity].
Qed.

(** A Read answered with 200 and a body that has no uuid: the record is
    stored with the empty uuid. *)
Lemma Read_without_uuid_stores_empty_uuid :
  let answer := {| smc.Status := "200 OK"; smc.StatusCode := 200;
                   smc.JSON := Some testdata.bare |} in
  let r := {| AccountResource.client :=
                testdata.server (testdata.answer "200 OK" 200 None)
                  (testdata.answer "200 OK" 200 None) (inl answer)
                  (testdata.answer "200 OK" 200 None)
                  (testdata.answer "200 OK" 200 None) |} in
  let req := {| fw.PriorState := testdata.readable testdata.stored |} in
  let out := AccountResource.Read r testdata.now req (testdata.holding testdata.stored) in
  smc.JSON200 answer = Some testdata.bare
  /\ diag.HasError (fw.Diagnostics (fw.resp out)) = false
  /\ AccountResourceModel.UUID <$> fw.State (fw.resp out) = Some (types.StringValue "").
Proof.
  intros answer r req out. split; [reflexivity|].
  destruct (projection_sets_uuid_and_never_fails r testdata.now req
              (testdata.holding testdata.stored) answer testdata.bare
              AccountDataSourceModel.zero eq_refl eq_refl eq_refl eq_refl)
    as (_ & _ & Hquiet & Hstored).
  split; [exact Hquiet|]. subst out. by rewrite Hstored.
Defined.

(** C8 does not hold as the specification words it: a 201 response whose
    result carries no uuid makes Create succeed and store a record with
    the empty uuid. *)
Lemma create_without_uuid_stores_empty_uuid :
  let r := {| AccountResource.client :=
                testdata.server
                  (testdata.answer "201 Created" 201
                     (testdata.enveloped (Some testdata.bare) (Some true)))
                  (testdata.answer "200 OK" 200 None)
                  (testdata.answer "200 OK" 200 None)
                  (testdata.answer "200 OK" 200 None)
                  (testdata.answer "200 OK" 200 None) |} in
  let out := AccountResource.Create r testdata.now
               {| fw.Plan := testdata.readable (fwserver.planFor testdata.config) |}
               testdata.fresh in
  smc.Uuid testdata.bare = ""
  /\ diag.HasError (fw.Diagnostics (fw.resp out)) = false
  /\ AccountResourceModel.UUID <$> fw.State (fw.resp out) = Some (types.StringValue "").
Proof. repeat split. Qed.

(** ** Create *)

(** C1: a Create that was handed a readable plan succeeds exactly when the
    exchange is a response with status 201 whose envelope is present and
    carries a result; it then stores the projection of that result.  In
    every other case it reports one Create error, writes no state and
    leaves the record as the plan gave it. *)
Theorem Create_succeeds_exactly_on_201_with_result
    (r : AccountResource.t) (now : string) (req : fw.CreateRequest)
    (resp : fw.Response AccountResourceModel.t) :
  diag.HasError (diag.Append (fw.Diagnostics resp) (snd (tfsdk.Get (fw.Plan req)))) = false ->
  let data := fst (tfsdk.Get (fw.Plan req)) in
  let exchange :=
    smc.PostApiAccountsWithBodyWithResponse (AccountResource.client r)
      "application/json" (json_Marshal data) in
  let out := AccountResource.Create r now req resp in
  (diag.HasError (fw.Diagnostics (fw.resp out)) = false
   <-> exists respAPI envelope item,
         exchange = inl respAPI
         /\ smc.StatusCode respAPI = 201
         /\ smc.JSON201 respAPI = Some envelope
         /\ smc.Result envelope = Some item)
  /\ (forall respAPI envelope item,
         exchange = inl respAPI ->
         smc.StatusCode respAPI = 201 ->
         smc.JSON201 respAPI = Some envelope ->
         smc.Result envelope = Some item ->
         fw.data out = readAccountResourceModel now data item
         /\ fw.State (fw.resp out) = Some (readAccountResourceModel now data item))
  /\ (diag.HasError (fw.Diagnostics (fw.resp out)) = true ->
         (exists d,
             fw.Diagnostics (fw.resp out)
             = diag.Append (fw.Diagnostics resp) (snd (tfsdk.Get (fw.Plan req))) ++ [d]
             /\ CreateError d)
         /\ fw.State (fw.resp out) = fw.State resp
         /\ fw.data out = data).
Proof.
  intros Hclean data exchange out. subst data exchange out.
  unfold AccountResource.Create.
  destruct (tfsdk.Get (fw.Plan req)) as [data diags]. cbn [fst snd] in *.
  cbn [fw.Append fw.Diagnostics]. rewrite Hclean.
  unfold http.StatusCreated.
  destruct (smc.PostApiAccountsWithBodyWithResponse _ _ _) as [respAPI|err];
    [destruct (smc.StatusCode respAPI =? 201) eqn:Hstatus; cbn [negb];
       [apply Z.eqb_eq in Hstatus;
        destruct (smc.JSON201 respAPI) as [envelope|] eqn:Hjson;
          [destruct (smc.Result envelope) as [item|] eqn:Hresult|]
       |apply Z.eqb_neq in Hstatus]|].
  1:{ ran. cbn [fw.SetState tfsdk.Set_]. ran.
      rewrite ?Append_nil, Hclean.
      split; [split|split].
      - intros _. by exists respAPI, envelope, item.
      - done.
      - intros ? ? ? [= <-] ? ? ?. split; congruence.
      - discriminate. }
  all: ran; rewrite HasError_AddError.
  all: split; [split|split];
    [ discriminate
    | intros (? & ? & ? & ? & ? & ? & ?); exfalso; congruence
    | intros; exfalso; congruence
    | intros _; split;
      [ unfold diag.AddError; rewrite Append_error_to_clean by done;
        eexists; split; [reflexivity | split; [reflexivity | cbn; auto]]
      | split; reflexivity ] ].
Qed.

(** Scenario A of the acceptance test: the server answers the POST with
    201 and the account; Create reports nothing and stores its projection. *)
Lemma Create_201_stores_the_projection :
  let r := {| AccountResource.client := testdata.testServer |} in
  let req := {| fw.Plan := testdata.readable (fwserver.planFor testdata.config) |} in
  let out := AccountResource.Create r testdata.now req testdata.fresh in
  diag.HasError
    (diag.Append (fw.Diagnostics (M := AccountResourceModel.t) testdata.fresh)
       (snd (tfsdk.Get (fw.Plan req)))) = false
  /\ diag.HasError (fw.Diagnostics (fw.resp out)) = false
  /\ fw.State (fw.resp out)
     = Some (readAccountResourceModel testdata.now
               (fwserver.planFor testdata.config) testdata.jdoe).
Proof.
  intros r req out.
  split; [reflexivity|].
  destruct (Create_succeeds_exactly_on_201_with_result r testdata.now req testdata.fresh
              eq_refl) as (Hiff & Hstored & _).
  split.
  - apply Hiff. eexists _, _, _. repeat split; reflexivity.
  - eapply Hstored; reflexivity.
Defined.

(** ** Failed mutations *)

(** C2: a Create, Update or Delete whose exchange fails (transport error,
    status other than the success status, missing envelope or null
    result), or that reports an error for any other reason, writes no
    state and returns with its record exactly as [Get] decoded it. *)
Theorem failed_mutation_changes_nothing
    (r : AccountResource.t) (now : string) (m : Mutation)
    (resp : fw.Response AccountResourceModel.t) :
  ExchangeFailed (successStatus m) (exchangeOf r m)
  \/ diag.HasError (fw.Diagnostics (fw.resp (invoke r now m resp))) = true ->
  fw.State (fw.resp (invoke r now m resp)) = fw.State resp
  /\ fw.data (invoke r now m resp) = recordOf m.
Proof.
  destruct m as [req|req|req];
    unfold invoke, exchangeOf, recordOf, successStatus,
      AccountResource.Create, AccountResource.Update, AccountResource.Delete,
      http.StatusCreated, http.StatusOK, smc.JSON201, smc.JSON200.
  all: destruct (tfsdk.Get _) as [data diags]; cbn [fst snd].
  all: destruct (diag.HasError (fw.Diagnostics (fw.Append resp diags))) eqn:Hclean;
    [intros _; by ran|].
  all: match goal with
       | |- context [match ?call with inl _ => _ | inr _ => _ end] =>
           destruct call as [respAPI|err]; [|intros _; by ran]
       end.
  all: destruct (smc.StatusCode respAPI =? _) eqn:Hstatus; cbn [negb];
    [apply Z.eqb_eq in Hstatus|intros _; by ran].
  all: destruct (smc.JSON respAPI) as [envelope|] eqn:Hjson; [|intros _; by ran].
  all: destruct (smc.Result envelope) as [item|] eqn:Hresult; [|intros _; by ran].
  all: intros [Hfailed|Hreported]; [exfalso; inversion Hfailed; congruence|].
  all: cbn [fw.Append fw.Diagnostics] in Hclean.
  all: revert Hreported; cbn [fw.SetState tfsdk.Set_]; ran;
    rewrite ?Append_nil, Hclean; discriminate.
Qed.

(** Scenario C: the server answers the PUT with 404; Update fails and the
    state and the record are what they were. *)
Lemma Update_404_changes_nothing :
  let r := {| AccountResource.client := testdata.failing "404 Not Found" 404 |} in
  let m := DoUpdate {| fw.UpdatePlan := testdata.readable testdata.stored |} in
  let out := invoke r testdata.now m (testdata.holding testdata.stored) in
  ExchangeFailed (successStatus m) (exchangeOf r m)
  /\ fw.State (fw.resp out) = Some testdata.stored
  /\ fw.data out = testdata.stored.
Proof.
  intros r m out.
  assert (Hfailed : ExchangeFailed (successStatus m) (exchangeOf r m))
    by (apply WrongStatus; discriminate).
  split; [exact Hfailed|].
  exact (failed_mutation_changes_nothing r testdata.now m
           (testdata.holding testdata.stored) (or_introl Hfailed)).
Defined.

(** A failed exchange is never swallowed: when the request went out, the
    handler reports an error for it. *)
Lemma failed_exchange_is_reported
    (r : AccountResource.t) (now : string) (m : Mutation)
    (resp : fw.Response AccountResourceModel.t) :
  diag.HasError
    (diag.Append (fw.Diagnostics resp)
       (snd match m with
            | DoCreate req => tfsdk.Get (fw.Plan req)
            | DoUpdate req => tfsdk.Get (fw.UpdatePlan req)
            | DoDelete req => tfsdk.Get (fw.DeleteState req)
            end)) = false ->
  ExchangeFailed (successStatus m) (exchangeOf r m) ->
  diag.HasError (fw.Diagnostics (fw.resp (invoke r now m resp))) = true.
Proof.
  destruct m as [req|req|req];
    unfold invoke, exchangeOf, recordOf, successStatus,
      AccountResource.Create, AccountResource.Update, AccountResource.Delete,
      http.StatusCreated, http.StatusOK, smc.JSON201, smc.JSON200.
  all: destruct (tfsdk.Get _) as [data diags]; cbn [fst snd].
  all: intros Hclean; ran; rewrite Hclean.
  all: match goal with
       | |- context [match ?call with inl _ => _ | inr _ => _ end] =>
           destruct call as [respAPI|err];
             [|intros _; ran; apply HasError_AddError]
       end.
  all: destruct (smc.StatusCode respAPI =? _) eqn:Hstatus; cbn [negb];
    [apply Z.eqb_eq in Hstatus|intros _; ran; apply HasError_AddError].
  all: destruct (smc.JSON respAPI) as [envelope|] eqn:Hjson;
    [|intros _; ran; apply HasError_AddError].
  all: destruct (smc.Result envelope) as [item|] eqn:Hresult;
    [|intros _; ran; apply HasError_AddError].
  all: intros Hfailed; exfalso; inversion Hfailed; congruence.
Qed.

(** A Create answered with 500 reports the failure. *)
Lemma Create_500_is_reported :
  let r := {| AccountResource.client := testdata.failing "500 Internal Server Error" 500 |} in
  let m := DoCreate {| fw.Plan := testdata.readable (fwserver.planFor testdata.config) |} in
  ExchangeFailed (successStatus m) (exchangeOf r m)
  /\ diag.HasError
       (fw.Diagnostics (fw.resp (invoke r testdata.now m testdata.fresh))) = true.
Proof.
  intros r m.
  assert (Hfailed : ExchangeFailed (successStatus m) (exchangeOf r m))
    by (apply WrongStatus; discriminate).
  split; [exact Hfailed|].
  exact (failed_exchange_is_reported r testdata.now m testdata.fresh eq_refl Hfailed).
Defined.

(** ** The data sources *)

(** C3: a listing that receives a 200 response without results (success
    flag false or absent, result null, result empty, or no envelope)
    reports a list error, stores no sequence and leaves its record alone. *)
Theorem listing_without_results_is_an_error
    (d : AccountsDataSource.t) (req : fw.ConfigRequest AccountsDataSourceModel.t)
    (resp : fw.Response AccountsDataSourceModel.t)
    (respAPI : smc.Response (smc.Envelope (list smc.Account))) :
  diag.HasError (diag.Append (fw.Diagnostics resp) (snd (tfsdk.Get (fw.Config req)))) = false ->
  smc.GetApiAccountsWithResponse (AccountsDataSource.client d) = inl respAPI ->
  smc.StatusCode respAPI = 200 ->
  NoResults (smc.JSON200 respAPI) ->
  let out := AccountsDataSource.Read d req resp in
  (exists e,
      fw.Diagnostics (fw.resp out)
      = diag.Append (fw.Diagnostics resp) (snd (tfsdk.Get (fw.Config req))) ++ [e]
      /\ ListError e)
  /\ diag.HasError (fw.Diagnostics (fw.resp out)) = true
  /\ fw.State (fw.resp out) = fw.State resp
  /\ fw.data out = fst (tfsdk.Get (fw.Config req)).
Proof.
  intros Hclean Hcall Hstatus Hnone out. subst out.
  unfold AccountsDataSource.Read, http.StatusOK, smc.JSON200 in *.
  destruct (tfsdk.Get (fw.Config req)) as [data diags]. cbn [fst snd] in *.
  ran. rewrite Hclean, Hcall, Hstatus. cbn [Z.eqb Pos.eqb negb].
  assert (Hlast : forall summary detail,
             In summary [ "HTTP Error Reading SMC Accounts";
                          "No results Reading SMC Accounts" ] ->
             exists e,
               diag.AddError (diag.Append (fw.Diagnostics resp) diags) summary detail
               = diag.Append (fw.Diagnostics resp) diags ++ [e]
               /\ ListError e).
  { intros summary detail Hin. unfold diag.AddError.
    rewrite Append_error_to_clean by done.
    eexists. split; [reflexivity|]. by split. }
  inversion Hnone as [Heq|envelope Hs Heq|envelope Hs Heq|envelope Hr Heq|envelope Hr Heq];
    try rewrite <- Heq; ran.
  1: by (repeat split; [apply Hlast; cbn; auto | apply HasError_AddError]).
  all: destruct (smc.Result envelope) as [items|] eqn:Hitems;
    [destruct items as [|item items]; cbn [length Nat.eqb]|];
    rewrite ?Hs; cbn [negb]; ran; try discriminate.
  all: repeat split; [apply Hlast; cbn; auto | apply HasError_AddError].
Qed.

(** Scenario B: the server answers the listing with [{result:[], success:true}]. *)
Lemma listing_of_an_empty_result_is_an_error :
  let answer := {| smc.Status := "200 OK"; smc.StatusCode := 200;
                   smc.JSON := testdata.enveloped (Some []) (Some true) |} in
  let d := {| AccountsDataSource.client :=
                testdata.server (testdata.answer "200 OK" 200 None) (inl answer)
                  (testdata.answer "200 OK" 200 None)
                  (testdata.answer "200 OK" 200 None)
                  (testdata.answer "200 OK" 200 None) |} in
  let req := {| fw.Config :=
                  testdata.readable {| AccountsDataSourceModel.Accounts := [] |} |} in
  let out := AccountsDataSource.Read d req testdata.fresh in
  NoResults (smc.JSON200 answer)
  /\ diag.HasError (fw.Diagnostics (fw.resp out)) = true
  /\ fw.State (fw.resp out) = None.
Proof.
  intros answer d req out.
  assert (Hnone : NoResults (smc.JSON200 answer)) by (by apply ResultEmpty).
  split; [exact Hnone|].
  destruct (listing_without_results_is_an_error d req testdata.fresh answer
              eq_refl eq_refl eq_refl Hnone) as (_ & Herror & Hstate & _).
  split; [exact Herror | exact Hstate].
Defined.

(** The loop of the listing projects each account onto the zero value of
    the record, in the order of the response. *)
Lemma rangeRead_projects_each
    (items : list smc.DefinitionsAccountsAccountPropertiesWithoutPassword) :
  AccountsDataSource.rangeRead 0 items
    (replicate (length items) AccountDataSourceModel.unassigned)
  = map (readAccountDataSourceModel AccountDataSourceModel.unassigned) items.
Proof.
  enough (Hinv : forall (filled rest : list AccountDataSourceModel.t),
             length rest = length items ->
             AccountsDataSource.rangeRead (length filled) items (filled ++ rest)
             = filled
                 ++ map (fun '(account, item) => readAccountDataSourceModel account item)
                      (zip rest items)).
  { pose proof (Hinv [] (replicate (length items) AccountDataSourceModel.unassigned)
                  (length_replicate _ _)) as H.
    cbn [length app] in H. rewrite H. clear H Hinv.
    induction items as [|item items IH]; [done|].
    cbn. f_equal. exact IH. }
  induction items as [|item items IH]; intros filled rest Hlen.
  - destruct rest; [|done]. cbn. by rewrite app_nil_r.
  - destruct rest as [|account rest]; [done|].
    cbn [AccountsDataSource.rangeRead zip zip_with map].
    rewrite <- (Nat.add_0_r (length filled)), alter_app_r. cbn [alter list_alter].
    rewrite Nat.add_0_r.
    replace (S (length filled))
      with (length (filled ++ [readAccountDataSourceModel account item]))
      by (rewrite length_app; cbn; lia).
    replace (filled ++ readAccountDataSourceModel account item :: rest)
      with ((filled ++ [readAccountDataSourceModel account item]) ++ rest)
      by (by rewrite <- app_assoc).
    rewrite IH by (cbn in Hlen; lia).
    by rewrite <- app_assoc.
Qed.

(** A list made by [types.ListValue] carries its element type. *)
Lemma ListValue_hasElementType (t : types.Type_) (elements : list types.Value) :
  types.hasElementType (fst (types.ListValue t elements)) = true.
Proof. unfold types.ListValue. by destruct (forallb _ _). Qed.

(** Projected onto the zero value, an account has typed lists exactly
    when its payload carries both of them. *)
Lemma unassigned_lists (item : smc.DefinitionsAccountsAccountPropertiesWithoutPassword) :
  let account := readAccountDataSourceModel AccountDataSourceModel.unassigned item in
  types.hasElementType (AccountDataSourceModel.Folders account)
  = bool_decide (is_Some (smc.Folders item))
  /\ types.hasElementType (AccountDataSourceModel.Permissions account)
     = bool_decide (is_Some (smc.Permissions item)).
Proof.
  cbv zeta. unfold readAccountDataSourceModel.
  cbn [AccountDataSourceModel.Folders AccountDataSourceModel.Permissions
       AccountDataSourceModel.unassigned].
  destruct (smc.Folders item), (smc.Permissions item);
    rewrite ?ListValue_hasElementType; by split.
Qed.

(** The conversion of the projected accounts fails exactly when some
    account lacks a list, and then on one of the two lists. *)
Lemma untyped_projected
    (items : list smc.DefinitionsAccountsAccountPropertiesWithoutPassword) (idx : nat) :
  let accounts := map (readAccountDataSourceModel AccountDataSourceModel.unassigned) items in
  if forallb hasBothLists items
  then AccountsDataSourceModel.untyped idx accounts = None
  else exists idx' name,
         In name ["folders"; "permissions"]
         /\ AccountsDataSourceModel.untyped idx accounts
            = Some (AccountsDataSourceModel.path idx' name).
Proof.
  cbv zeta. revert idx. induction items as [|item items IH]; intros idx; [done|].
  cbn [map forallb AccountsDataSourceModel.untyped].
  destruct (unassigned_lists item) as [-> ->]. unfold hasBothLists.
  destruct (smc.Folders item) as [folders|]; cbn [negb andb].
  - destruct (smc.Permissions item) as [permissions|]; cbn [negb andb].
    + rewrite !bool_decide_eq_true_2 by done. cbn [negb]. apply IH.
    + rewrite bool_decide_eq_true_2 by done.
      rewrite bool_decide_eq_false_2 by (by intros [? ?]). cbn [negb].
      exists idx, "permissions". split; [cbn; auto | reflexivity].
  - rewrite bool_decide_eq_false_2 by (by intros [? ?]). cbn [negb].
    exists idx, "folders". split; [cbn; auto | reflexivity].
Qed.

(** A listing answered with 200, success and at least one account
    projects every account onto the zero value of the record, in the
    order of the response.  When every account carries its folders and
    its permissions, the projections are stored and nothing is reported.
    When an account lacks one of the two lists, the record does not
    convert to the type of the schema: one conversion error is added, on
    that list, and the state keeps what it held. *)
Lemma listing_with_results_projects_each
    (d : AccountsDataSource.t) (req : fw.ConfigRequest AccountsDataSourceModel.t)
    (resp : fw.Response AccountsDataSourceModel.t)
    (respAPI : smc.Response (smc.Envelope (list smc.Account)))
    (envelope : smc.Envelope (list smc.Account))
    (item : smc.Account) (items : list smc.Account) :
  diag.HasError (diag.Append (fw.Diagnostics resp) (snd (tfsdk.Get (fw.Config req)))) = false ->
  smc.GetApiAccountsWithResponse (AccountsDataSource.client d) = inl respAPI ->
  smc.StatusCode respAPI = 200 ->
  smc.JSON200 respAPI = Some envelope ->
  smc.Result envelope = Some (item :: items) ->
  smc.Success envelope = Some true ->
  let out := AccountsDataSource.Read d req resp in
  let projected :=
    {| AccountsDataSourceModel.Accounts :=
         map (readAccountDataSourceModel AccountDataSourceModel.unassigned)
           (item :: items) |} in
  fw.data out = projected
  /\ (forallb hasBothLists (item :: items) = true ->
      diag.HasError (fw.Diagnostics (fw.resp out)) = false
      /\ fw.State (fw.resp out) = Some projected)
  /\ (forallb hasBothLists (item :: items) = false ->
      (exists e,
         fw.Diagnostics (fw.resp out)
         = diag.Append (fw.Diagnostics resp) (snd (tfsdk.Get (fw.Config req))) ++ [e]
         /\ ListConversionError e)
      /\ diag.HasError (fw.Diagnostics (fw.resp out)) = true
      /\ fw.State (fw.resp out) = fw.State resp).
Proof.
  intros Hclean Hcall Hstatus Hbody Hresult Hsuccess out projected. subst out projected.
  unfold AccountsDataSource.Read, http.StatusOK.
  destruct (tfsdk.Get (fw.Config req)) as [data diags]. cbn [fst snd] in *.
  ran. rewrite Hclean, Hcall, Hstatus, Hbody, Hresult, Hsuccess.
  cbn [Z.eqb Pos.eqb negb length Nat.eqb].
  unfold smc.Account in *.
  change (S (length items)) with (length (item :: items)).
  rewrite (rangeRead_projects_each (item :: items)).
  pose proof (untyped_projected (item :: items) 0) as Huntyped. cbv zeta in Huntyped.
  unfold fw.SetStateConverted, tfsdk.SetConverted, AccountsDataSourceModel.mismatch.
  cbn [AccountsDataSourceModel.Accounts].
  ran. split; [reflexivity|]. split; intros Hlists; rewrite Hlists in Huntyped.
  - rewrite Huntyped. cbn [tfsdk.Set_]. ran. rewrite Append_nil.
    split; [exact Hclean | reflexivity].
  - destruct Huntyped as (idx & name & Hname & ->). ran.
    rewrite Append_error_to_clean by done.
    split; [|split; [|reflexivity]].
    + eexists. split; [reflexivity|].
      split; [reflexivity|]. split; [reflexivity|]. by exists idx, name.
    + rewrite HasError_app. apply orb_true_r.
Qed.

(** The listing of [TestAccAccountsDataSource]: one account with both
    lists, projected and stored; and the listing of a server whose one
    account has neither list: nothing is stored and an error is
    reported. *)
Lemma listing_of_the_test_server :
  let req := {| fw.Config :=
                  testdata.readable {| AccountsDataSourceModel.Accounts := [] |} |} in
  let d := {| AccountsDataSource.client := testdata.testServer |} in
  let listed := testdata.answer "200 OK" 200 (testdata.enveloped (Some [testdata.bare]) (Some true)) in
  let d' := {| AccountsDataSource.client :=
                 testdata.server (testdata.answer "200 OK" 200 None) listed
                   (testdata.answer "200 OK" 200 None)
                   (testdata.answer "200 OK" 200 None)
                   (testdata.answer "200 OK" 200 None) |} in
  (smc.GetApiAccountsWithResponse (AccountsDataSource.client d)
   = testdata.answer "200 OK" 200 (testdata.enveloped (Some [testdata.jdoe]) (Some true))
   /\ fw.State (fw.resp (AccountsDataSource.Read d req testdata.fresh))
      = Some {| AccountsDataSourceModel.Accounts :=
                  [readAccountDataSourceModel AccountDataSourceModel.unassigned
                     testdata.jdoe] |})
  /\ (smc.GetApiAccountsWithResponse (AccountsDataSource.client d') = listed
      /\ diag.HasError (fw.Diagnostics (fw.resp (AccountsDataSource.Read d' req testdata.fresh)))
         = true
      /\ fw.State (fw.resp (AccountsDataSource.Read d' req testdata.fresh)) = None).
Proof.
  intros req d listed d'. split.
  - split; [reflexivity|].
    destruct (listing_with_results_projects_each d req testdata.fresh _ _
                testdata.jdoe [] eq_refl eq_refl eq_refl eq_refl eq_refl eq_refl)
      as (_ & Hstored & _).
    exact (proj2 (Hstored eq_refl)).
  - split; [reflexivity|].
    destruct (listing_with_results_projects_each d' req testdata.fresh _ _
                testdata.bare [] eq_refl eq_refl eq_refl eq_refl eq_refl eq_refl)
      as (_ & _ & Hfailed).
    destruct (Hfailed eq_refl) as (_ & Herror & Hstate).
    split; [exact Herror | exact Hstate].
Defined.

(** C10: when the single-account lookup gets status 200 with a null body,
    it writes no state either way; with a null identifier it returns
    without adding any diagnostic, with any other identifier it reports
    an error. *)
Theorem lookup_with_null_body
    (d : AccountDataSource.t) (req : fw.ConfigRequest AccountDataSourceModel.t)
    (resp : fw.Response AccountDataSourceModel.t)
    (respAPI : smc.Response smc.Account) :
  diag.HasError (diag.Append (fw.Diagnostics resp) (snd (tfsdk.Get (fw.Config req)))) = false ->
  smc.GetApiAccountsUuidWithResponse (AccountDataSource.client d)
    (types.ValueString (AccountDataSourceModel.Identifier (fst (tfsdk.Get (fw.Config req)))))
  = inl respAPI ->
  smc.StatusCode respAPI = 200 ->
  smc.JSON200 respAPI = None ->
  let identifier := AccountDataSourceModel.Identifier (fst (tfsdk.Get (fw.Config req))) in
  let out := AccountDataSource.Read d req resp in
  fw.State (fw.resp out) = fw.State resp
  /\ fw.data out = fst (tfsdk.Get (fw.Config req))
  /\ (identifier = types.StringNull ->
        fw.Diagnostics (fw.resp out)
        = diag.Append (fw.Diagnostics resp) (snd (tfsdk.Get (fw.Config req)))
        /\ diag.HasError (fw.Diagnostics (fw.resp out)) = false)
  /\ (identifier <> types.StringNull ->
        diag.HasError (fw.Diagnostics (fw.resp out)) = true).
Proof.
  intros Hclean Hcall Hstatus Hbody identifier out. subst identifier out.
  unfold AccountDataSource.Read, http.StatusOK in *.
  destruct (tfsdk.Get (fw.Config req)) as [data diags]. cbn [fst snd] in *.
  ran. rewrite Hclean, Hcall, Hstatus, Hbody. cbn [Z.eqb Pos.eqb negb].
  destruct (AccountDataSourceModel.Identifier data) as [| |identifier] eqn:Hid;
    cbn [types.IsNull negb]; ran;
    (split; [reflexivity | split; [reflexivity | split]]).
  - intros _. split; [reflexivity | exact Hclean].
  - congruence.
  - discriminate.
  - intros _. apply HasError_AddError.
  - discriminate.
  - intros _. apply HasError_AddError.
Qed.

(** A lookup whose configuration has no identifier, answered with 200 and
    no body: nothing is reported and nothing is stored. *)
Lemma lookup_without_identifier_is_silent :
  let d := {| AccountDataSource.client := testdata.failing "200 OK" 200 |} in
  let req := {| fw.Config := testdata.readable AccountDataSourceModel.zero |} in
  let out := AccountDataSource.Read d req testdata.fresh in
  fw.Diagnostics (fw.resp out) = []
  /\ fw.State (fw.resp out) = None.
Proof.
  intros d req out.
  destruct (lookup_with_null_body d req testdata.fresh
              {| smc.Status := "200 OK"; smc.StatusCode := 200; smc.JSON := None |}
              eq_refl eq_refl eq_refl eq_refl) as (Hstate & _ & Hsilent & _).
  split; [exact (proj1 (Hsilent eq_refl)) | exact Hstate].
Defined.

(** ** The request bodies *)

(** Whatever the encoding of the values, the encoded record has all twelve
    members, in the order of the struct. *)
Lemma MarshalWith_keys (encS : types.String -> json.Value)
    (encB : types.Bool -> json.Value) (encL : types.List -> json.Value)
    (data : AccountResourceModel.t) :
  json.keys (MarshalWith encS encB encL data) = modelKeys.
Proof. reflexivity. Qed.

(** C5, as the code has it: the body Create posts is the JSON encoding of
    the whole plan record; it has the twelve members of the model, [uuid]
    and [last_updated] among them, whichever fields the record has set. *)
Theorem Create_posts_every_member
    (r : AccountResource.t) (now : string) (req : fw.CreateRequest)
    (resp : fw.Response AccountResourceModel.t) :
  diag.HasError (diag.Append (fw.Diagnostics resp) (snd (tfsdk.Get (fw.Plan req)))) = false ->
  exists body,
    fw.requests (AccountResource.Create r now req resp)
    = [http.PostApiAccounts "application/json" body]
    /\ body = json_Marshal (fst (tfsdk.Get (fw.Plan req)))
    /\ json.keys body = modelKeys.
Proof.
  intros Hclean. exists (json_Marshal (fst (tfsdk.Get (fw.Plan req)))).
  split; [|split; [reflexivity | apply MarshalWith_keys]].
  unfold AccountResource.Create.
  destruct (tfsdk.Get (fw.Plan req)) as [data diags]. cbn [fst snd] in *.
  ran. rewrite Hclean.
  destruct (smc.PostApiAccountsWithBodyWithResponse _ _ _) as [respAPI|err]; [|done].
  destruct (negb _); [done|].
  destruct (smc.JSON201 respAPI) as [envelope|]; [|done].
  by destruct (smc.Result envelope).
Qed.

(** The body posted for the test's configuration. *)
Lemma Create_posts_every_member_of_the_test_plan :
  let r := {| AccountResource.client := testdata.testServer |} in
  let req := {| fw.Plan := testdata.readable (fwserver.planFor testdata.config) |} in
  diag.HasError
    (diag.Append (fw.Diagnostics (M := AccountResourceModel.t) testdata.fresh)
       (snd (tfsdk.Get (fw.Plan req)))) = false
  /\ exists body,
       fw.requests (AccountResource.Create r testdata.now req testdata.fresh)
       = [http.PostApiAccounts "application/json" body]
       /\ json.keys body = modelKeys.
Proof.
  intros r req. split; [reflexivity|].
  destruct (Create_posts_every_member r testdata.now req testdata.fresh eq_refl)
    as (body & Hsent & _ & Hkeys).
  exists body. split; [exact Hsent | exact Hkeys].
Defined.

(** C5 does not hold as the specification words it: for a plan whose uuid
    and description are not set, the posted body still has a [uuid]
    member and a [description] member. *)
Lemma Create_posts_uuid_and_unset_members :
  let r := {| AccountResource.client := testdata.failing "500 Internal Server Error" 500 |} in
  let req := {| fw.Plan := testdata.readable testdata.noFolders |} in
  AccountResourceModel.Description testdata.noFolders = types.StringNull
  /\ AccountResourceModel.UUID testdata.noFolders = types.StringUnknown
  /\ exists body,
       fw.requests (AccountResource.Create r testdata.now req testdata.fresh)
       = [http.PostApiAccounts "application/json" body]
       /\ In "uuid" (json.keys body)
       /\ In "description" (json.keys body).
Proof.
  intros r req. split; [reflexivity|]. split; [reflexivity|].
  eexists. split; [reflexivity|]. cbn. auto 15.
Qed.

(** ** The path parameter *)

Lemma length_append (s1 s2 : string) :
  String.length (s1 +:+ s2) = (String.length s1 + String.length s2)%nat.
Proof.
  induction s1 as [|c s1 IH]; [done|].
  change (S (String.length (s1 +:+ s2)) = S (String.length s1 + String.length s2)).
  by rewrite IH.
Qed.

Lemma length_escape (c : ascii) : (1 <= String.length (strconv.escape c))%nat.
Proof.
  unfold strconv.escape.
  repeat match goal with
         | |- context [if ?b then _ else _] => destruct b
         end; cbn; lia.
Qed.

Lemma length_escapes (s : string) :
  (String.length s <= String.length (strconv.escapes s))%nat.
Proof.
  induction s as [|c s IH]; cbn [strconv.escapes String.length]; [lia|].
  rewrite length_append. pose proof (length_escape c). lia.
Qed.

(** A quoted string is never the string itself: it is at least two
    characters longer. *)
Lemma Quote_differs (s : string) : strconv.Quote s <> s.
Proof.
  intros Heq. apply (f_equal String.length) in Heq.
  unfold strconv.Quote in Heq. cbn [String.length] in Heq.
  rewrite length_append in Heq. cbn [String.length] in Heq.
  pose proof (length_escapes s). lia.
Qed.

(** Update and Delete address the account by [data.UUID.String()], Read by
    [data.UUID.ValueString()]: for a record with a known uuid of ASCII
    characters, the path parameter of the PUT and of the DELETE is the
    quoted uuid, which is not the uuid. *)
Lemma Update_and_Delete_send_the_rendering
    (r : AccountResource.t) (now : string) (data : AccountResourceModel.t)
    (resp : fw.Response AccountResourceModel.t) (v : string) :
  diag.HasError (fw.Diagnostics resp) = false ->
  AccountResourceModel.UUID data = types.StringValue v ->
  strconv.isASCII v = true ->
  fw.requests (AccountResource.Update r now {| fw.UpdatePlan := testdata.readable data |} resp)
  = [http.PutApiAccountsUuid (strconv.Quote v) "application/json" (json_Marshal data)]
  /\ fw.requests (AccountResource.Delete r {| fw.DeleteState := testdata.readable data |} resp)
     = [http.DeleteApiAccountsUuid (strconv.Quote v)]
  /\ fw.requests (AccountResource.Read r now {| fw.PriorState := testdata.readable data |} resp)
     = [http.GetApiAccountsUuid v]
  /\ strconv.Quote v <> v.
Proof.
  intros Hclean Hid _.
  unfold AccountResource.Update, AccountResource.Delete, AccountResource.Read.
  cbn [tfsdk.Get fw.UpdatePlan fw.DeleteState fw.PriorState testdata.readable].
  ran. rewrite Append_nil, Hclean, Hid. cbn [types.String_ types.ValueString].
  repeat split.
  - destruct (smc.PutApiAccountsUuidWithBodyWithResponse _ _ _ _) as [respAPI|err]; [|done].
    destruct (negb _); [done|].
    destruct (smc.JSON200 respAPI) as [envelope|]; [|done].
    by destruct (smc.Result envelope).
  - destruct (smc.DeleteApiAccountsUuidWithResponse _ _) as [respAPI|err]; [|done].
    destruct (negb _); [done|].
    destruct (smc.JSON200 respAPI) as [envelope|]; [|done].
    by destruct (smc.Result envelope).
  - destruct (smc.GetApiAccountsUuidWithResponse _ _) as [respAPI|err]; [|done].
    destruct (negb _); [done|].
    by destruct (smc.JSON200 respAPI).
  - apply Quote_differs.
Qed.

(** The stored record of the acceptance test, updated. *)
Lemma Update_sends_the_rendering_of_the_test_uuid :
  let r := {| AccountResource.client := testdata.testServer |} in
  AccountResourceModel.UUID testdata.stored = types.StringValue testdata.uuid
  /\ strconv.isASCII testdata.uuid = true
  /\ fw.requests
       (AccountResource.Update r testdata.now
          {| fw.UpdatePlan := testdata.readable testdata.stored |}
          (testdata.holding testdata.stored))
     = [http.PutApiAccountsUuid (strconv.Quote testdata.uuid) "application/json"
          (json_Marshal testdata.stored)].
Proof.
  intros r. split; [reflexivity|]. split; [reflexivity|].
  exact (proj1 (Update_and_Delete_send_the_rendering r testdata.now testdata.stored
                  (testdata.holding testdata.stored) testdata.uuid
                  eq_refl eq_refl eq_refl)).
Defined.

(** C6 on the record of the acceptance test: the PUT and the DELETE carry
    the uuid wrapped in double quotes, the GET carries the uuid. *)
Lemma Update_and_Delete_quote_the_uuid :
  let r := {| AccountResource.client := testdata.testServer |} in
  let quoted :=
    String strconv.dquote (testdata.uuid +:+ String strconv.dquote EmptyString) in
  AccountResourceModel.UUID testdata.stored = types.StringValue testdata.uuid
  /\ fw.requests
       (AccountResource.Update r testdata.now
          {| fw.UpdatePlan := testdata.readable testdata.stored |}
          (testdata.holding testdata.stored))
     = [http.PutApiAccountsUuid quoted "application/json" (json_Marshal testdata.stored)]
  /\ fw.requests
       (AccountResource.Delete r
          {| fw.DeleteState := testdata.readable testdata.stored |}
          (testdata.holding testdata.stored))
     = [http.DeleteApiAccountsUuid quoted]
  /\ fw.requests
       (AccountResource.Read r testdata.now
          {| fw.PriorState := testdata.readable testdata.stored |}
          (testdata.holding testdata.stored))
     = [http.GetApiAccountsUuid testdata.uuid]
  /\ quoted <> testdata.uuid.
Proof. cbv zeta. repeat split. discriminate. Qed.

(** ** Provider configuration *)


(** Configure on a readable configuration without unknown values: both
    settings resolve configuration first, environment second; an empty
    hostname is a fatal error and no client is made; otherwise the client
    is made from the two resolved values, whatever the API key is. *)
Lemma Configure_resolves_then_checks_hostname {C : Type}
    (NewSMCClientWithResponses : string -> string -> C + smc.error)
    (Getenv : string -> string)
    (req : SMCProvider.ConfigureRequest) (resp : SMCProvider.ConfigureResponse C) :
  let data := fst (tfsdk.Get (SMCProvider.Config req)) in
  let diags := diag.Append (SMCProvider.Diagnostics resp)
                 (snd (tfsdk.Get (SMCProvider.Config req))) in
  let hostname := resolved (SMCProvider.Hostname data) (Getenv "SMC_HOSTNAME") in
  let apiKey := resolved (SMCProvider.APIKey data) (Getenv "SMC_API_KEY") in
  let out := SMCProvider.Configure NewSMCClientWithResponses Getenv req resp in
  diag.HasError diags = false ->
  types.IsUnknown (SMCProvider.Hostname data) = false ->
  types.IsUnknown (SMCProvider.APIKey data) = false ->
  if String.eqb hostname "" then
    diag.HasError (SMCProvider.Diagnostics out) = true
    /\ (exists e, SMCProvider.Diagnostics out = diags ++ [e]
                  /\ diag.Summary e = "Missing SMC hostname")
    /\ SMCProvider.DataSourceData out = SMCProvider.DataSourceData resp
    /\ SMCProvider.ResourceData out = SMCProvider.ResourceData resp
  else
    match NewSMCClientWithResponses hostname apiKey with
    | inl client =>
        out = {| SMCProvider.Diagnostics := diags;
                 SMCProvider.DataSourceData := Some client;
                 SMCProvider.ResourceData := Some client |}
    | inr _ =>
        diag.HasError (SMCProvider.Diagnostics out) = true
        /\ SMCProvider.DataSourceData out = SMCProvider.DataSourceData resp
        /\ SMCProvider.ResourceData out = SMCProvider.ResourceData resp
    end.
Proof.
  intros data diags hostname apiKey out Hclean Hhost Hkey.
  subst data diags hostname apiKey out. unfold SMCProvider.Configure, resolved in *.
  brief.
  destruct (tfsdk.Get (SMCProvider.Config req)) as [data diags]. cbn [fst snd] in *.
  conf.
  rewrite Hclean, Hhost, Hkey. conf. rewrite Hclean.
  destruct (String.eqb _ "") eqn:Hempty; conf.
  - rewrite HasError_AddAttributeError. conf.
    split; [apply HasError_AddAttributeError|].
    split; [|done]. unfold diag.AddAttributeError.
    rewrite Append_error_to_clean by done.
    eexists. split; reflexivity.
  - rewrite Hclean.
    destruct (NewSMCClientWithResponses _ _) as [client|err]; [reflexivity|].
    conf. split; [apply HasError_AddError | done].
Qed.

(** C4, where the code departs from it: with a hostname configured and the
    API key neither configured nor in the environment, Configure reports
    nothing and makes the client with the empty API key. *)
Lemma Configure_accepts_a_missing_api_key :
  SMCProvider.Configure recordingClient emptyEnvironment
    {| SMCProvider.Config :=
         testdata.readable
           {| SMCProvider.Hostname := types.StringValue "https://smc.example.com";
              SMCProvider.APIKey := types.StringNull |} |}
    {| SMCProvider.Diagnostics := [];
       SMCProvider.DataSourceData := None;
       SMCProvider.ResourceData := None |}
  = {| SMCProvider.Diagnostics := [];
       SMCProvider.DataSourceData := Some ("https://smc.example.com", "");
       SMCProvider.ResourceData := Some ("https://smc.example.com", "") |}.
Proof. reflexivity. Qed.

(** The hostname, by contrast, is checked: absent from the configuration
    and from the environment, it stops Configure before any client. *)
Lemma Configure_rejects_a_missing_hostname :
  let out :=
    SMCProvider.Configure recordingClient emptyEnvironment
      {| SMCProvider.Config :=
           testdata.readable
             {| SMCProvider.Hostname := types.StringNull;
                SMCProvider.APIKey := types.StringValue "secret" |} |}
      {| SMCProvider.Diagnostics := [];
         SMCProvider.DataSourceData := None;
         SMCProvider.ResourceData := None |} in
  diag.HasError (SMCProvider.Diagnostics out) = true
  /\ map diag.Summary (SMCProvider.Diagnostics out) = ["Missing SMC hostname"]
  /\ SMCProvider.DataSourceData out = None.
Proof. repeat split. Qed.

(** The resolution on a configuration that sets only the hostname, in an
    environment that holds the API key. *)
Lemma Configure_takes_the_key_from_the_environment :
  let Getenv name := if String.eqb name "SMC_API_KEY" then "from-env" else "" in
  let req := {| SMCProvider.Config :=
                  testdata.readable
                    {| SMCProvider.Hostname := types.StringValue "https://smc.example.com";
                       SMCProvider.APIKey := types.StringNull |} |} in
  let resp := {| SMCProvider.Diagnostics := [];
                 SMCProvider.DataSourceData := None;
                 SMCProvider.ResourceData := None |} in
  diag.HasError (diag.Append (SMCProvider.Diagnostics resp)
                   (snd (tfsdk.Get (SMCProvider.Config req)))) = false
  /\ SMCProvider.DataSourceData (SMCProvider.Configure recordingClient Getenv req resp)
     = Some ("https://smc.example.com", "from-env").
Proof.
  intros Getenv req resp. split; [reflexivity|].
  pose proof (Configure_resolves_then_checks_hostname recordingClient Getenv req resp
                eq_refl eq_refl eq_refl) as H.
  exact (f_equal SMCProvider.DataSourceData H).
Defined.

(** ** Code points and the password pattern *)

(** A byte is a number below 256, and tells its character. *)
Lemma byte_range (c : ascii) : 0 <= utf8.byte c < 256.
Proof.
  unfold utf8.byte. pose proof (N_ascii_bounded c). lia.
Qed.

Lemma byte_inj (c c' : ascii) : utf8.byte c = utf8.byte c' -> c = c'.
Proof.
  unfold utf8.byte. intros H. apply N2Z.inj in H.
  rewrite <- (ascii_N_embedding c), <- (ascii_N_embedding c'). by rewrite H.
Qed.

(** A bitwise or is at least 128 as soon as one side is. *)
Lemma lor_high (a b : Z) : 0 <= a -> 0 <= b -> 128 <= a \/ 128 <= b -> 128 <= Z.lor a b.
Proof.
  intros Ha Hb Hhigh.
  assert (Hlog : 7 <= Z.log2 (Z.lor a b)).
  { rewrite Z.log2_lor by done.
    destruct Hhigh as [H|H];
      change 128 with (2 ^ 7) in H; apply Z.log2_le_pow2 in H; lia. }
  assert (Hpos : 0 < Z.lor a b).
  { destruct (Z.lt_trichotomy 0 (Z.lor a b)) as [H|[H|H]]; [done| |].
    - rewrite <- H in Hlog. cbn in Hlog. lia.
    - rewrite Z.log2_nonpos in Hlog by lia. lia. }
  change 128 with (2 ^ 7). by apply Z.log2_le_pow2.
Qed.

(** Bounds of the decoded code point, side by side of the ors. *)
Ltac nonneg :=
  repeat (apply Z.lor_nonneg; split); Z.div_mod_to_equations; lia.

Ltac high :=
  first [ solve [Z.div_mod_to_equations; lia]
        | apply lor_high; [nonneg | nonneg | first [left; high | right; high]] ].

(** What is decoded at a byte from 128 on is a code point from 128 on:
    [RuneError] or the value of a sequence of several bytes. *)
Lemma Decode_high (c : ascii) (s : string) :
  128 <= utf8.byte c -> 128 <= fst (utf8.DecodeRuneInString (String c s)).
Proof.
  intros Hhigh. pose proof (byte_range c) as Hc.
  unfold utf8.DecodeRuneInString, utf8.index, utf8.RuneSelf, utf8.RuneError.
  cbn [String.length String.get].
  change (S (String.length s) <? 1)%nat with false. cbv iota.
  destruct (Z.ltb_spec (utf8.byte c) 128) as [|_]; [lia|].
  set (s0 := utf8.byte c) in *.
  destruct (utf8.first s0) as [[[sz lo] hi]|] eqn:Hfirst; [|cbn; lia].
  destruct (Nat.ltb _ sz); [cbn; lia|].
  set (s1 := match String.get 0 s with Some c1 => utf8.byte c1 | None => 0 end).
  set (s2 := match String.get 1 s with Some c1 => utf8.byte c1 | None => 0 end).
  set (s3 := match String.get 2 s with Some c1 => utf8.byte c1 | None => 0 end).
  assert (H1 : 0 <= s1 < 256).
  { subst s1. destruct (String.get 0 _) as [c1|]; [apply byte_range | lia]. }
  assert (H2 : 0 <= s2 < 256).
  { subst s2. destruct (String.get 1 _) as [c1|]; [apply byte_range | lia]. }
  assert (H3 : 0 <= s3 < 256).
  { subst s3. destruct (String.get 2 _) as [c1|]; [apply byte_range | lia]. }
  clearbody s0 s1 s2 s3.
  destruct (Z.ltb_spec s1 lo) as [|Hlo]; [cbn; lia|].
  destruct (Z.ltb_spec hi s1) as [|Hhi]; [cbn; lia|]. cbn [orb].
  assert (Hx : forall x, 0 <= x -> Z.land x utf8.maskx = x mod 64)
    by (intros x Hx; exact (Z.land_ones x 6 ltac:(lia))).
  assert (Hm2 : Z.land s0 utf8.mask2 = s0 mod 32) by exact (Z.land_ones s0 5 ltac:(lia)).
  assert (Hm3 : Z.land s0 utf8.mask3 = s0 mod 16) by exact (Z.land_ones s0 4 ltac:(lia)).
  assert (Hm4 : Z.land s0 utf8.mask4 = s0 mod 8) by exact (Z.land_ones s0 3 ltac:(lia)).
  rewrite Hm2, Hm3, Hm4, !Hx, !Z.shiftl_mul_pow2 by lia.
  change (2 ^ 6) with 64. change (2 ^ 12) with 4096. change (2 ^ 18) with 262144.
  unfold utf8.first in Hfirst.
  repeat match type of Hfirst with
         | context [if ?a <? ?b then _ else _] => destruct (Z.ltb_spec a b)
         | context [if ?a <=? ?b then _ else _] => destruct (Z.leb_spec a b)
         | context [if ?a =? ?b then _ else _] => destruct (Z.eqb_spec a b)
         end; try discriminate; injection Hfirst as <- <- <-;
    cbn [Nat.leb fst];
    unfold utf8.locb, utf8.hicb;
    repeat match goal with
           | |- context [(?a <? ?b) || (?c <? ?d)] =>
               destruct (Z.ltb_spec a b); [cbn [orb fst]; try lia|];
               destruct (Z.ltb_spec c d); cbn [orb fst]; try lia
           end.
  all: high.
Qed.

(** An ASCII byte is its own code point, of width one. *)
Lemma Decode_ascii (c : ascii) (s : string) :
  utf8.byte c < 128 -> utf8.DecodeRuneInString (String c s) = (utf8.byte c, 1%nat).
Proof.
  intros Hlow. unfold utf8.DecodeRuneInString, utf8.index, utf8.RuneSelf.
  cbn [String.length String.get].
  change (S (String.length s) <? 1)%nat with false. cbv iota.
  by destruct (Z.ltb_spec (utf8.byte c) 128) as [_|]; [|lia].
Qed.

(** A code point takes one to four bytes of a text that is not empty. *)
Lemma Decode_size (c : ascii) (s : string) :
  (1 <= snd (utf8.DecodeRuneInString (String c s)) <= 4)%nat.
Proof.
  unfold utf8.DecodeRuneInString. cbn [String.length].
  change (S (String.length s) <? 1)%nat with false. cbv iota.
  repeat match goal with
         | |- context [match ?x with Some _ => _ | None => _ end] => destruct x as [[[? ?] ?]|]
         | |- context [if ?b then _ else _] => destruct b
         end; cbn [snd]; lia.
Qed.

Lemma runes_ascii (c : ascii) (s : string) :
  utf8.byte c < 128 -> utf8.runes (String c s) = utf8.byte c :: utf8.runes s.
Proof.
  intros Hlow. unfold utf8.runes. cbn [utf8.runesFrom].
  by rewrite Decode_ascii.
Qed.

(** A code point of the ASCII range comes from one byte, the byte of
    that value. *)
Lemma runes_head (s : string) (r : utf8.rune) (rs : list utf8.rune) :
  utf8.runes s = r :: rs -> r < 128 ->
  exists c s', s = String c s' /\ utf8.byte c = r /\ rs = utf8.runes s'.
Proof.
  destruct s as [|c s']; [discriminate|]. intros Hrunes Hlow.
  destruct (Z.lt_ge_cases (utf8.byte c) 128) as [Hc|Hc].
  - rewrite runes_ascii in Hrunes by done. injection Hrunes as <- <-. by exists c, s'.
  - pose proof (Decode_high c s' Hc) as Hhigh.
    unfold utf8.runes in Hrunes. cbn [utf8.runesFrom] in Hrunes.
    destruct (utf8.DecodeRuneInString (String c s')) as [r' size].
    injection Hrunes as -> _. cbn [fst] in Hhigh. lia.
Qed.

(** A text has at most as many code points as bytes, and at most four
    bytes for each code point. *)
Lemma runesFrom_length (s : string) (skip : nat) :
  (length (utf8.runesFrom skip s) <= String.length s - skip
   /\ String.length s <= skip + 4 * length (utf8.runesFrom skip s))%nat.
Proof.
  revert skip. induction s as [|c s IH]; intros skip; [cbn; lia|].
  destruct skip as [|skip]; cbn [utf8.runesFrom String.length].
  - pose proof (Decode_size c s) as Hsize.
    destruct (utf8.DecodeRuneInString (String c s)) as [r size]. cbn [snd] in Hsize.
    cbn [length]. specialize (IH (size - 1)%nat). lia.
  - specialize (IH skip). lia.
Qed.

(** [.{n}] meets exactly the sequences of [n] code points without a
    newline. *)
Lemma matchRunes_dots (n : nat) (rs : list utf8.rune) :
  regexp.matchRunes (replicate n regexp.Dot) rs = true
  <-> length rs = n /\ ~ In 10 rs.
Proof.
  revert rs. induction n as [|n IH]; intros [|r rs]; cbn [replicate regexp.matchRunes length].
  - split; [intros _; split; [done|by intros []] | done].
  - split; [done | intros [? _]; done].
  - split; [done | intros [? _]; done].
  - cbn [regexp.matchAtom]. change (utf8.byte regexp.newline) with 10.
    rewrite andb_true_iff, negb_true_iff, Z.eqb_neq, IH. cbn [In].
    split.
    + intros (Hr & Hlen & Hrs). split; [by f_equal|]. intros [H|H]; [lia | done].
    + intros (Hlen & Hnot). split; [|split].
      * intros ->. apply Hnot. by left.
      * by injection Hlen.
      * intros H. apply Hnot. by right.
Qed.

(** The pattern and the shape say the same. *)
Lemma passwordRegexp_accepts (s : string) :
  regexp.MatchString AccountResource.passwordRegexp s = true <-> PatternShaped s.
Proof.
  unfold regexp.MatchString, AccountResource.passwordRegexp, PatternShaped. split.
  - intros Hmatch.
    destruct (utf8.runes s) as [|r1 [|r2 [|r3 [|r4 rs]]]] eqn:Hrunes;
      cbn [app regexp.matchRunes regexp.matchAtom existsb] in Hmatch;
      rewrite ?andb_false_r in Hmatch; try discriminate.
    rewrite !andb_true_iff, !orb_true_iff, !Z.eqb_eq in Hmatch.
    destruct Hmatch as (H1 & H2 & H3 & H4 & Hdots).
    apply matchRunes_dots in Hdots.
    apply runes_head in Hrunes as (c1 & s1 & -> & Hc1 & Hrunes); [|by rewrite H1].
    symmetry in Hrunes.
    apply runes_head in Hrunes as (c2 & s2 & -> & Hc2 & Hrunes); [|by rewrite H2].
    symmetry in Hrunes.
    apply runes_head in Hrunes as (c3 & s3 & -> & Hc3 & Hrunes);
      [|by destruct H3 as [->|[->|[->|?]]]].
    symmetry in Hrunes.
    apply runes_head in Hrunes as (c4 & s4 & -> & Hc4 & Hrunes); [|by rewrite H4].
    subst rs.
    rewrite H1 in Hc1. rewrite H2 in Hc2. rewrite H4 in Hc4.
    apply byte_inj in Hc1, Hc2, Hc4. subst c1 c2 c4.
    exists c3, s4. split; [reflexivity|]. split; [|exact Hdots].
    rewrite <- Hc3 in H3.
    destruct H3 as [H|[H|[H|?]]]; [| | |done]; apply byte_inj in H; subst c3; cbn; auto.
  - intros (variant & rest & -> & Hvariant & Hlen & Hnot).
    assert (Hlow : utf8.byte variant < 128).
    { destruct Hvariant as [<-|[<-|[<-|[]]]]; by cbn. }
    rewrite !runes_ascii by (done || by cbn).
    cbn [app regexp.matchRunes regexp.matchAtom existsb].
    rewrite !Z.eqb_refl. cbn [andb].
    rewrite !andb_true_iff. split.
    + destruct Hvariant as [<-|[<-|[<-|[]]]]; by cbn.
    + by apply matchRunes_dots.
Qed.

(** ** Validation *)

Lemma existsb_eqb_In (s : string) (values : list string) :
  existsb (String.eqb s) values = true <-> In s values.
Proof.
  rewrite existsb_exists. split.
  - intros (x & Hin & Heq). apply String.eqb_eq in Heq. by subst.
  - intros Hin. exists s. split; [done | apply String.eqb_refl].
Qed.

Lemma HasError_flat_map {A} (f : A -> diag.Diagnostics) (x : A) (xs : list A) :
  In x xs -> diag.HasError (f x) = true -> diag.HasError (flat_map f xs) = true.
Proof.
  intros Hin Herror. unfold diag.HasError in *.
  apply existsb_exists in Herror as (e & He & HisError).
  apply existsb_exists. exists e. split; [|done].
  apply in_flat_map. by exists x.
Qed.

(** Of the twelve attributes only three carry validators. *)
Lemma ValidateResourceConfig_Schema (config : AccountResourceModel.t) :
  fwserver.ValidateResourceConfig AccountResource.Schema config
  = validator.ValidateString (validator.OneOf ["user"; "group"]) "kind"
      (AccountResourceModel.Kind config)
    ++ validator.ValidateString
         (validator.RegexMatches AccountResource.passwordRegexp
            "Password must be a valid bcrypt hash")
         "password" (AccountResourceModel.Password config)
    ++ validator.ValidateList
         (validator.ValueStringsAre
            [validator.OneOf ["smc"; "sns"; "console"; "ssh"; "api"]])
         "permissions" (AccountResourceModel.Permissions config).
Proof.
  unfold fwserver.ValidateResourceConfig, AccountResource.Schema.
  cbn [flat_map fwserver.ValidateAttribute fwserver.GetAttribute
       fwserver.attributeValues find fst snd String.eqb Ascii.eqb Bool.eqb
       fmap option_fmap option_map app].
  by rewrite !app_nil_r.
Qed.

Lemma Invalid_is_reported (config : AccountResourceModel.t) :
  Invalid config ->
  diag.HasError (fwserver.ValidateResourceConfig AccountResource.Schema config) = true.
Proof.
  intros Hinvalid. rewrite ValidateResourceConfig_Schema, !HasError_app.
  destruct Hinvalid as [s Hkind Hnot|elements s Hperms Hin Hnot|s Hpassword Hshape].
  - rewrite Hkind. cbn [validator.ValidateString].
    destruct (existsb (String.eqb s) ["user"; "group"]) eqn:Hany.
    + apply existsb_eqb_In in Hany. contradiction.
    + reflexivity.
  - rewrite Hperms. cbn [validator.ValidateList].
    rewrite orb_true_iff. right. rewrite orb_true_iff. right.
    apply (HasError_flat_map _ (types.OfString (types.StringValue s))); [done|].
    cbn [flat_map validator.ValidateString].
    destruct (existsb (String.eqb s) _) eqn:Hany.
    + apply existsb_eqb_In in Hany. contradiction.
    + reflexivity.
  - rewrite Hpassword. cbn [validator.ValidateString].
    destruct (regexp.MatchString AccountResource.passwordRegexp s) eqn:Hmatch.
    + apply passwordRegexp_accepts in Hmatch. contradiction.
    + rewrite orb_true_iff. right. reflexivity.
Qed.

(** C9, as the code has it: a record with a kind outside {user, group},
    a permission outside {smc, sns, console, ssh, api} or a password that
    is not [$2a$], [$2y$] or [$2b$] followed by exactly fifty-six
    characters other than the newline fails the validation the schema
    declares, and the create that validation guards sends no HTTP request
    for it and stores nothing. *)
Theorem invalid_record_is_rejected_before_any_request
    (r : AccountResource.t) (now : string) (config : AccountResourceModel.t)
    (resp : fw.Response AccountResourceModel.t) :
  Invalid config ->
  diag.HasError (fwserver.ValidateResourceConfig AccountResource.Schema config) = true
  /\ fw.requests (fwserver.CreateResource r now config resp) = []
  /\ diag.HasError (fw.Diagnostics (fw.resp (fwserver.CreateResource r now config resp)))
     = true
  /\ fw.State (fw.resp (fwserver.CreateResource r now config resp)) = fw.State resp.
Proof.
  intros Hinvalid. pose proof (Invalid_is_reported config Hinvalid) as Hreported.
  split; [exact Hreported|].
  unfold fwserver.CreateResource. rewrite Hreported. ran.
  repeat split.
  rewrite HasError_Append, Hreported. apply orb_true_r.
Qed.

(** The enum test of the specification: [kind = "admin"] reaches no
    server. *)
Lemma admin_kind_is_rejected_before_any_request :
  let r := {| AccountResource.client := testdata.testServer |} in
  let out := fwserver.CreateResource r testdata.now testdata.adminConfig testdata.fresh in
  Invalid testdata.adminConfig
  /\ fw.requests out = []
  /\ diag.HasError (fw.Diagnostics (fw.resp out)) = true.
Proof.
  intros r out.
  assert (Hinvalid : Invalid testdata.adminConfig).
  { apply (BadKind _ "admin"); [reflexivity|].
    intros [Heq|[Heq|[]]]; discriminate. }
  split; [exact Hinvalid|].
  destruct (invalid_record_is_rejected_before_any_request r testdata.now
              testdata.adminConfig testdata.fresh Hinvalid) as (_ & Hnone & Herror & _).
  split; [exact Hnone | exact Herror].
Defined.

(** The configuration of the acceptance test passes validation, and its
    create is the handler's Create on the plan. *)
Lemma test_configuration_is_valid (r : AccountResource.t) (now : string)
    (resp : fw.Response AccountResourceModel.t) :
  fwserver.ValidateResourceConfig AccountResource.Schema testdata.config = []
  /\ fwserver.CreateResource r now testdata.config resp
     = AccountResource.Create r now
         {| fw.Plan := testdata.readable (fwserver.planFor testdata.config) |} resp.
Proof. split; reflexivity. Qed.

(** C9 does not hold as the specification words it: the pattern looks at
    the first four bytes and counts fifty-six characters after them, so
    passwords that are no bcrypt hash pass the validation and their
    Create posts the account.  One has 116 bytes, the other has spaces
    where a hash has its cost, salt and digest. *)
Lemma password_that_is_no_hash_is_posted :
  let r := {| AccountResource.client := testdata.testServer |} in
  let wide := testdata.withPassword testdata.widePassword in
  let blank := testdata.withPassword testdata.blankPassword in
  (BcryptHash testdata.widePassword = false
   /\ String.length testdata.widePassword = 116%nat
   /\ fwserver.ValidateResourceConfig AccountResource.Schema wide = []
   /\ fw.requests (fwserver.CreateResource r testdata.now wide testdata.fresh)
      = [http.PostApiAccounts "application/json" (json_Marshal (fwserver.planFor wide))])
  /\ (BcryptHash testdata.blankPassword = false
      /\ fwserver.ValidateResourceConfig AccountResource.Schema blank = []
      /\ fw.requests (fwserver.CreateResource r testdata.now blank testdata.fresh)
         = [http.PostApiAccounts "application/json" (json_Marshal (fwserver.planFor blank))]).
Proof. cbv zeta. repeat split; vm_compute; reflexivity. Qed.

(** The password of the acceptance test is a bcrypt hash. *)
Lemma test_password_is_a_bcrypt_hash :
  BcryptHash "$2a$10$HM7zy3pUuoyKwnaFk4A4W.9gLQZ3BGWeJqwdlPiOJN6TayLbSQ1Na" = true.
Proof. reflexivity. Qed.

(** The password pattern accepts exactly the strings made of [$2a$],
    [$2y$] or [$2b$] and fifty-six further characters, none of them a
    newline.  An accepted string has sixty characters, which take at
    least 60 and at most 228 bytes. *)
Lemma passwordRegexp_shape (s : string) :
  (regexp.MatchString AccountResource.passwordRegexp s = true <-> PatternShaped s)
  /\ (regexp.MatchString AccountResource.passwordRegexp s = true ->
      length (utf8.runes s) = 60%nat /\ (60 <= String.length s <= 228)%nat).
Proof.
  split; [apply passwordRegexp_accepts|].
  intros Hmatch. apply passwordRegexp_accepts in Hmatch.
  destruct Hmatch as (variant & rest & -> & Hvariant & Hlen & _).
  assert (Hlow : utf8.byte variant < 128).
  { destruct Hvariant as [<-|[<-|[<-|[]]]]; by cbn. }
  rewrite !runes_ascii by (done || by cbn). cbn [length String.length].
  pose proof (runesFrom_length rest 0) as Hbytes. fold (utf8.runes rest) in Hbytes.
  lia.
Qed.

(** The rejection lies in the validation, not in the handler: called on
    the plan of the invalid configuration, Create sends its request. *)
Lemma Create_itself_does_not_validate :
  let r := {| AccountResource.client := testdata.testServer |} in
  let plan := fwserver.planFor testdata.adminConfig in
  fw.requests
    (AccountResource.Create r testdata.now
       {| fw.Plan := testdata.readable plan |} testdata.fresh)
  = [http.PostApiAccounts "application/json" (json_Marshal plan)].
Proof. reflexivity. Qed.

(** The password of the acceptance test is accepted and has sixty
    characters in sixty bytes; [$2a$] with fifty-six accented letters is
    accepted as well and has sixty characters in 116 bytes. *)
Lemma test_password_has_the_shape :
  let password := "$2a$10$HM7zy3pUuoyKwnaFk4A4W.9gLQZ3BGWeJqwdlPiOJN6TayLbSQ1Na" in
  (regexp.MatchString AccountResource.passwordRegexp password = true
   /\ length (utf8.runes password) = 60%nat
   /\ String.length password = 60%nat)
  /\ (regexp.MatchString AccountResource.passwordRegexp testdata.widePassword = true
      /\ length (utf8.runes testdata.widePassword) = 60%nat
      /\ String.length testdata.widePassword = 116%nat).
Proof.
  intros password. split.
  - split; [reflexivity|]. split; [|reflexivity].
    exact (proj1 (proj2 (passwordRegexp_shape password) eq_refl)).
  - split; [by vm_compute|]. split; [|by vm_compute].
    refine (proj1 (proj2 (passwordRegexp_shape testdata.widePassword) _)).
    by vm_compute.
Defined.

(** ** Update, Read and Delete of the resource *)

(** An Update that was handed a readable plan succeeds exactly when the
    exchange is a response with status 200 whose envelope is present and
    carries a result; it then stores the projection of that result onto
    the plan.  When it reports an error, the state and the record are
    untouched. *)
Theorem Update_succeeds_exactly_on_200_with_result
    (r : AccountResource.t) (now : string) (req : fw.UpdateRequest)
    (resp : fw.Response AccountResourceModel.t) :
  diag.HasError
    (diag.Append (fw.Diagnostics resp) (snd (tfsdk.Get (fw.UpdatePlan req)))) = false ->
  let data := fst (tfsdk.Get (fw.UpdatePlan req)) in
  let exchange :=
    smc.PutApiAccountsUuidWithBodyWithResponse (AccountResource.client r)
      (types.String_ (AccountResourceModel.UUID data))
      "application/json" (json_Marshal data) in
  let out := AccountResource.Update r now req resp in
  (diag.HasError (fw.Diagnostics (fw.resp out)) = false
   <-> exists respAPI envelope item,
         exchange = inl respAPI
         /\ smc.StatusCode respAPI = 200
         /\ smc.JSON200 respAPI = Some envelope
         /\ smc.Result envelope = Some item)
  /\ (forall respAPI envelope item,
         exchange = inl respAPI ->
         smc.StatusCode respAPI = 200 ->
         smc.JSON200 respAPI = Some envelope ->
         smc.Result envelope = Some item ->
         fw.data out = readAccountResourceModel now data item
         /\ fw.State (fw.resp out) = Some (readAccountResourceModel now data item))
  /\ (diag.HasError (fw.Diagnostics (fw.resp out)) = true ->
         fw.State (fw.resp out) = fw.State resp /\ fw.data out = data).
Proof.
  intros Hclean data exchange out. subst data exchange out.
  unfold AccountResource.Update.
  destruct (tfsdk.Get (fw.UpdatePlan req)) as [data diags]. cbn [fst snd] in *.
  cbn [fw.Append fw.Diagnostics]. rewrite Hclean.
  unfold http.StatusOK.
  destruct (smc.PutApiAccountsUuidWithBodyWithResponse _ _ _ _) as [respAPI|err];
    [destruct (smc.StatusCode respAPI =? 200) eqn:Hstatus; cbn [negb];
       [apply Z.eqb_eq in Hstatus;
        destruct (smc.JSON200 respAPI) as [envelope|] eqn:Hjson;
          [destruct (smc.Result envelope) as [item|] eqn:Hresult|]
       |apply Z.eqb_neq in Hstatus]|].
  1:{ ran. cbn [fw.SetState tfsdk.Set_]. ran.
      rewrite ?Append_nil, Hclean.
      split; [split|split].
      - intros _. by exists respAPI, envelope, item.
      - done.
      - intros ? ? ? [= <-] ? ? ?. split; congruence.
      - discriminate. }
  all: ran; rewrite HasError_AddError.
  all: split; [split|split];
    [ discriminate
    | intros (? & ? & ? & ? & ? & ? & ?); exfalso; congruence
    | intros; exfalso; congruence
    | intros _; split; reflexivity ].
Qed.

(** The update step of the acceptance test: 200 and the account. *)
Lemma Update_200_stores_the_projection :
  let r := {| AccountResource.client := testdata.testServer |} in
  let req := {| fw.UpdatePlan := testdata.readable testdata.stored |} in
  let out := AccountResource.Update r testdata.now req (testdata.holding testdata.stored) in
  diag.HasError
    (diag.Append (fw.Diagnostics (testdata.holding testdata.stored))
       (snd (tfsdk.Get (fw.UpdatePlan req)))) = false
  /\ diag.HasError (fw.Diagnostics (fw.resp out)) = false
  /\ fw.State (fw.resp out)
     = Some (readAccountResourceModel testdata.now testdata.stored testdata.jdoe).
Proof.
  intros r req out. split; [reflexivity|].
  destruct (Update_succeeds_exactly_on_200_with_result r testdata.now req
              (testdata.holding testdata.stored) eq_refl) as (Hiff & Hstored & _).
  split.
  - apply Hiff. eexists _, _, _. repeat split; reflexivity.
  - eapply Hstored; reflexivity.
Defined.

(** A Read of the resource that was handed a readable prior state succeeds
    exactly when the exchange is a response with status 200 and a body; it
    then stores the projection of the body onto the prior state.  When it
    reports an error, the state and the record are untouched: a vanished
    account is an error, not a removal. *)
Theorem Read_succeeds_exactly_on_200_with_body
    (r : AccountResource.t) (now : string) (req : fw.ReadRequest)
    (resp : fw.Response AccountResourceModel.t) :
  diag.HasError
    (diag.Append (fw.Diagnostics resp) (snd (tfsdk.Get (fw.PriorState req)))) = false ->
  let data := fst (tfsdk.Get (fw.PriorState req)) in
  let exchange :=
    smc.GetApiAccountsUuidWithResponse (AccountResource.client r)
      (types.ValueString (AccountResourceModel.UUID data)) in
  let out := AccountResource.Read r now req resp in
  (diag.HasError (fw.Diagnostics (fw.resp out)) = false
   <-> exists respAPI item,
         exchange = inl respAPI
         /\ smc.StatusCode respAPI = 200
         /\ smc.JSON200 respAPI = Some item)
  /\ (forall respAPI item,
         exchange = inl respAPI ->
         smc.StatusCode respAPI = 200 ->
         smc.JSON200 respAPI = Some item ->
         fw.data out = readAccountResourceModel now data item
         /\ fw.State (fw.resp out) = Some (readAccountResourceModel now data item))
  /\ (diag.HasError (fw.Diagnostics (fw.resp out)) = true ->
         fw.State (fw.resp out) = fw.State resp /\ fw.data out = data).
Proof.
  intros Hclean data exchange out. subst data exchange out.
  unfold AccountResource.Read.
  destruct (tfsdk.Get (fw.PriorState req)) as [data diags]. cbn [fst snd] in *.
  cbn [fw.Append fw.Diagnostics]. rewrite Hclean.
  unfold http.StatusOK.
  destruct (smc.GetApiAccountsUuidWithResponse _ _) as [respAPI|err];
    [destruct (smc.StatusCode respAPI =? 200) eqn:Hstatus; cbn [negb];
       [apply Z.eqb_eq in Hstatus;
        destruct (smc.JSON200 respAPI) as [item|] eqn:Hjson
       |apply Z.eqb_neq in Hstatus]|].
  1:{ ran. cbn [fw.SetState tfsdk.Set_]. ran.
      rewrite ?Append_nil, Hclean.
      split; [split|split].
      - intros _. by exists respAPI, item.
      - done.
      - intros ? ? [= <-] ? ?. split; congruence.
      - discriminate. }
  all: ran; rewrite HasError_AddError.
  all: split; [split|split];
    [ discriminate
    | intros (? & ? & ? & ? & ?); exfalso; congruence
    | intros; exfalso; congruence
    | intros _; split; reflexivity ].
Qed.

(** A Read answered with 200 and no body: the account is gone upstream,
    Read reports it and keeps the state. *)
Lemma Read_of_a_vanished_account_is_an_error :
  let r := {| AccountResource.client := testdata.failing "200 OK" 200 |} in
  let req := {| fw.PriorState := testdata.readable testdata.stored |} in
  let out := AccountResource.Read r testdata.now req (testdata.holding testdata.stored) in
  diag.HasError
    (diag.Append (fw.Diagnostics (testdata.holding testdata.stored))
       (snd (tfsdk.Get (fw.PriorState req)))) = false
  /\ diag.HasError (fw.Diagnostics (fw.resp out)) = true
  /\ fw.State (fw.resp out) = Some testdata.stored.
Proof.
  intros r req out. split; [reflexivity|].
  destruct (Read_succeeds_exactly_on_200_with_body r testdata.now req
              (testdata.holding testdata.stored) eq_refl) as (Hiff & _ & Hkept).
  assert (Herror : diag.HasError (fw.Diagnostics (fw.resp out)) = true).
  { destruct (diag.HasError (fw.Diagnostics (fw.resp out))) eqn:H; [done|].
    apply Hiff in H as (respAPI & item & [= <-] & _ & Hbody). discriminate. }
  split; [exact Herror | exact (proj1 (Hkept Herror))].
Defined.

(** A Delete that was handed a readable state reports no error exactly
    when the exchange is a response with status 200 whose envelope is
    present and carries a result.  Whatever the exchange, Delete itself
    never writes the state and never changes its record: removing the
    state is left to the caller. *)
Theorem Delete_succeeds_exactly_on_200_and_never_writes
    (r : AccountResource.t) (req : fw.DeleteRequest)
    (resp : fw.Response AccountResourceModel.t) :
  diag.HasError
    (diag.Append (fw.Diagnostics resp) (snd (tfsdk.Get (fw.DeleteState req)))) = false ->
  let data := fst (tfsdk.Get (fw.DeleteState req)) in
  let exchange :=
    smc.DeleteApiAccountsUuidWithResponse (AccountResource.client r)
      (types.String_ (AccountResourceModel.UUID data)) in
  let out := AccountResource.Delete r req resp in
  (diag.HasError (fw.Diagnostics (fw.resp out)) = false
   <-> exists respAPI envelope item,
         exchange = inl respAPI
         /\ smc.StatusCode respAPI = 200
         /\ smc.JSON200 respAPI = Some envelope
         /\ smc.Result envelope = Some item)
  /\ fw.State (fw.resp out) = fw.State resp
  /\ fw.data out = data.
Proof.
  intros Hclean data exchange out. subst data exchange out.
  unfold AccountResource.Delete.
  destruct (tfsdk.Get (fw.DeleteState req)) as [data diags]. cbn [fst snd] in *.
  cbn [fw.Append fw.Diagnostics]. rewrite Hclean.
  unfold http.StatusOK.
  destruct (smc.DeleteApiAccountsUuidWithResponse _ _) as [respAPI|err];
    [destruct (smc.StatusCode respAPI =? 200) eqn:Hstatus; cbn [negb];
       [apply Z.eqb_eq in Hstatus;
        destruct (smc.JSON200 respAPI) as [envelope|] eqn:Hjson;
          [destruct (smc.Result envelope) as [item|] eqn:Hresult|]
       |apply Z.eqb_neq in Hstatus]|].
  1:{ ran. rewrite Hclean. split; [split|split]; try done.
      intros _. by exists respAPI, envelope, item. }
  all: ran; rewrite HasError_AddError.
  all: split; [split|split]; try done.
  all: intros (? & ? & ? & ? & ? & ? & ?); exfalso; congruence.
Qed.

(** The delete of the acceptance test: the handler leaves the state as it
    found it. *)
Lemma Delete_200_leaves_the_state :
  let r := {| AccountResource.client := testdata.testServer |} in
  let req := {| fw.DeleteState := testdata.readable testdata.stored |} in
  let out := AccountResource.Delete r req (testdata.holding testdata.stored) in
  diag.HasError
    (diag.Append (fw.Diagnostics (testdata.holding testdata.stored))
       (snd (tfsdk.Get (fw.DeleteState req)))) = false
  /\ diag.HasError (fw.Diagnostics (fw.resp out)) = false
  /\ fw.State (fw.resp out) = Some testdata.stored.
Proof.
  intros r req out. split; [reflexivity|].
  destruct (Delete_succeeds_exactly_on_200_and_never_writes r req
              (testdata.holding testdata.stored) eq_refl) as (Hiff & Hstate & _).
  split; [|exact Hstate].
  apply Hiff. eexists _, _, _. repeat split; reflexivity.
Defined.

(** ** What every handler does *)


(** Diagnostics are only ever added at the end. *)
Lemma Append_keeps_prefix (xs ys : diag.Diagnostics) : xs `prefix_of` diag.Append xs ys.
Proof.
  revert xs. induction ys as [|d ys IH]; intros xs; cbn [diag.Append]; [done|].
  destruct (diag.Contains xs d); [apply IH|].
  etrans; [|apply IH]. by apply prefix_app_r.
Qed.

(** No handler drops or reorders a diagnostic it was handed: the
    diagnostics of the incoming response are a prefix of the diagnostics
    it returns. *)
Theorem handlers_keep_earlier_diagnostics
    (r : AccountResource.t) (d : AccountDataSource.t) (ds : AccountsDataSource.t)
    (now : string)
    (create : fw.CreateRequest) (read : fw.ReadRequest)
    (update : fw.UpdateRequest) (delete : fw.DeleteRequest)
    (lookup : fw.ConfigRequest AccountDataSourceModel.t)
    (listing : fw.ConfigRequest AccountsDataSourceModel.t)
    (resp : fw.Response AccountResourceModel.t)
    (dresp : fw.Response AccountDataSourceModel.t)
    (lresp : fw.Response AccountsDataSourceModel.t) :
  fw.Diagnostics resp
    `prefix_of` fw.Diagnostics (fw.resp (AccountResource.Create r now create resp))
  /\ fw.Diagnostics resp
       `prefix_of` fw.Diagnostics (fw.resp (AccountResource.Read r now read resp))
  /\ fw.Diagnostics resp
       `prefix_of` fw.Diagnostics (fw.resp (AccountResource.Update r now update resp))
  /\ fw.Diagnostics resp
       `prefix_of` fw.Diagnostics (fw.resp (AccountResource.Delete r delete resp))
  /\ fw.Diagnostics dresp
       `prefix_of` fw.Diagnostics (fw.resp (AccountDataSource.Read d lookup dresp))
  /\ fw.Diagnostics lresp
       `prefix_of` fw.Diagnostics (fw.resp (AccountsDataSource.Read ds listing lresp)).
Proof.
  unfold AccountResource.Create, AccountResource.Read, AccountResource.Update,
    AccountResource.Delete, AccountDataSource.Read, AccountsDataSource.Read.
  repeat split.
  all: destruct (tfsdk.Get _) as [data diags]; cbn [fst snd]; ran.
  all: repeat case_match; cbn [fw.SetState tfsdk.Set_];
    unfold fw.SetStateConverted, tfsdk.SetConverted;
    try destruct (AccountsDataSourceModel.mismatch _); cbn [tfsdk.Set_]; ran;
    unfold diag.AddError;
    repeat (etrans; [|apply Append_keeps_prefix]); try done.
Qed.

(** ** The password and the projection *)

(** The password is never taken from the server: whatever Create, Update
    or Read of the resource gets back, the password of the record it ends
    with is the one [Get] decoded, and a state it wrote holds that
    password. *)
Theorem password_is_kept
    (r : AccountResource.t) (now : string)
    (create : fw.CreateRequest) (read : fw.ReadRequest) (update : fw.UpdateRequest)
    (resp : fw.Response AccountResourceModel.t) :
  let kept (decoded : AccountResourceModel.t) (out : AccountResource.Done) :=
    AccountResourceModel.Password (fw.data out) = AccountResourceModel.Password decoded
    /\ (fw.State (fw.resp out) = fw.State resp
        \/ AccountResourceModel.Password <$> fw.State (fw.resp out)
           = Some (AccountResourceModel.Password decoded)) in
  kept (fst (tfsdk.Get (fw.Plan create))) (AccountResource.Create r now create resp)
  /\ kept (fst (tfsdk.Get (fw.PriorState read))) (AccountResource.Read r now read resp)
  /\ kept (fst (tfsdk.Get (fw.UpdatePlan update))) (AccountResource.Update r now update resp).
Proof.
  cbv zeta.
  unfold AccountResource.Create, AccountResource.Read, AccountResource.Update.
  repeat split.
  all: destruct (tfsdk.Get _) as [data diags]; cbn [fst snd]; ran.
  all: repeat case_match; cbn [fw.SetState tfsdk.Set_]; ran; try reflexivity; auto.
Qed.

(** Projecting the same payload again changes nothing but the time stamp. *)
Lemma projection_twice (now1 now2 : string) (data : AccountResourceModel.t)
    (ddata : AccountDataSourceModel.t)
    (item : smc.DefinitionsAccountsAccountPropertiesWithoutPassword) :
  readAccountResourceModel now2 (readAccountResourceModel now1 data item) item
  = readAccountResourceModel now2 data item
  /\ readAccountDataSourceModel (readAccountDataSourceModel ddata item) item
     = readAccountDataSourceModel ddata item.
Proof.
  unfold readAccountResourceModel, readAccountDataSourceModel.
  destruct (smc.Folders item), (smc.Permissions item); split; reflexivity.
Qed.

(** Reading twice in a row, with the server giving the same account both
    times, stores the record of the first Read again, with the later time
    stamp and nothing else changed. *)
Theorem Read_twice_changes_only_the_time_stamp
    (r : AccountResource.t) (now1 now2 : string) (req : fw.ReadRequest)
    (resp : fw.Response AccountResourceModel.t)
    (first second : smc.Response smc.Account)
    (item : smc.DefinitionsAccountsAccountPropertiesWithoutPassword) :
  diag.HasError
    (diag.Append (fw.Diagnostics resp) (snd (tfsdk.Get (fw.PriorState req)))) = false ->
  smc.GetApiAccountsUuidWithResponse (AccountResource.client r)
    (types.ValueString (AccountResourceModel.UUID (fst (tfsdk.Get (fw.PriorState req)))))
  = inl first ->
  smc.GetApiAccountsUuidWithResponse (AccountResource.client r) (smc.Uuid item)
  = inl second ->
  smc.StatusCode first = 200 -> smc.JSON200 first = Some item ->
  smc.StatusCode second = 200 -> smc.JSON200 second = Some item ->
  let data := fst (tfsdk.Get (fw.PriorState req)) in
  let once := AccountResource.Read r now1 req resp in
  let twice := AccountResource.Read r now2 (priorOf (fw.resp once)) (fw.resp once) in
  fw.State (fw.resp once) = Some (readAccountResourceModel now1 data item)
  /\ fw.State (fw.resp twice) = Some (readAccountResourceModel now2 data item)
  /\ fw.Diagnostics (fw.resp twice)
     = diag.Append (fw.Diagnostics resp) (snd (tfsdk.Get (fw.PriorState req))).
Proof.
  intros Hclean Hfirst Hsecond Hs1 Hb1 Hs2 Hb2 data once twice.
  assert (Honce : fw.resp once
                  = {| fw.State := Some (readAccountResourceModel now1 data item);
                       fw.Diagnostics :=
                         diag.Append (fw.Diagnostics resp)
                           (snd (tfsdk.Get (fw.PriorState req))) |}).
  { subst once data. unfold AccountResource.Read, http.StatusOK.
    destruct (tfsdk.Get (fw.PriorState req)) as [data diags]. cbn [fst snd] in *.
    ran. rewrite Hclean, Hfirst, Hs1, Hb1. cbn [Z.eqb Pos.eqb negb].
    cbn [fw.SetState tfsdk.Set_]. ran. by rewrite Append_nil. }
  subst twice. rewrite Honce. split; [reflexivity|].
  unfold AccountResource.Read, priorOf, http.StatusOK.
  cbn [tfsdk.Get fw.PriorState fw.State fw.Diagnostics default fst snd].
  unfold id. ran. rewrite Append_nil, Hclean.
  cbn [readAccountResourceModel AccountResourceModel.UUID types.ValueString].
  rewrite Hsecond, Hs2, Hb2. cbn [Z.eqb Pos.eqb negb].
  cbn [fw.SetState tfsdk.Set_]. ran. rewrite Append_nil.
  split; [|reflexivity].
  f_equal. apply (proj1 (projection_twice now1 now2 data AccountDataSourceModel.zero item)).
Qed.

(** Two Reads against the test server. *)
Lemma Read_twice_against_the_test_server :
  let r := {| AccountResource.client := testdata.testServer |} in
  let req := {| fw.PriorState := testdata.readable testdata.stored |} in
  let resp := testdata.holding testdata.stored in
  let once := AccountResource.Read r testdata.now req resp in
  let twice := AccountResource.Read r "Tuesday, 03-Nov-26 11:00:00 UTC"
                 (priorOf (fw.resp once)) (fw.resp once) in
  diag.HasError
    (diag.Append (fw.Diagnostics resp) (snd (tfsdk.Get (fw.PriorState req)))) = false
  /\ fw.State (fw.resp twice)
     = Some (readAccountResourceModel "Tuesday, 03-Nov-26 11:00:00 UTC"
               testdata.stored testdata.jdoe).
Proof.
  intros r req resp once twice. split; [reflexivity|].
  exact (proj1 (proj2 (Read_twice_changes_only_the_time_stamp r testdata.now
                         "Tuesday, 03-Nov-26 11:00:00 UTC" req resp
                         {| smc.Status := "200 OK"; smc.StatusCode := 200;
                            smc.JSON := Some testdata.jdoe |}
                         {| smc.Status := "200 OK"; smc.StatusCode := 200;
                            smc.JSON := Some testdata.jdoe |}
                         testdata.jdoe
                         eq_refl eq_refl eq_refl eq_refl eq_refl eq_refl eq_refl))).
Defined.

(** For a payload that carries both lists, the server decides every field
    but the password: the projection is the same onto any two records
    with the same password. *)
Theorem projection_of_both_lists_ignores_the_record
    (now : string) (data1 data2 : AccountResourceModel.t)
    (item : smc.DefinitionsAccountsAccountPropertiesWithoutPassword) :
  smc.Folders item <> None ->
  smc.Permissions item <> None ->
  AccountResourceModel.Password data1 = AccountResourceModel.Password data2 ->
  readAccountResourceModel now data1 item = readAccountResourceModel now data2 item.
Proof.
  intros Hfolders Hpermissions Hpassword. unfold readAccountResourceModel.
  destruct (smc.Folders item); [|done].
  destruct (smc.Permissions item); [|done].
  by rewrite Hpassword.
Qed.

(** The test's account projected onto the plan and onto the stored record. *)
Lemma projection_of_the_test_account_ignores_the_record :
  smc.Folders testdata.jdoe <> None
  /\ smc.Permissions testdata.jdoe <> None
  /\ readAccountResourceModel testdata.now (fwserver.planFor testdata.config) testdata.jdoe
     = readAccountResourceModel testdata.now testdata.stored testdata.jdoe.
Proof.
  assert (Hfolders : smc.Folders testdata.jdoe <> None) by discriminate.
  assert (Hpermissions : smc.Permissions testdata.jdoe <> None) by discriminate.
  split; [exact Hfolders|]. split; [exact Hpermissions|].
  exact (projection_of_both_lists_ignores_the_record testdata.now
           (fwserver.planFor testdata.config) testdata.stored testdata.jdoe
           Hfolders Hpermissions eq_refl).
Defined.

(** ** The provider and its components *)

(** Configure either reports an error and stores no client, leaving
    [DataSourceData] and [ResourceData] as they were, or reports no error
    and stores one and the same freshly made client in both. *)
Theorem Configure_stores_a_client_or_reports {C : Type}
    (NewSMCClientWithResponses : string -> string -> C + smc.error)
    (Getenv : string -> string)
    (req : SMCProvider.ConfigureRequest) (resp : SMCProvider.ConfigureResponse C) :
  let out := SMCProvider.Configure NewSMCClientWithResponses Getenv req resp in
  (diag.HasError (SMCProvider.Diagnostics out) = true
   /\ SMCProvider.DataSourceData out = SMCProvider.DataSourceData resp
   /\ SMCProvider.ResourceData out = SMCProvider.ResourceData resp)
  \/ (diag.HasError (SMCProvider.Diagnostics out) = false
      /\ exists hostname apiKey client,
           NewSMCClientWithResponses hostname apiKey = inl client
           /\ hostname <> ""
           /\ SMCProvider.DataSourceData out = Some client
           /\ SMCProvider.ResourceData out = Some client).
Proof.
  cbv zeta. unfold SMCProvider.Configure. brief.
  destruct (tfsdk.Get (SMCProvider.Config req)) as [data diags]. conf.
  destruct (diag.HasError (diag.Append (SMCProvider.Diagnostics resp) diags)) eqn:Hclean;
    [left; by conf|].
  destruct (types.IsUnknown (SMCProvider.Hostname data)),
           (types.IsUnknown (SMCProvider.APIKey data)); conf;
    rewrite ?HasError_AddAttributeError, ?Hclean; conf;
    try (left; split; [apply HasError_AddAttributeError | done]).
  destruct (String.eqb _ "") eqn:Hempty; conf;
    rewrite ?HasError_AddAttributeError, ?Hclean; conf.
  - left. split; [apply HasError_AddAttributeError | done].
  - destruct (NewSMCClientWithResponses _ _) as [client|err] eqn:Hnew; conf.
    + right. split; [exact Hclean|]. eexists _, _, client.
      split; [exact Hnew|]. split; [|done].
      by apply String.eqb_neq.
    + left. split; [apply HasError_AddError | done].
Qed.

Lemma In_Append_new (xs : diag.Diagnostics) (e : diag.Diagnostic) :
  In e (diag.Append xs [e]).
Proof.
  cbn [diag.Append]. destruct (diag.Contains xs e) eqn:Hin.
  - unfold diag.Contains in Hin. apply existsb_exists in Hin as (e' & Hin & Heq).
    apply bool_decide_eq_true in Heq. by subst.
  - apply in_or_app. right. by left.
Qed.

Lemma In_Append_old (xs ys : diag.Diagnostics) (e : diag.Diagnostic) :
  In e xs -> In e (diag.Append xs ys).
Proof.
  intros Hin. destruct (Append_keeps_prefix xs ys) as [rest ->].
  apply in_or_app. by left.
Qed.

(** A configuration whose hostname or API key is unknown stops Configure
    before the environment is read and before any client is made: an
    attribute error names each unknown setting, nothing is stored, and
    the outcome is the same whatever the environment and the client
    constructor are. *)
Theorem Configure_stops_on_unknown_values {C : Type}
    (NewSMCClientWithResponses other : string -> string -> C + smc.error)
    (Getenv otherenv : string -> string)
    (req : SMCProvider.ConfigureRequest) (resp : SMCProvider.ConfigureResponse C) :
  let data := fst (tfsdk.Get (SMCProvider.Config req)) in
  let out := SMCProvider.Configure NewSMCClientWithResponses Getenv req resp in
  types.IsUnknown (SMCProvider.Hostname data) = true
  \/ types.IsUnknown (SMCProvider.APIKey data) = true ->
  diag.HasError (SMCProvider.Diagnostics out) = true
  /\ SMCProvider.DataSourceData out = SMCProvider.DataSourceData resp
  /\ SMCProvider.ResourceData out = SMCProvider.ResourceData resp
  /\ out = SMCProvider.Configure other otherenv req resp
  /\ (diag.HasError
        (diag.Append (SMCProvider.Diagnostics resp)
           (snd (tfsdk.Get (SMCProvider.Config req)))) = false ->
      (types.IsUnknown (SMCProvider.Hostname data) = true ->
       exists e, In e (SMCProvider.Diagnostics out)
                 /\ diag.attribute e = Some "hostname"
                 /\ diag.Summary e = "Unknown SMC hostname")
      /\ (types.IsUnknown (SMCProvider.APIKey data) = true ->
          exists e, In e (SMCProvider.Diagnostics out)
                    /\ diag.attribute e = Some "api_key"
                    /\ diag.Summary e = "Unknown API Key hostname")).
Proof.
  intros data out Hunknown. subst data out. unfold SMCProvider.Configure. brief.
  destruct (tfsdk.Get (SMCProvider.Config req)) as [data diags]. cbn [fst snd] in *. conf.
  destruct (diag.HasError (diag.Append (SMCProvider.Diagnostics resp) diags)) eqn:Hclean.
  { conf. rewrite Hclean. repeat split; discriminate. }
  destruct (types.IsUnknown (SMCProvider.Hostname data)) eqn:Hhost,
           (types.IsUnknown (SMCProvider.APIKey data)) eqn:Hkey; conf;
    rewrite ?HasError_AddAttributeError; conf;
    [ | | |destruct Hunknown; discriminate].
  all: split; [apply HasError_AddAttributeError|].
  all: split; [reflexivity|]. all: split; [reflexivity|]. all: split; [reflexivity|].
  all: intros _; split; intros Hyes; try discriminate.
  all: unfold diag.AddAttributeError.
  - eexists. split; [apply In_Append_old, In_Append_new|]. by split.
  - eexists. split; [apply In_Append_new|]. by split.
  - eexists. split; [apply In_Append_new|]. by split.
  - eexists. split; [apply In_Append_new|]. by split.
Qed.

(** Both settings unknown, as when they come from a resource that is not
    applied yet. *)
Lemma Configure_stops_on_two_unknown_values :
  let req := {| SMCProvider.Config :=
                  testdata.readable
                    {| SMCProvider.Hostname := types.StringUnknown;
                       SMCProvider.APIKey := types.StringUnknown |} |} in
  let resp := {| SMCProvider.Diagnostics := [];
                 SMCProvider.DataSourceData := None;
                 SMCProvider.ResourceData := None |} in
  let out := SMCProvider.Configure recordingClient emptyEnvironment req resp in
  types.IsUnknown (SMCProvider.Hostname (fst (tfsdk.Get (SMCProvider.Config req)))) = true
  /\ diag.HasError (SMCProvider.Diagnostics out) = true
  /\ SMCProvider.DataSourceData out = None.
Proof.
  intros req resp out. split; [reflexivity|].
  destruct (Configure_stops_on_unknown_values recordingClient recordingClient
              emptyEnvironment emptyEnvironment req resp (or_introl eq_refl))
    as (Herror & Hdata & _).
  split; [exact Herror | exact Hdata].
Defined.

(** The three component Configure methods behave alike: without provider
    data they do nothing and report nothing; with a client they take it;
    with anything else they report an error and keep the client they
    had. *)
Lemma componentConfigure_cases (summary expected : string)
    (client : option smc.ClientWithResponses) (providerData : option ProviderData)
    (diags : diag.Diagnostics) :
  match providerData with
  | None => componentConfigure summary expected client providerData diags = (client, diags)
  | Some (ClientData provided) =>
      componentConfigure summary expected client providerData diags = (Some provided, diags)
  | Some (OtherData _) =>
      fst (componentConfigure summary expected client providerData diags) = client
      /\ diag.HasError (snd (componentConfigure summary expected client providerData diags))
         = true
  end.
Proof.
  destruct providerData as [[provided|typeName]|]; cbn; [done| |done].
  split; [done | apply HasError_AddError].
Qed.

(** From the provider to its components: when Configure ends without an
    error, the resource and both data sources, configured with what it
    stored, all hold the one client it made and report nothing; when it
    ends with an error and nothing was stored before, they stay without a
    client and still report nothing. *)
Theorem components_get_the_client_the_provider_made
    (NewSMCClientWithResponses : string -> string -> smc.ClientWithResponses + smc.error)
    (Getenv : string -> string) (req : SMCProvider.ConfigureRequest)
    (diags : diag.Diagnostics) :
  let out :=
    SMCProvider.Configure NewSMCClientWithResponses Getenv req
      {| SMCProvider.Diagnostics := diags;
         SMCProvider.DataSourceData := None;
         SMCProvider.ResourceData := None |} in
  let resource :=
    AccountResource_Configure None (providerDataOf (SMCProvider.ResourceData out)) [] in
  let account :=
    AccountDataSource_Configure None (providerDataOf (SMCProvider.DataSourceData out)) [] in
  let accounts :=
    AccountsDataSource_Configure None (providerDataOf (SMCProvider.DataSourceData out)) [] in
  snd resource = [] /\ snd account = [] /\ snd accounts = []
  /\ fst account = fst resource /\ fst accounts = fst resource
  /\ if diag.HasError (SMCProvider.Diagnostics out)
     then fst resource = None
     else exists hostname apiKey client,
            NewSMCClientWithResponses hostname apiKey = inl client
            /\ fst resource = Some client.
Proof.
  intros out resource account accounts.
  assert (Hout :
            (diag.HasError (SMCProvider.Diagnostics out) = true
             /\ SMCProvider.DataSourceData out = None
             /\ SMCProvider.ResourceData out = None)
            \/ (diag.HasError (SMCProvider.Diagnostics out) = false
                /\ exists hostname apiKey client,
                     NewSMCClientWithResponses hostname apiKey = inl client
                     /\ SMCProvider.DataSourceData out = Some client
                     /\ SMCProvider.ResourceData out = Some client)).
  { subst out. unfold SMCProvider.Configure. brief.
    destruct (tfsdk.Get (SMCProvider.Config req)) as [data ds]. conf.
    destruct (diag.HasError (diag.Append diags ds)) eqn:Hclean; [left; by conf|].
    destruct (types.IsUnknown (SMCProvider.Hostname data)),
             (types.IsUnknown (SMCProvider.APIKey data)); conf;
      rewrite ?HasError_AddAttributeError, ?Hclean; conf;
      try (left; split; [apply HasError_AddAttributeError | done]).
    destruct (String.eqb _ "") eqn:Hempty; conf;
      rewrite ?HasError_AddAttributeError, ?Hclean; conf.
    - left. split; [apply HasError_AddAttributeError | done].
    - destruct (NewSMCClientWithResponses _ _) as [client|err] eqn:Hnew; conf.
      + right. split; [exact Hclean|]. by eexists _, _, client.
      + left. split; [apply HasError_AddError | done]. }
  subst resource account accounts.
  destruct Hout as [(Herror & Hdata & Hresource)
                   |(Hquiet & hostname & apiKey & client & Hnew & Hdata & Hresource)];
    rewrite ?Herror, ?Hquiet, Hdata, Hresource; cbn.
  - done.
  - repeat split. by exists hostname, apiKey, client.
Qed.

(** The type names of the two data sources differ whatever the provider
    is called: the data sources the provider hands out never collide. *)
Theorem data_source_type_names_are_distinct (ProviderTypeName : string) :
  NoDup (map (fun new => DataSource_TypeName new ProviderTypeName) SMCProvider_DataSources).
Proof.
  cbn [map SMCProvider_DataSources DataSource_TypeName].
  apply NoDup_cons. split; [|apply NoDup_singleton].
  intros Hin. apply list_elem_of_singleton in Hin.
  apply (f_equal String.length) in Hin.
  unfold AccountDataSource_Metadata, AccountsDataSource_Metadata in Hin.
  rewrite !length_append in Hin. cbn in Hin. lia.
Qed.

(** ** Import *)

(** Import followed by Read: the Read asks for the account under the
    imported id, unquoted and unchanged; answered with 200 and a body, it
    stores the projection of the body onto the otherwise empty record, so
    the password stays unset and the uuid is the one the server sent. *)
Theorem Read_after_import
    (r : AccountResource.t) (now ID : string)
    (respAPI : smc.Response smc.Account)
    (item : smc.DefinitionsAccountsAccountPropertiesWithoutPassword) :
  smc.GetApiAccountsUuidWithResponse (AccountResource.client r) ID = inl respAPI ->
  smc.StatusCode respAPI = 200 ->
  smc.JSON200 respAPI = Some item ->
  let imported := AccountResource_ImportState ID testdata.fresh in
  let out := AccountResource.Read r now (priorOf imported) imported in
  fw.requests out = [http.GetApiAccountsUuid ID]
  /\ fw.Diagnostics (fw.resp out) = []
  /\ fw.State (fw.resp out)
     = Some (readAccountResourceModel now AccountResourceModel.zero item)
  /\ AccountResourceModel.Password <$> fw.State (fw.resp out) = Some types.StringNull
  /\ AccountResourceModel.UUID <$> fw.State (fw.resp out)
     = Some (types.StringValue (smc.Uuid item)).
Proof.
  intros Hcall Hstatus Hbody imported out. subst imported out.
  unfold AccountResource.Read, AccountResource_ImportState, priorOf, SetUUID,
    testdata.fresh, http.StatusOK.
  cbn [tfsdk.Get fw.PriorState fw.State fw.Diagnostics default fst snd].
  unfold id. ran. cbn [diag.Append diag.HasError existsb].
  cbn [AccountResourceModel.UUID types.ValueString].
  rewrite Hcall, Hstatus, Hbody. cbn [Z.eqb Pos.eqb negb].
  cbn [fw.SetState tfsdk.Set_]. ran. cbn [diag.Append].
  repeat split.
Qed.

(** The import step of the acceptance test. *)
Lemma Read_after_import_of_the_test_account :
  let r := {| AccountResource.client := testdata.testServer |} in
  let imported := AccountResource_ImportState testdata.uuid testdata.fresh in
  let out := AccountResource.Read r testdata.now (priorOf imported) imported in
  smc.GetApiAccountsUuidWithResponse (AccountResource.client r) testdata.uuid
  = testdata.answer "200 OK" 200 (Some testdata.jdoe)
  /\ fw.requests out = [http.GetApiAccountsUuid testdata.uuid]
  /\ AccountResourceModel.Password <$> fw.State (fw.resp out) = Some types.StringNull.
Proof.
  intros r imported out. split; [reflexivity|].
  destruct (Read_after_import r testdata.now testdata.uuid _ testdata.jdoe
              eq_refl eq_refl eq_refl) as (Hsent & _ & _ & Hpassword & _).
  split; [exact Hsent | exact Hpassword].
Defined.

(** ** Validation, in full *)

Lemma HasError_invalid (attribute detail : string) :
  diag.HasError (validator.invalid attribute detail) = true.
Proof. reflexivity. Qed.

Lemma ValidateString_OneOf (values : list string) (attribute : string) (v : types.String) :
  validator.ValidateString (validator.OneOf values) attribute v = []
  <-> passes (fun s => existsb (String.eqb s) values) v = true.
Proof.
  destruct v as [| |s]; cbn; [done|done|].
  destruct (existsb (String.eqb s) values); split; try done.
Qed.

(** The schema's validators let a configuration through exactly when its
    kind, if known, is user or group, its password, if known, matches the
    bcrypt pattern, and every element of its permissions, if the list is
    known, is a string that is null, unknown or one of the five access
    rights; no other attribute is looked at.  A configuration that is let
    through gets no diagnostic at all, any other gets an error. *)
Theorem validation_in_full (config : AccountResourceModel.t) :
  diag.HasError (fwserver.ValidateResourceConfig AccountResource.Schema config)
  = negb (Valid config)
  /\ (fwserver.ValidateResourceConfig AccountResource.Schema config = []
      <-> Valid config = true).
Proof.
  rewrite ValidateResourceConfig_Schema. unfold Valid.
  set (kind := validator.ValidateString _ "kind" _).
  set (password := validator.ValidateString _ "password" _).
  set (permissions := validator.ValidateList _ "permissions" _).
  assert (Hkind : (kind = [] /\ passes kindAllowed (AccountResourceModel.Kind config) = true)
                  \/ (diag.HasError kind = true
                      /\ passes kindAllowed (AccountResourceModel.Kind config) = false)).
  { subst kind.
    destruct (AccountResourceModel.Kind config) as [| |s];
      cbn [validator.ValidateString passes]; auto.
    unfold kindAllowed. destruct (existsb (String.eqb s) ["user"; "group"]); auto. }
  assert (Hpassword :
            (password = []
             /\ passes (regexp.MatchString AccountResource.passwordRegexp)
                  (AccountResourceModel.Password config) = true)
            \/ (diag.HasError password = true
                /\ passes (regexp.MatchString AccountResource.passwordRegexp)
                     (AccountResourceModel.Password config) = false)).
  { subst password.
    destruct (AccountResourceModel.Password config) as [| |s];
      cbn [validator.ValidateString passes]; auto.
    destruct (regexp.MatchString _ s); auto. }
  assert (Hpermissions :
            forall elements,
              let check element :=
                match element with
                | types.OfString s => passes permissionAllowed s
                | _ => false
                end in
              let diags :=
                validator.ValidateList
                  (validator.ValueStringsAre
                     [validator.OneOf ["smc"; "sns"; "console"; "ssh"; "api"]])
                  "permissions" (types.ListKnown elements) in
              (diags = [] /\ forallb check elements = true)
              \/ (diag.HasError diags = true /\ forallb check elements = false)).
  { clear. cbv zeta. cbn [validator.ValidateList].
    induction elements as [|element elements IH]; [auto|].
    cbn [flat_map forallb]. rewrite HasError_app.
    destruct element as [|s|b].
    - right. split; reflexivity.
    - cbn [flat_map]. rewrite app_nil_r.
      destruct s as [| |s]; cbn [validator.ValidateString passes app]; [exact IH..|].
      unfold permissionAllowed at 1 3.
      destruct (existsb (String.eqb s) ["smc"; "sns"; "console"; "ssh"; "api"]);
        [exact IH|].
      right. split; reflexivity.
    - right. split; reflexivity. }
  assert (Hlist :
            (permissions = []
             /\ match AccountResourceModel.Permissions config with
                | types.ListKnown elements =>
                    forallb (fun element =>
                               match element with
                               | types.OfString s => passes permissionAllowed s
                               | _ => false
                               end) elements
                | _ => true
                end = true)
            \/ (diag.HasError permissions = true
                /\ match AccountResourceModel.Permissions config with
                   | types.ListKnown elements =>
                       forallb (fun element =>
                                  match element with
                                  | types.OfString s => passes permissionAllowed s
                                  | _ => false
                                  end) elements
                   | _ => true
                   end = false)).
  { subst permissions.
    destruct (AccountResourceModel.Permissions config) as [| |elements|];
      [auto | auto | apply Hpermissions | auto]. }
  clearbody kind password permissions. clear Hpermissions.
  rewrite !HasError_app.
  destruct Hkind as [[-> ->]|[Hk ->]], Hpassword as [[-> ->]|[Hp ->]],
    Hlist as [[-> ->]|[Hl ->]]; cbn [app andb negb orb diag.HasError existsb];
    rewrite ?Hk, ?Hp, ?Hl, ?orb_true_r; cbn [orb];
    (split; [reflexivity|]); split; try done.
  all: intros Hnil; exfalso.
  all: repeat match goal with
         | H : diag.HasError ?x = true |- _ =>
             assert (x <> []) by (intros ->; discriminate); clear H
         end.
  all: repeat match goal with
         | H : ?x ++ ?y = [] |- _ => apply app_eq_nil in H as [? ?]
         end; congruence.
Qed.

(** Leaving the three validated attributes unset always passes. *)
Lemma unset_attributes_pass (config : AccountResourceModel.t) :
  AccountResourceModel.Kind config = types.StringNull ->
  AccountResourceModel.Password config = types.StringNull ->
  AccountResourceModel.Permissions config = types.ListNull ->
  fwserver.ValidateResourceConfig AccountResource.Schema config = [].
Proof.
  intros Hkind Hpassword Hpermissions.
  rewrite ValidateResourceConfig_Schema, Hkind, Hpassword, Hpermissions. reflexivity.
Qed.

(** ** The single-account data source *)

(** The lookup that was handed a readable configuration writes the state
    exactly when the exchange is a response with status 200 and a body:
    it then stores the projection of the body onto the configured record
    and adds no diagnostic.  In every other case the state and the record
    are untouched, and an error is reported unless the status is 200, the
    body is missing and the identifier is null. *)
Theorem lookup_stores_exactly_on_200_with_body
    (d : AccountDataSource.t) (req : fw.ConfigRequest AccountDataSourceModel.t)
    (resp : fw.Response AccountDataSourceModel.t) :
  diag.HasError (diag.Append (fw.Diagnostics resp) (snd (tfsdk.Get (fw.Config req)))) = false ->
  let data := fst (tfsdk.Get (fw.Config req)) in
  let exchange :=
    smc.GetApiAccountsUuidWithResponse (AccountDataSource.client d)
      (types.ValueString (AccountDataSourceModel.Identifier data)) in
  let out := AccountDataSource.Read d req resp in
  match exchange with
  | inl respAPI =>
      if smc.StatusCode respAPI =? 200 then
        match smc.JSON200 respAPI with
        | Some item =>
            fw.State (fw.resp out) = Some (readAccountDataSourceModel data item)
            /\ fw.data out = readAccountDataSourceModel data item
            /\ fw.Diagnostics (fw.resp out)
               = diag.Append (fw.Diagnostics resp) (snd (tfsdk.Get (fw.Config req)))
        | None =>
            fw.State (fw.resp out) = fw.State resp /\ fw.data out = data
            /\ diag.HasError (fw.Diagnostics (fw.resp out))
               = negb (types.IsNull (AccountDataSourceModel.Identifier data))
        end
      else
        fw.State (fw.resp out) = fw.State resp /\ fw.data out = data
        /\ diag.HasError (fw.Diagnostics (fw.resp out)) = true
  | inr _ =>
      fw.State (fw.resp out) = fw.State resp /\ fw.data out = data
      /\ diag.HasError (fw.Diagnostics (fw.resp out)) = true
  end.
Proof.
  intros Hclean data exchange out. subst data exchange out.
  unfold AccountDataSource.Read, http.StatusOK.
  destruct (tfsdk.Get (fw.Config req)) as [data diags]. cbn [fst snd] in *.
  ran. rewrite Hclean.
  destruct (smc.GetApiAccountsUuidWithResponse _ _) as [respAPI|err];
    [|ran; by rewrite HasError_AddError].
  destruct (smc.StatusCode respAPI =? 200); cbn [negb];
    [|ran; by rewrite HasError_AddError].
  destruct (smc.JSON200 respAPI) as [item|].
  - cbn [fw.SetState tfsdk.Set_]. ran. by rewrite Append_nil.
  - destruct (types.IsNull (AccountDataSourceModel.Identifier data)); cbn [negb]; ran;
      [by rewrite Hclean | by rewrite HasError_AddError].
Qed.

(** The lookup of [TestAccAccountDataSource]. *)
Lemma lookup_of_the_test_account :
  let d := {| AccountDataSource.client := testdata.testServer |} in
  let config :=
    {| AccountDataSourceModel.UUID := types.StringNull;
       AccountDataSourceModel.Description := types.StringNull;
       AccountDataSourceModel.DN := types.StringNull;
       AccountDataSourceModel.Email := types.StringNull;
       AccountDataSourceModel.Folders := types.ListNull;
       AccountDataSourceModel.Identifier := types.StringValue "jdoe";
       AccountDataSourceModel.Kind := types.StringNull;
       AccountDataSourceModel.LocalAuth := types.BoolNull;
       AccountDataSourceModel.Name := types.StringNull;
       AccountDataSourceModel.Permissions := types.ListNull |} in
  let req := {| fw.Config := testdata.readable config |} in
  let out := AccountDataSource.Read d req testdata.fresh in
  diag.HasError
    (diag.Append (fw.Diagnostics (M := AccountDataSourceModel.t) testdata.fresh)
       (snd (tfsdk.Get (fw.Config req)))) = false
  /\ fw.State (fw.resp out) = Some (readAccountDataSourceModel config testdata.jdoe).
Proof.
  intros d config req out. split; [reflexivity|].
  exact (proj1 (lookup_stores_exactly_on_200_with_body d req testdata.fresh eq_refl)).
Defined.

(** ** The earlier revision of the lookup *)

Lemma appendAll_from_slice (elements : list types.String) (xs : list string) :
  AccountDataSourceEarlier.appendAll (Some elements) xs
  = Some (elements ++ map types.StringValue xs).
Proof.
  revert elements. induction xs as [|x xs IH]; intros elements.
  - cbn. by rewrite app_nil_r.
  - cbn [AccountDataSourceEarlier.appendAll fold_left map].
    unfold AccountDataSourceEarlier.append_ at 2. cbn [default from_option id].
    change (fold_left _ xs ?s) with (AccountDataSourceEarlier.appendAll s xs).
    rewrite IH. by rewrite <- app_assoc.
Qed.

(** Appending the server's list to a nil slice: the slice stays nil when
    the list is empty. *)
Lemma appendAll_from_nil (xs : list string) :
  AccountDataSourceEarlier.appendAll None xs
  = match xs with
    | [] => None
    | _ => Some (map types.StringValue xs)
    end.
Proof.
  destruct xs as [|x xs]; [reflexivity|].
  cbn [AccountDataSourceEarlier.appendAll fold_left].
  unfold AccountDataSourceEarlier.append_ at 2. cbn [default from_option id app].
  change (fold_left _ xs ?s) with (AccountDataSourceEarlier.appendAll s xs).
  by rewrite appendAll_from_slice.
Qed.

(** The earlier revision against the current one, on a configuration
    whose lists are unset (they are computed attributes) and an exchange
    that gives status 200 and a body: both store the same record, except
    that a list the server sent empty is stored unset by the earlier
    revision and as the set, empty list by the current one. *)
Theorem earlier_lookup_takes_empty_lists_for_unset
    (d : AccountDataSource.t) (config : AccountDataSourceEarlier.Model)
    (respAPI : smc.Response smc.Account)
    (item : smc.DefinitionsAccountsAccountPropertiesWithoutPassword) :
  AccountDataSourceEarlier.Folders config = None ->
  AccountDataSourceEarlier.Permissions config = None ->
  smc.GetApiAccountsUuidWithResponse (AccountDataSource.client d)
    (types.ValueString (AccountDataSourceEarlier.Identifier config)) = inl respAPI ->
  smc.StatusCode respAPI = 200 ->
  smc.JSON200 respAPI = Some item ->
  let earlier :=
    AccountDataSourceEarlier.Read d {| fw.Config := testdata.readable config |}
      testdata.fresh in
  let now :=
    AccountDataSource.Read d
      {| fw.Config := testdata.readable (AccountDataSourceEarlier.current config) |}
      testdata.fresh in
  exists stored,
    fw.State (fw.resp now) = Some stored
    /\ AccountDataSourceEarlier.current <$> fw.State (fw.resp earlier)
       = Some
           {| AccountDataSourceModel.UUID := AccountDataSourceModel.UUID stored;
              AccountDataSourceModel.Description := AccountDataSourceModel.Description stored;
              AccountDataSourceModel.DN := AccountDataSourceModel.DN stored;
              AccountDataSourceModel.Email := AccountDataSourceModel.Email stored;
              AccountDataSourceModel.Folders :=
                emptyAsUnset (AccountDataSourceModel.Folders stored);
              AccountDataSourceModel.Identifier := AccountDataSourceModel.Identifier stored;
              AccountDataSourceModel.Kind := AccountDataSourceModel.Kind stored;
              AccountDataSourceModel.LocalAuth := AccountDataSourceModel.LocalAuth stored;
              AccountDataSourceModel.Name := AccountDataSourceModel.Name stored;
              AccountDataSourceModel.Permissions :=
                emptyAsUnset (AccountDataSourceModel.Permissions stored) |}
    /\ fw.Diagnostics (fw.resp earlier) = fw.Diagnostics (fw.resp now)
    /\ fw.requests earlier = fw.requests now.
Proof.
  intros Hfolders Hpermissions Hcall Hstatus Hbody earlier now. subst earlier now.
  unfold AccountDataSourceEarlier.Read, AccountDataSource.Read, testdata.readable,
    testdata.fresh, http.StatusOK.
  cbn [tfsdk.Get fw.Config fst snd]. ran.
  cbn [AccountDataSourceEarlier.ret diag.Append diag.HasError existsb
       AccountDataSourceEarlier.current AccountDataSourceModel.Identifier].
  rewrite Hcall, Hstatus, Hbody, Hfolders, Hpermissions. cbn [Z.eqb Pos.eqb negb].
  cbn [fw.SetState tfsdk.Set_]. ran.
  cbn [AccountDataSourceEarlier.ret fw.resp fw.requests fw.State fw.Diagnostics
       diag.Append].
  eexists. split; [reflexivity|]. split; [|done].
  cbn [fmap option_fmap option_map AccountDataSourceEarlier.current
       AccountDataSourceEarlier.UUID AccountDataSourceEarlier.Description
       AccountDataSourceEarlier.DN AccountDataSourceEarlier.Email
       AccountDataSourceEarlier.Folders AccountDataSourceEarlier.Identifier
       AccountDataSourceEarlier.Kind AccountDataSourceEarlier.LocalAuth
       AccountDataSourceEarlier.Name AccountDataSourceEarlier.Permissions].
  unfold readAccountDataSourceModel.
  cbn [AccountDataSourceModel.UUID AccountDataSourceModel.Description
       AccountDataSourceModel.DN AccountDataSourceModel.Email
       AccountDataSourceModel.Folders AccountDataSourceModel.Identifier
       AccountDataSourceModel.Kind AccountDataSourceModel.LocalAuth
       AccountDataSourceModel.Name AccountDataSourceModel.Permissions].
  assert (Hlist : forall wire : option (list string),
             AccountDataSourceEarlier.listOf
               match wire with
               | Some xs => AccountDataSourceEarlier.appendAll None xs
               | None => None
               end
             = emptyAsUnset
                 match wire with
                 | Some xs => fst (types.ListValue types.StringType (stringAttrs xs))
                 | None => types.ListNull
                 end).
  { intros [xs|]; [|reflexivity].
    rewrite appendAll_from_nil, ListValue_strings. cbn [fst].
    destruct xs as [|x xs]; [reflexivity|].
    cbn [AccountDataSourceEarlier.listOf emptyAsUnset map]. by rewrite map_map. }
  unfold AccountDataSourceEarlier.current.
  cbn [AccountDataSourceEarlier.UUID AccountDataSourceEarlier.Description
       AccountDataSourceEarlier.DN AccountDataSourceEarlier.Email
       AccountDataSourceEarlier.Folders AccountDataSourceEarlier.Identifier
       AccountDataSourceEarlier.Kind AccountDataSourceEarlier.LocalAuth
       AccountDataSourceEarlier.Name AccountDataSourceEarlier.Permissions
       AccountDataSourceModel.Folders AccountDataSourceModel.Permissions].
  rewrite Hfolders, Hpermissions.
  change (AccountDataSourceEarlier.listOf None) with types.ListNull.
  by rewrite !Hlist.
Qed.

(** The account of the tests with its folders sent as the empty list. *)
Lemma earlier_lookup_of_an_account_without_folders :
  let item :=
    {| smc.Description := None; smc.Dn := None; smc.Email := None;
       smc.Folders := Some []; smc.Identifier := Some "jdoe"; smc.Kind := None;
       smc.LocalAuth := None; smc.Name := None; smc.Permissions := Some ["smc"];
       smc.Uuid := testdata.uuid |} in
  let answer := {| smc.Status := "200 OK"; smc.StatusCode := 200; smc.JSON := Some item |} in
  let d := {| AccountDataSource.client :=
                testdata.server (testdata.answer "200 OK" 200 None)
                  (testdata.answer "200 OK" 200 None) (inl answer)
                  (testdata.answer "200 OK" 200 None)
                  (testdata.answer "200 OK" 200 None) |} in
  let config :=
    {| AccountDataSourceEarlier.UUID := types.StringNull;
       AccountDataSourceEarlier.Description := types.StringNull;
       AccountDataSourceEarlier.DN := types.StringNull;
       AccountDataSourceEarlier.Email := types.StringNull;
       AccountDataSourceEarlier.Folders := None;
       AccountDataSourceEarlier.Identifier := types.StringValue "jdoe";
       AccountDataSourceEarlier.Kind := types.StringNull;
       AccountDataSourceEarlier.LocalAuth := types.BoolNull;
       AccountDataSourceEarlier.Name := types.StringNull;
       AccountDataSourceEarlier.Permissions := None |} in
  let earlier :=
    AccountDataSourceEarlier.Read d {| fw.Config := testdata.readable config |}
      testdata.fresh in
  let now :=
    AccountDataSource.Read d
      {| fw.Config := testdata.readable (AccountDataSourceEarlier.current config) |}
      testdata.fresh in
  AccountDataSourceEarlier.Folders config = None
  /\ AccountDataSourceEarlier.Folders <$> fw.State (fw.resp earlier) = Some None
  /\ AccountDataSourceModel.Folders <$> fw.State (fw.resp now) = Some (types.ListKnown [])
  /\ fw.Diagnostics (fw.resp earlier) = fw.Diagnostics (fw.resp now).
Proof.
  intros item answer d config earlier now. split; [reflexivity|].
  destruct (earlier_lookup_takes_empty_lists_for_unset d config answer item
              eq_refl eq_refl eq_refl eq_refl eq_refl) as (stored & _ & _ & Hdiags & _).
  split; [reflexivity|]. split; [reflexivity | exact Hdiags].
Defined.
